(** * activate-new-users-in-CIS: a shallow embedding of the Auth0 rule

    The rule [rules/activate-new-users-in-CIS.js] provisions a freshly
    authenticated user in the CIS person store.  This development embeds
    the rule's data (JavaScript values as they come out of [JSON.parse]),
    its synchronous gates, the bearer-token cache, the profile builder,
    the recursive signer and the promise chain, and states the properties
    of the design document against that embedding.

    Conventions of the embedding
    - a JavaScript value is a [jsval]; objects and arrays are both
      [VObj], tagged with their class, holding their own enumerable
      properties in enumeration order (an array [[x]] is
      [VObj Array [("0", x)]]);
    - numbers are the integer-valued ones ([Z]); fractional numbers are
      outside the embedding;
    - a JavaScript exception is [Throw]; the rule body carries no
      ['use strict'] directive, so a property written on a primitive is
      silently dropped;
    - the outside world (clock, network, metadata store, [jwt.sign],
      decoding of the skeleton) is a [host] of answers, one per call, so
      that a statement over all hosts is a statement over all outcomes
      of the external calls;
    - what the rule does to the outside world is a trace of events: the
      requests it sends, the payloads it signs, the metadata updates it
      starts, the lines it logs and its invocations of the completion
      hook;
    - a run of the rule is followed until nothing of the invocation is
      left pending: the synchronous part, the promise chain, and the
      settling of the metadata updates the chain did not wait for. *)

From Stdlib Require Import String Ascii List ZArith Bool Lia DecimalString.
Import ListNotations.
Local Open Scope string_scope.
Local Open Scope Z_scope.
Local Open Scope list_scope.

(** ** JavaScript values *)

Inductive objclass := Plain | Array.

Unset Elimination Schemes.
Inductive jsval :=
| VUndef
| VNull
| VBool (b : bool)
| VNum (z : Z)
| VStr (s : string)
| VObj (cls : objclass) (props : list (string * jsval)).
Set Elimination Schemes.

Definition props_t := list (string * jsval).

Section jsval_induction.
Variable P : jsval -> Prop.
Hypothesis HUndef : P VUndef.
Hypothesis HNull : P VNull.
Hypothesis HBool : forall b, P (VBool b).
Hypothesis HNum : forall z, P (VNum z).
Hypothesis HStr : forall s, P (VStr s).
Hypothesis HObj :
  forall cls props, Forall (fun kv => P (snd kv)) props -> P (VObj cls props).

Fixpoint jsval_ind (v : jsval) : P v :=
  match v with
  | VUndef => HUndef
  | VNull => HNull
  | VBool b => HBool b
  | VNum z => HNum z
  | VStr s => HStr s
  | VObj cls props =>
      HObj cls props
        ((fix children (l : props_t) : Forall (fun kv => P (snd kv)) l :=
            match l with
            | [] => Forall_nil _
            | kv :: r => Forall_cons kv (jsval_ind (snd kv)) (children r)
            end) props)
  end.
End jsval_induction.

(** Exceptions the rule can meet.  [TypeError] is the engine's own (a
    property read or written on [null]/[undefined]); the others are the
    [throw Error(...)] sites of the rule and the failures of its
    collaborators. *)
Inductive exn :=
| TypeError
| SyntaxError
| URIError
| FetchError
| JwtError
| BearerTokenError
| ProfileExistsError
| ChangeApiError.

Inductive result (A : Type) :=
| Ok (a : A)
| Throw (e : exn).
Arguments Ok {A} a.
Arguments Throw {A} e.

Definition rbind {A B} (r : result A) (f : A -> result B) : result B :=
  match r with
  | Ok a => f a
  | Throw e => Throw e
  end.

Declare Scope js_scope.
Delimit Scope js_scope with js.
Notation "'let!' x ':=' r 'in' k" := (rbind r (fun x => k))
  (at level 10, x name, r at level 100, k at level 200) : js_scope.
Local Open Scope js_scope.

(** *** Truthiness, [typeof], [===] against the constants the rule uses *)

Definition truthy (v : jsval) : bool :=
  match v with
  | VUndef | VNull => false
  | VBool b => b
  | VNum z => negb (z =? 0)
  | VStr s => negb (String.eqb s "")
  | VObj _ _ => true
  end.

(** [a || b] *)
Definition js_or (a b : jsval) : jsval := if truthy a then a else b.

Definition is_null (v : jsval) : bool :=
  match v with VNull => true | _ => false end.

Definition is_number (v : jsval) : bool :=
  match v with VNum _ => true | _ => false end.

(** [v === s] for a string literal [s] *)
Definition eq_str (v : jsval) (s : string) : bool :=
  match v with VStr t => String.eqb t s | _ => false end.

(** [v === n] for a number literal [n] *)
Definition eq_num (v : jsval) (n : Z) : bool :=
  match v with VNum z => z =? n | _ => false end.

(** [v === true] *)
Definition eq_true (v : jsval) : bool :=
  match v with VBool true => true | _ => false end.

(** [Number.prototype.toString] on an integer-valued number, for the
    integers JavaScript prints digit by digit: those of magnitude below
    2^53; beyond, it rounds, and from 1e21 on it uses an exponent. *)
Definition number_toString (z : Z) : string :=
  NilZero.string_of_int (Z.to_int z).

(** *** Own properties *)

Fixpoint own (k : string) (ps : props_t) : option jsval :=
  match ps with
  | [] => None
  | (k', x) :: r => if String.eqb k k' then Some x else own k r
  end.

(** [o[k] = x] on an object: an existing key keeps its place, a new key
    goes last. *)
Fixpoint put (k : string) (x : jsval) (ps : props_t) : props_t :=
  match ps with
  | [] => [(k, x)]
  | (k', y) :: r =>
      if String.eqb k k' then (k, x) :: r else (k', y) :: put k x r
  end.

(** [delete o[k]] *)
Fixpoint del (k : string) (ps : props_t) : props_t :=
  match ps with
  | [] => []
  | (k', y) :: r => if String.eqb k k' then del k r else (k', y) :: del k r
  end.

(** The own property [k] of [v], [undefined] when there is none. *)
Definition own_or_undefined (k : string) (v : jsval) : jsval :=
  match v with
  | VObj _ ps => match own k ps with Some x => x | None => VUndef end
  | _ => VUndef
  end.

(** [v.k] for the property names the rule reads: none of them lives on a
    prototype, so the read is an own-property lookup, [undefined] on a
    primitive, and a [TypeError] on [null] and [undefined]. *)
Definition get_prop (v : jsval) (k : string) : result jsval :=
  match v with
  | VUndef | VNull => Throw TypeError
  | VObj _ ps => Ok (match own k ps with Some x => x | None => VUndef end)
  | VBool _ | VNum _ | VStr _ => Ok VUndef
  end.

(** [v.k = x] *)
Definition set_prop (v : jsval) (k : string) (x : jsval) : result jsval :=
  match v with
  | VUndef | VNull => Throw TypeError
  | VObj c ps => Ok (VObj c (put k x ps))
  | VBool _ | VNum _ | VStr _ => Ok v
  end.

(** The object [o] after the object it holds under [k] was mutated in
    place into [child]. *)
Definition store (o : jsval) (k : string) (child : jsval) : jsval :=
  match o with
  | VObj c ps => VObj c (put k child ps)
  | _ => o
  end.

(** [o.p1.p2. ... .k = x]: the chain [o.p1.p2...] is read, the last
    object is written, and every object on the way is the same object as
    before, now holding the mutated child. *)
Fixpoint assign (o : jsval) (path : list string) (k : string) (x : jsval)
  : result jsval :=
  match path with
  | [] => set_prop o k x
  | p :: rest =>
      let! child := get_prop o p in
      let! child' := assign child rest k x in
      Ok (store o p child')
  end.

(** [o.p1.p2. ... .pn] *)
Fixpoint read (o : jsval) (path : list string) : result jsval :=
  match path with
  | [] => Ok o
  | p :: rest => let! child := get_prop o p in read child rest
  end.

(** [v.constructor === Object]: a [TypeError] on [null]/[undefined]; true
    of an object literal or a parsed JSON object that has no own
    property called [constructor]. *)
Definition constructor_is_Object (v : jsval) : result bool :=
  match v with
  | VUndef | VNull => Throw TypeError
  | VObj Plain ps =>
      Ok (match own "constructor" ps with None => true | Some _ => false end)
  | VObj Array _ | VBool _ | VNum _ | VStr _ => Ok false
  end.

(** ** Constants of the rule *)

Definition AUTH0_TIMEOUT : Z := 5000.
Definition CHANGEAPI_TIMEOUT : Z := 14000.
Definition PERSONAPI_BEARER_TOKEN_REFRESH_AGE : Z := 64800.
Definition PERSONAPI_TIMEOUT : Z := 5000.
Definition PUBLISHER_NAME : string := "access_provider".
Definition WHITELISTED_CONNECTIONS : list string :=
  ["email"; "firefoxaccounts"; "github"; "google-oauth2"; "oauth2"].

(** [WHITELISTED_CONNECTIONS.includes(v)] *)
Definition whitelisted (v : jsval) : bool :=
  existsb (eq_str v) WHITELISTED_CONNECTIONS.

(** ** The attribute signer *)

(** The signer's effect besides mutation is its calls to [jwt.sign]; a
    computation of the signer yields the payloads it handed to
    [jwt.sign], in call order, and its result. *)
Definition signing (A : Type) : Type := (list jsval * result A)%type.

Definition sret {A} (a : A) : signing A := ([], Ok a).
Definition sthrow {A} (e : exn) : signing A := ([], Throw e).
Definition slift {A} (r : result A) : signing A := ([], r).
Definition sbind {A B} (m : signing A) (f : A -> signing B) : signing B :=
  match m with
  | (l, Ok a) => let (l', r) := f a in (l ++ l', r)
  | (l, Throw e) => (l, Throw e)
  end.

Notation "'do!' x ':=' m 'in' k" := (sbind m (fun x => k))
  (at level 10, x name, m at level 100, k at level 200) : js_scope.

Section Signer.
(** [jwt.sign(payload, privateKey, { algorithm: 'RS256', noTimestamp:
    true })] for the invocation's private key; [None] when it throws. *)
Variable sign : jsval -> option string.

Definition jwt_sign_call (payload : jsval) : signing string :=
  match sign payload with
  | Some s => ([payload], Ok s)
  | None => ([payload], Throw JwtError)
  end.

(** The signature envelope of lines 275-288. *)
Definition envelope (s : string) : jsval :=
  VObj Plain
    [ ("additional",
        VObj Array
          [ ("0", VObj Plain [ ("alg", VStr "RS256"); ("name", VNull);
                               ("typ", VStr "JWS"); ("value", VStr "") ]) ]);
      ("publisher",
        VObj Plain [ ("alg", VStr "RS256"); ("name", VStr PUBLISHER_NAME);
                     ("typ", VStr "JWS"); ("value", VStr s) ]) ].

(** Lines 268-270: a truthy number under [value] becomes its string. *)
Definition coerce_value (attr : jsval) : result jsval :=
  let! v := get_prop attr "value" in
  if truthy v && is_number v
  then match v with
       | VNum z => set_prop attr "value" (VStr (number_toString z))
       | _ => Ok attr
       end
  else Ok attr.

(** [delete(attr.signature)] *)
Definition delete_signature (attr : jsval) : jsval :=
  match attr with
  | VObj c ps => VObj c (del "signature" ps)
  | _ => attr
  end.

(** The guard of line 263, with its left-to-right short circuit:
    [true] when the attribute is returned untouched. *)
Definition sign_guard (attr : jsval) : result bool :=
  let! sig := get_prop attr "signature" in
  if negb (truthy sig) then Ok true else
  let! pub := get_prop sig "publisher" in
  let! name := get_prop pub "name" in
  if negb (eq_str name PUBLISHER_NAME) then Ok true else
  let! v := get_prop attr "value" in
  if is_null v then Ok true else
  let! vs := get_prop attr "values" in
  Ok (is_null vs).

Definition signAttribute (attr : jsval) : signing jsval :=
  do! skip := slift (sign_guard attr) in
  if (skip : bool) then sret attr else
  do! attr1 := slift (coerce_value attr) in
  let payload := delete_signature attr1 in
  do! s := jwt_sign_call payload in
  slift (set_prop payload "signature" (envelope s)).

(** The callback of [forEach] at lines 248-254; [descend] is the
    recursive call [signAll(attr)]. *)
Definition forEach_callback (descend : jsval -> signing jsval)
    (attr : jsval) : signing jsval :=
  do! isObj := slift (constructor_is_Object attr) in
  do! sig := slift (get_prop attr "signature") in
  if (isObj : bool) && truthy sig then signAttribute attr
  else if isObj && negb (truthy sig) then descend attr
  else sret attr.

(** [signAll]: [Object.values(profile).forEach(...)], each child
    replaced by what the callback left of it.  [Object.values] of a
    string yields its characters, which the callback ignores. *)
Fixpoint signAll (profile : jsval) : signing jsval :=
  match profile with
  | VUndef | VNull => sthrow TypeError
  | VBool _ | VNum _ | VStr _ => sret profile
  | VObj c ps =>
      do! ps' :=
        (fix forEach (l : props_t) : signing props_t :=
           match l with
           | [] => sret []
           | (k, attr) :: r =>
               do! attr' := forEach_callback signAll attr in
               do! r' := forEach r in
               sret ((k, attr') :: r')
           end) ps in
      sret (VObj c ps')
  end.

(** The [forEach] loop of [signAll], by name. *)
Fixpoint forEach (l : props_t) : signing props_t :=
  match l with
  | [] => sret []
  | (k, attr) :: r =>
      do! attr' := forEach_callback signAll attr in
      do! r' := forEach r in
      sret ((k, attr') :: r')
  end.
End Signer.

(** ** Inputs of the rule *)

Record identity := {
  connection : jsval;
  provider : jsval;
  identity_user_id : jsval;      (* identity.user_id *)
  profileData : jsval
}.

Record user := {
  user_id : jsval;
  email : jsval;
  given_name : jsval;
  name : jsval;
  family_name : jsval;
  nickname : jsval;
  identities : list identity;
  user_metadata : option props_t   (* a mapping, when there is one *)
}.

Record context := {
  connectionStrategy : jsval;
  primaryUser : jsval;
  primaryUserMetadata : option props_t
}.

(** The configuration bag; [None] is a key that is not configured. *)
Record configuration := {
  changeapi_auth0_private_key : option string;
  changeapi_null_profile : option string;
  changeapi_url : option string;
  personapi_client_id : option string;
  personapi_client_secret : option string;
  personapi_url : option string;
  personapi_audience : option string;
  personapi_oauth_url : option string
}.

(** [configuration.k] as a value *)
Definition conf (o : option string) : jsval :=
  match o with
  | Some s => VStr s
  | None => VUndef
  end.

(** [String.prototype.includes] *)
Fixpoint includes (s sub : string) : bool :=
  if prefix sub s then true
  else match s with
       | EmptyString => false
       | String _ r => includes r sub
       end.

(** ** The profile builder (lines 105-195) *)

Definition stamp (now : string) (attr : list string) (p : jsval)
  : result jsval :=
  let! p := assign p (attr ++ ["metadata"]) "last_modified" (VStr now) in
  assign p (attr ++ ["signature"; "publisher"]) "name" (VStr PUBLISHER_NAME).

Definition display_private (attr : list string) (p : jsval) : result jsval :=
  assign p (attr ++ ["metadata"]) "display" (VStr "private").

(** Lines 139-143: the login method is stored at the first index. *)
Definition store_login_method (now : string) (i : nat) (idn : identity)
    (p : jsval) : result jsval :=
  if Nat.eqb i 0 then
    let! p := stamp now ["login_method"] p in
    assign p ["login_method"] "value" (connection idn)
  else Ok p.

(** Lines 145-194: the mapping by provider. *)
Definition map_provider (u : user) (now : string) (idn : identity)
    (p : jsval) : result jsval :=
  if eq_str (provider idn) "github" then
    let! p := display_private ["identities"; "github_id_v3"] p in
    let! p := stamp now ["identities"; "github_id_v3"] p in
    let! p := assign p ["identities"; "github_id_v3"] "value"
                (identity_user_id idn) in
    let! p :=
      if truthy (nickname u) then
        let! p := display_private ["usernames"] p in
        let! p := assign p ["usernames"; "signature"; "publisher"] "name"
                    (VStr PUBLISHER_NAME) in
        assign p ["usernames"] "values"
          (VObj Plain [("HACK#GITHUB", nickname u)])
      else Ok p in
    if truthy (profileData idn) then
      let! p := display_private ["identities"; "github_id_v4"] p in
      let! p := stamp now ["identities"; "github_id_v4"] p in
      let! node_id := get_prop (profileData idn) "node_id" in
      let! p := assign p ["identities"; "github_id_v4"] "value" node_id in
      let! p := display_private ["identities"; "github_primary_email"] p in
      let! p := assign p ["identities"; "github_primary_email"; "metadata"]
                  "last_modified" (VStr now) in
      let! verified := get_prop (profileData idn) "email_verified" in
      let! p := assign p ["identities"; "github_primary_email"; "metadata"]
                  "verified" (VBool (eq_true verified)) in
      let! p := assign p
                  ["identities"; "github_primary_email"; "signature";
                   "publisher"] "name" (VStr PUBLISHER_NAME) in
      let! mail := get_prop (profileData idn) "email" in
      assign p ["identities"; "github_primary_email"] "value" mail
    else Ok p
  else if eq_str (provider idn) "google-oauth2" then
    let! p := display_private ["identities"; "google_oauth2_id"] p in
    let! p := stamp now ["identities"; "google_oauth2_id"] p in
    let! p := assign p ["identities"; "google_oauth2_id"] "value"
                (identity_user_id idn) in
    let! p := display_private ["identities"; "google_primary_email"] p in
    let! p := stamp now ["identities"; "google_primary_email"] p in
    assign p ["identities"; "google_primary_email"] "value" (email u)
  else if eq_str (connection idn) "firefoxaccounts"
          && eq_str (provider idn) "oauth2" then
    let! p := display_private ["identities"; "firefox_accounts_id"] p in
    let! p := stamp now ["identities"; "firefox_accounts_id"] p in
    let! p := assign p ["identities"; "firefox_accounts_id"] "value"
                (identity_user_id idn) in
    let! p := display_private
                ["identities"; "firefox_accounts_primary_email"] p in
    let! p := stamp now ["identities"; "firefox_accounts_primary_email"] p in
    assign p ["identities"; "firefox_accounts_primary_email"] "value"
      (email u)
  else Ok p.

(** The body of the loop over [user.identities] at index [i]. *)
Definition map_identity (u : user) (now : string) (i : nat)
    (idn : identity) (p : jsval) : result jsval :=
  if negb (whitelisted (connection idn)) then Ok p else
  let! p := store_login_method now i idn p in
  map_provider u now idn p.

(** [for (let i = 0; i < user.identities.length; i++)], entered at index
    [i] with the identities from [i] on. *)
Fixpoint identities_loop (u : user) (now : string) (i : nat)
    (ids : list identity) (p : jsval) : result jsval :=
  match ids with
  | [] => Ok p
  | idn :: rest =>
      let! p := map_identity u now i idn p in
      identities_loop u now (S i) rest p
  end.

(** Lines 105-195: the writes on the decoded skeleton [profile]. *)
Definition populate (u : user) (USER_ID : jsval) (now : string)
    (profile : jsval) : result jsval :=
  let! p := stamp now ["active"] profile in
  let! p := assign p ["active"] "value" (VBool true) in
  let! p := display_private ["first_name"] p in
  let! p := stamp now ["first_name"] p in
  let! p := assign p ["first_name"] "value"
              (js_or (given_name u)
                 (js_or (name u)
                    (js_or (family_name u)
                       (js_or (nickname u) (VStr " "))))) in
  let! p := display_private ["last_name"] p in
  let! p := stamp now ["last_name"] p in
  let! p := assign p ["last_name"] "value"
              (if truthy (family_name u) then family_name u else VStr " ") in
  let! p := stamp now ["primary_email"] p in
  let! p := assign p ["primary_email"] "value" (email u) in
  let! p := stamp now ["user_id"] p in
  let! p := assign p ["user_id"] "value" USER_ID in
  identities_loop u now 0 (identities u) p.

(** ** The host: network, clock, metadata store, completion hook *)

(** The three URLs the rule builds. *)
Inductive url :=
| OAuthUrl (u : jsval)
    (* configuration.personapi_oauth_url *)
| PersonUrl (base : jsval) (uid : string)
    (* `${personapi_url}/v2/user/user_id/${encodeURI(USER_ID)}?active=any` *)
| ChangeUrl (base : jsval) (uid : string).
    (* `${changeapi_url}/v2/user?user_id=${encodeURI(USER_ID)}` *)

Record request := {
  req_url : url;
  req_method : string;
  req_bearer : option jsval;     (* the Authorization header, when sent *)
  req_body : option jsval;       (* the value handed to JSON.stringify *)
  req_timeout : Z
}.

(** What a [fetch] comes to: the promise rejects (transport failure,
    timeout), or a response arrives whose [json()] yields a value or
    rejects ([None]: the body is not JSON).  node-fetch resolves on every
    status code. *)
Inductive fetch_outcome :=
| Rejected
| Responded (status : Z) (body : option jsval).

(** The lines the rule writes with [console.log], without their
    interpolated text. *)
Inductive log_line :=
| LogConfigurationMissing      (* line 20 *)
| LogPersonApiMisconfigured    (* line 29 *)
| LogRetrievingBearer          (* line 61 *)
| LogRetrievedBearer           (* line 85 *)
| LogGeneratingProfile         (* line 93 *)
| LogFetchingProfile           (* line 216 *)
| LogPostingProfile            (* line 224 *)
| LogMetadataUpdated           (* line 299 *)
| LogProfileCreated            (* line 321 *)
| LogError (e : exn).          (* line 332 *)

Inductive event :=
| EvLog (l : log_line)
| EvFetch (r : request)
| EvJwtSign (payload : jsval)
| EvUpdateUserMetadata (uid : jsval) (metadata : props_t)
| EvUpdateSettled (ok : bool)
| EvUnhandledRejection
| EvCallback (err : option exn) (u : user) (c : context).

(** The answers of the outside world.  Calls are numbered in the order
    the rule makes them, so that every sequence of answers is a host. *)
Record host := {
  Date_now : nat -> Z;
      (* milliseconds since the epoch at the n-th reading of the clock *)
  toISOString : Z -> string;
  encodeURI : jsval -> option string;
      (* None when it throws (a lone surrogate) *)
  fetch : nat -> request -> fetch_outcome;
  updateUserMetadata : nat -> jsval -> props_t -> bool;
      (* whether the promise of the n-th update, called with this user
         id and metadata, resolves *)
  jwt_sign : string -> jsval -> option string;
      (* jwt.sign under the given (base64) private key *)
  JSON_parse_base64 : string -> option jsval
      (* JSON.parse(Buffer.from(s, 'base64')); None when it throws *)
}.

(** [METADATA] is one of three objects; writes through it are seen by
    whoever holds the user or the context. *)
Inductive metadata_ref := MetadataOfPrimary | MetadataOfUser | MetadataFresh.

(** An update of the user's metadata that was started and has not
    settled: its number among the updates, and its arguments. *)
Record pending_update := {
  upd_index : nat;
  upd_user_id : jsval;
  upd_metadata : props_t
}.

Record world := {
  personapi_bearer_token : jsval;                 (* global.* *)
  personapi_bearer_token_creation_time : option Z;
  the_user : user;
  the_context : context;
  fresh_metadata : props_t;       (* the literal {} of line 4 *)
  clock_reads : nat;
  fetch_calls : nat;
  update_calls : nat;
  in_flight : list pending_update; (* updates started, not yet settled *)
  trace : list event              (* oldest first *)
}.

Definition emit (e : event) (w : world) : world :=
  {| personapi_bearer_token := personapi_bearer_token w;
     personapi_bearer_token_creation_time :=
       personapi_bearer_token_creation_time w;
     the_user := the_user w; the_context := the_context w;
     fresh_metadata := fresh_metadata w;
     clock_reads := clock_reads w; fetch_calls := fetch_calls w;
     update_calls := update_calls w; in_flight := in_flight w;
     trace := trace w ++ [e] |}.

Definition set_global (tok : jsval) (t : option Z) (w : world) : world :=
  {| personapi_bearer_token := tok;
     personapi_bearer_token_creation_time := t;
     the_user := the_user w; the_context := the_context w;
     fresh_metadata := fresh_metadata w;
     clock_reads := clock_reads w; fetch_calls := fetch_calls w;
     update_calls := update_calls w; in_flight := in_flight w;
     trace := trace w |}.

Definition tick_clock (w : world) : world :=
  {| personapi_bearer_token := personapi_bearer_token w;
     personapi_bearer_token_creation_time :=
       personapi_bearer_token_creation_time w;
     the_user := the_user w; the_context := the_context w;
     fresh_metadata := fresh_metadata w;
     clock_reads := S (clock_reads w); fetch_calls := fetch_calls w;
     update_calls := update_calls w; in_flight := in_flight w;
     trace := trace w |}.

Definition tick_fetch (w : world) : world :=
  {| personapi_bearer_token := personapi_bearer_token w;
     personapi_bearer_token_creation_time :=
       personapi_bearer_token_creation_time w;
     the_user := the_user w; the_context := the_context w;
     fresh_metadata := fresh_metadata w;
     clock_reads := clock_reads w; fetch_calls := S (fetch_calls w);
     update_calls := update_calls w; in_flight := in_flight w;
     trace := trace w |}.

Definition issue_update (u : pending_update) (w : world) : world :=
  {| personapi_bearer_token := personapi_bearer_token w;
     personapi_bearer_token_creation_time :=
       personapi_bearer_token_creation_time w;
     the_user := the_user w; the_context := the_context w;
     fresh_metadata := fresh_metadata w;
     clock_reads := clock_reads w; fetch_calls := fetch_calls w;
     update_calls := S (update_calls w); in_flight := in_flight w ++ [u];
     trace := trace w |}.

Definition clear_in_flight (w : world) : world :=
  {| personapi_bearer_token := personapi_bearer_token w;
     personapi_bearer_token_creation_time :=
       personapi_bearer_token_creation_time w;
     the_user := the_user w; the_context := the_context w;
     fresh_metadata := fresh_metadata w;
     clock_reads := clock_reads w; fetch_calls := fetch_calls w;
     update_calls := update_calls w; in_flight := [];
     trace := trace w |}.

Definition with_user_metadata (u : user) (m : option props_t) : user :=
  {| user_id := user_id u; email := email u; given_name := given_name u;
     name := name u; family_name := family_name u; nickname := nickname u;
     identities := identities u; user_metadata := m |}.

Definition with_primaryUserMetadata (c : context) (m : option props_t)
  : context :=
  {| connectionStrategy := connectionStrategy c;
     primaryUser := primaryUser c; primaryUserMetadata := m |}.

(** [context.primaryUserMetadata || user.user_metadata || {}] *)
Definition METADATA_ref (u : user) (c : context) : metadata_ref :=
  match primaryUserMetadata c, user_metadata u with
  | Some _, _ => MetadataOfPrimary
  | None, Some _ => MetadataOfUser
  | None, None => MetadataFresh
  end.

Definition mapping (o : option props_t) : props_t :=
  match o with
  | Some m => m
  | None => []
  end.

(** The object [METADATA] stands for. *)
Definition METADATA (r : metadata_ref) (w : world) : props_t :=
  match r with
  | MetadataOfPrimary => mapping (primaryUserMetadata (the_context w))
  | MetadataOfUser => mapping (user_metadata (the_user w))
  | MetadataFresh => fresh_metadata w
  end.

Definition set_METADATA (r : metadata_ref) (m : props_t) (w : world) : world :=
  {| personapi_bearer_token := personapi_bearer_token w;
     personapi_bearer_token_creation_time :=
       personapi_bearer_token_creation_time w;
     the_user := match r with
                 | MetadataOfUser => with_user_metadata (the_user w) (Some m)
                 | _ => the_user w
                 end;
     the_context := match r with
                    | MetadataOfPrimary =>
                        with_primaryUserMetadata (the_context w) (Some m)
                    | _ => the_context w
                    end;
     fresh_metadata := match r with
                       | MetadataFresh => m
                       | _ => fresh_metadata w
                       end;
     clock_reads := clock_reads w; fetch_calls := fetch_calls w;
     update_calls := update_calls w; in_flight := in_flight w;
     trace := trace w |}.

(** ** Computations of the promise chain: state and rejection *)

Definition M (A : Type) : Type := world -> result A * world.

Definition mret {A} (a : A) : M A := fun w => (Ok a, w).
Definition mthrow {A} (e : exn) : M A := fun w => (Throw e, w).
Definition mbind {A B} (m : M A) (f : A -> M B) : M B :=
  fun w => match m w with
           | (Ok a, w') => f a w'
           | (Throw e, w') => (Throw e, w')
           end.
Definition mlift {A} (r : result A) : M A := fun w => (r, w).
Definition mdo (f : world -> world) : M unit := fun w => (Ok tt, f w).
Definition try_catch {A} (m : M A) (handler : exn -> M A) : M A :=
  fun w => match m w with
           | (Ok a, w') => (Ok a, w')
           | (Throw e, w') => handler e w'
           end.

Notation "x <- m ;; k" := (mbind m (fun x => k))
  (at level 61, m at next level, right associativity) : js_scope.
Notation "m ;;; k" := (mbind m (fun _ => k))
  (at level 61, right associativity) : js_scope.

(** ** The rule *)

Section Rule.
Variable h : host.
Variable cfg : configuration.

Section Invocation.
(** The constants bound at lines 4, 8 and 51. *)
Variable METADATA_at : metadata_ref.
Variable USER_ID : jsval.
Variable privateKey : string.

Definition console_log (l : log_line) : M unit := mdo (emit (EvLog l)).

(** [callback(null, user, context)] *)
Definition callback : M unit :=
  fun w => (Ok tt, emit (EvCallback None (the_user w) (the_context w)) w).

(** [Date.now()], [new Date()] *)
Definition now_ms : M Z :=
  fun w => (Ok (Date_now h (clock_reads w)), tick_clock w).

(** [await fetch(url, options)] followed by [response.json()] *)
Definition fetch_json (r : request) : M jsval :=
  fun w =>
    let w' := tick_fetch (emit (EvFetch r) w) in
    match fetch h (fetch_calls w) r with
    | Rejected => (Throw FetchError, w')
    | Responded _ None => (Throw SyntaxError, w')
    | Responded _ (Some v) => (Ok v, w')
    end.

(** The condition of lines 55-57, with its short circuit: the clock
    is read only when both globals are truthy. *)
Definition bearer_token_is_fresh : M bool :=
  fun w =>
    if truthy (personapi_bearer_token w) then
      match personapi_bearer_token_creation_time w with
      | Some created =>
          if truthy (VNum created) then
            (now <- now_ms ;;
             mret (now - created <? PERSONAPI_BEARER_TOKEN_REFRESH_AGE)) w
          else (Ok false, w)
      | None => (Ok false, w)
      end
    else (Ok false, w).

Definition bearer_request : request :=
  {| req_url := OAuthUrl (conf (personapi_oauth_url cfg));
     req_method := "POST";
     req_bearer := None;
     req_body :=
       Some (VObj Plain
               [ ("audience", conf (personapi_audience cfg));
                 ("client_id", conf (personapi_client_id cfg));
                 ("client_secret", conf (personapi_client_secret cfg));
                 ("grant_type", VStr "client_credentials") ]);
     req_timeout := AUTH0_TIMEOUT |}.

Definition getBearerToken : M jsval :=
  fresh <- bearer_token_is_fresh ;;
  if (fresh : bool) then fun w => (Ok (personapi_bearer_token w), w)
  else
    console_log LogRetrievingBearer ;;;
    try_catch
      (data <- fetch_json bearer_request ;;
       access_token <- mlift (get_prop data "access_token") ;;
       mdo (fun w => set_global access_token
                       (personapi_bearer_token_creation_time w) w) ;;;
       created <- now_ms ;;
       mdo (fun w => set_global (personapi_bearer_token w)
                       (Some created) w) ;;;
       console_log LogRetrievedBearer ;;;
       fun w => (Ok (personapi_bearer_token w), w))
      (fun _ => mthrow BearerTokenError).

(** [encodeURI(USER_ID)] *)
Definition encodeURI_USER_ID : result string :=
  match encodeURI h USER_ID with
  | Some s => Ok s
  | None => Throw URIError
  end.

(** [signAll(profile)] inside the chain: its [jwt.sign] calls enter
    the trace. *)
Definition signAll_traced (profile : jsval) : M jsval :=
  fun w =>
    let (payloads, r) := signAll (jwt_sign h privateKey) profile in
    (r, fold_left (fun w p => emit (EvJwtSign p) w) payloads w).

Definition createPersonProfile : M jsval :=
  console_log LogGeneratingProfile ;;;
  t <- now_ms ;;
  let now := toISOString h t in
  skeleton <-
    match changeapi_null_profile cfg with
    | Some blob =>
        match JSON_parse_base64 h blob with
        | Some v => mret v
        | None => mthrow SyntaxError
        end
    | None => mthrow TypeError
    end ;;
  profile <- (fun w => (populate (the_user w) USER_ID now skeleton, w)) ;;
  signAll_traced profile.

Definition getPersonProfile : M jsval :=
  bearer <- getBearerToken ;;
  uid <- mlift encodeURI_USER_ID ;;
  console_log LogFetchingProfile ;;;
  fetch_json
    {| req_url := PersonUrl (conf (personapi_url cfg)) uid;
       req_method := "GET";
       req_bearer := Some bearer;
       req_body := None;
       req_timeout := PERSONAPI_TIMEOUT |}.

Definition postProfile (profile : jsval) : M jsval :=
  console_log LogPostingProfile ;;;
  bearer <- getBearerToken ;;
  uid <- mlift encodeURI_USER_ID ;;
  fetch_json
    {| req_url := ChangeUrl (conf (changeapi_url cfg)) uid;
       req_method := "POST";
       req_bearer := Some bearer;
       req_body := Some profile;
       req_timeout := CHANGEAPI_TIMEOUT |}.

(** [setExistsInCIS()]: the flag is written on [METADATA], the update
    is started, and its promise is left to settle on its own. *)
Definition setExistsInCIS : M unit :=
  fun w =>
    let w :=
      set_METADATA METADATA_at
        (put "existsInCIS" (VBool true) (METADATA METADATA_at w)) w in
    let w :=
      emit (EvUpdateUserMetadata USER_ID (METADATA METADATA_at w)) w in
    (Ok tt,
     issue_update
       {| upd_index := update_calls w; upd_user_id := USER_ID;
          upd_metadata := METADATA METADATA_at w |} w).

(** [Object.keys(v).length] *)
Definition Object_keys_length (v : jsval) : result nat :=
  match v with
  | VUndef | VNull => Throw TypeError
  | VBool _ | VNum _ => Ok 0%nat
  | VStr s => Ok (String.length s)
  | VObj _ ps => Ok (List.length ps)
  end.

(** Lines 309-330: [getPersonProfile()] and the three [then]
    handlers. *)
Definition then_handlers : M unit :=
  profile <- getPersonProfile ;;
  profile <-
    (n <- mlift (Object_keys_length profile) ;;
     if negb (Nat.eqb n 0) then
       setExistsInCIS ;;; mthrow ProfileExistsError
     else createPersonProfile) ;;
  response <- postProfile profile ;;
  isObj <- mlift (constructor_is_Object response) ;;
  status_code <- mlift (get_prop response "status_code") ;;
  if (isObj : bool) && eq_num status_code 200 then
    console_log LogProfileCreated ;;;
    setExistsInCIS ;;;
    callback
  else mthrow ChangeApiError.

(** Lines 331-334: the [catch] handler. *)
Definition catch_handler (error : exn) : M unit :=
  console_log (LogError error) ;;; callback.

(** Lines 309-334. *)
Definition promise_chain : M unit := try_catch then_handlers catch_handler.
End Invocation.

(** A reaction of an update promise: lines 298-304. *)
Definition settle (w : world) (u : pending_update) : world :=
  if updateUserMetadata h (upd_index u) (upd_user_id u) (upd_metadata u)
  then emit (EvLog LogMetadataUpdated) (emit (EvUpdateSettled true) w)
  else emit EvUnhandledRejection (emit (EvUpdateSettled false) w).

(** The updates left in flight settle once the job that started them
    has run to completion: the store is asked over the network, so its
    answer comes in a later turn of the event loop.  A store whose
    promise were settled at once could have its reaction run before the
    [catch] handler of the chain. *)
Definition drain (w : world) : world :=
  clear_in_flight (fold_left settle (in_flight w) w).

(** [!configuration.k] *)
Definition missing (o : option string) : bool := negb (truthy (conf o)).

(** [v.includes(sub)] on a configuration value *)
Definition conf_includes (o : option string) (sub : string) : result bool :=
  match o with
  | Some s => Ok (includes s sub)
  | None => Throw TypeError
  end.

(** [Buffer.from(configuration.changeapi_auth0_private_key, 'base64')] *)
Definition Buffer_from (o : option string) : result string :=
  match o with
  | Some s => Ok s
  | None => Throw TypeError
  end.

(** The rule, run until nothing of the invocation is left pending.
    [Throw e] is an exception raised to the caller of the rule. *)
Definition rule : M unit :=
  fun w =>
    let w := set_METADATA MetadataFresh [] w in
    let METADATA_at := METADATA_ref (the_user w) (the_context w) in
    let USER_ID := js_or (primaryUser (the_context w)) (user_id (the_user w)) in
    if missing (changeapi_auth0_private_key cfg)
       || missing (changeapi_null_profile cfg)
       || missing (changeapi_url cfg)
       || missing (personapi_client_id cfg)
       || missing (personapi_client_secret cfg)
       || missing (personapi_url cfg)
    then (console_log LogConfigurationMissing ;;; callback) w
    else
      (misconfigured <-
         mlift (let! a := conf_includes (personapi_audience cfg) "https" in
                if (a : bool) then Ok true
                else conf_includes (personapi_url cfg) "/v") ;;
       if (misconfigured : bool) then
         console_log LogPersonApiMisconfigured ;;; callback
       else if negb (whitelisted (connectionStrategy (the_context w))) then
         callback
       else
         if truthy (own_or_undefined "existsInCIS"
                      (VObj Plain (METADATA METADATA_at w)))
         then callback
         else
           privateKey <- mlift (Buffer_from (changeapi_auth0_private_key cfg)) ;;
           promise_chain METADATA_at USER_ID privateKey ;;;
           mdo drain) w.
End Rule.

(** ** A small skeleton and a sample invocation *)

(** An attribute of the null profile, as the CIS schema shapes it. *)
Definition null_attribute (publisher : string) : jsval :=
  VObj Plain
    [ ("signature",
        VObj Plain
          [ ("publisher",
              VObj Plain [ ("alg", VStr "RS256"); ("typ", VStr "JWS");
                           ("name", VStr publisher); ("value", VStr "") ]);
            ("additional",
              VObj Array
                [ ("0", VObj Plain [ ("alg", VStr "RS256");
                                     ("typ", VStr "JWS");
                                     ("name", VStr ""); ("value", VStr "") ]) ]) ]);
      ("metadata",
        VObj Plain [ ("classification", VStr "PUBLIC");
                     ("last_modified", VStr "1970-01-01T00:00:00Z");
                     ("verified", VBool false);
                     ("display", VStr "public") ]);
      ("value", VNull) ].

Definition null_values_attribute (publisher : string) : jsval :=
  match null_attribute publisher with
  | VObj c ps => VObj c (put "values" VNull (del "value" ps))
  | v => v
  end.

Definition sample_skeleton : jsval :=
  VObj Plain
    [ ("schema", VStr "https://person-api.sso.mozilla.com/schema/v2/profile");
      ("user_id", null_attribute "access_provider");
      ("login_method", null_attribute "access_provider");
      ("active", null_attribute "access_provider");
      ("first_name", null_attribute "mozilliansorg");
      ("last_name", null_attribute "mozilliansorg");
      ("primary_email", null_attribute "access_provider");
      ("usernames", null_values_attribute "mozilliansorg");
      ("fun_title", null_attribute "mozilliansorg");
      ("identities",
        VObj Plain
          [ ("github_id_v3", null_attribute "access_provider");
            ("github_id_v4", null_attribute "access_provider");
            ("github_primary_email", null_attribute "access_provider");
            ("google_oauth2_id", null_attribute "access_provider");
            ("google_primary_email", null_attribute "access_provider");
            ("firefox_accounts_id", null_attribute "access_provider");
            ("firefox_accounts_primary_email",
              null_attribute "access_provider") ]) ].

Definition sample_configuration : configuration :=
  {| changeapi_auth0_private_key := Some "cHJpdmF0ZS1rZXk=";
     changeapi_null_profile := Some "e30=";
     changeapi_url := Some "https://change.api.dev.sso.allizom.org";
     personapi_client_id := Some "client";
     personapi_client_secret := Some "secret";
     personapi_url := Some "https://person.api.dev.sso.allizom.org";
     personapi_audience := Some "api.dev.sso.allizom.org";
     personapi_oauth_url := Some "https://auth.mozilla.auth0.com/oauth/token" |}.

Definition github_identity : identity :=
  {| connection := VStr "github"; provider := VStr "github";
     identity_user_id := VStr "12345"; profileData := VUndef |}.

Definition google_identity : identity :=
  {| connection := VStr "google-oauth2"; provider := VStr "google-oauth2";
     identity_user_id := VStr "1089"; profileData := VUndef |}.

Definition ldap_identity : identity :=
  {| connection := VStr "Mozilla-LDAP"; provider := VStr "ad";
     identity_user_id := VStr "Mozilla-LDAP|octocat"; profileData := VUndef |}.

Definition sample_user (ids : list identity) : user :=
  {| user_id := VStr "github|12345"; email := VStr "octocat@example.com";
     given_name := VUndef; name := VStr "The Octocat"; family_name := VUndef;
     nickname := VStr "octocat"; identities := ids;
     user_metadata := None |}.

Definition sample_context : context :=
  {| connectionStrategy := VStr "github"; primaryUser := VUndef;
     primaryUserMetadata := None |}.

(** A world with an empty token cache. *)
Definition initial_world (u : user) (c : context) : world :=
  {| personapi_bearer_token := VUndef;
     personapi_bearer_token_creation_time := None;
     the_user := u; the_context := c; fresh_metadata := [];
     clock_reads := 0; fetch_calls := 0; update_calls := 0;
     in_flight := []; trace := [] |}.

(** A world whose cache holds [tok], stored at instant [created]. *)
Definition cached_world (tok : jsval) (created : Z) (u : user) (c : context)
  : world :=
  set_global tok (Some created) (initial_world u c).

(** A host whose services all answer well: the token endpoint hands out a
    token, the person store knows nobody, the change endpoint accepts. *)
Definition friendly_fetch (n : nat) (r : request) : fetch_outcome :=
  match req_url r with
  | OAuthUrl _ => Responded 200 (Some (VObj Plain [("access_token", VStr "tok")]))
  | PersonUrl _ _ => Responded 200 (Some (VObj Plain []))
  | ChangeUrl _ _ => Responded 200 (Some (VObj Plain [("status_code", VNum 200)]))
  end.

Definition sample_host (skeleton : jsval)
    (f : nat -> request -> fetch_outcome) (update_ok : bool) : host :=
  {| Date_now := fun n => 1600000000000 + Z.of_nat n;
     toISOString := fun _ => "2020-09-13T12:26:40.000Z";
     encodeURI := fun _ => Some "github%7C12345";
     fetch := f;
     updateUserMetadata := fun _ _ _ => update_ok;
     jwt_sign := fun _ _ => Some "eyJ.sig";
     JSON_parse_base64 := fun _ => Some skeleton |}.


(** ** The design document's reading of the signer

    The following definitions follow the words of the design document,
    not the code.  A named child is a leaf when it carries a
    [signature] sub-record; a leaf is signable when the publisher named
    in that record is this system and neither [value] nor [values] is
    null; a child without a [signature] sub-record is a container whose
    children are looked at in turn. *)

Definition has_signature_record (attr : jsval) : bool :=
  match own_or_undefined "signature" attr with
  | VObj _ _ => true
  | _ => false
  end.

Definition publisher_is_this_system (attr : jsval) : bool :=
  eq_str (own_or_undefined "name"
            (own_or_undefined "publisher"
               (own_or_undefined "signature" attr)))
         PUBLISHER_NAME.

Definition value_not_null (attr : jsval) : bool :=
  negb (is_null (own_or_undefined "value" attr))
  && negb (is_null (own_or_undefined "values" attr)).

Definition signable (attr : jsval) : bool :=
  has_signature_record attr && publisher_is_this_system attr
  && value_not_null attr.

(** The children the design document wants signed, in traversal order,
    as it words it: every child that carries a signature sub-record is
    a leaf, every other child is a container and is entered. *)
Fixpoint claimed_signable_nodes (profile : jsval) : list jsval :=
  match profile with
  | VObj _ ps =>
      flat_map
        (fun kv =>
           let attr := snd kv in
           if has_signature_record attr then
             if signable attr then [attr] else []
           else claimed_signable_nodes attr)
        ps
  | _ => []
  end.












(** The design document's choice of the login method: the first linked
    identity, at whatever index, whose connection is whitelisted. *)
Definition first_whitelisted (ids : list identity) : option identity :=
  find (fun idn => whitelisted (connection idn)) ids.

(** What [signAttribute] hands to [jwt.sign] when it signs [attr]: the
    attribute after the coercion of lines 268-270, without its
    [signature]. *)
Definition payload_of (attr : jsval) : jsval :=
  match coerce_value attr with
  | Ok a => delete_signature a
  | Throw _ => attr
  end.

(** Whether two property paths part ways at some key: neither is a
    prefix of the other. *)
Fixpoint diverge (a b : list string) : bool :=
  match a, b with
  | x :: a', y :: b' => if String.eqb x y then diverge a' b' else true
  | _, _ => false
  end.

(** ** Observations on a trace *)

Definition is_callback (e : event) : bool :=
  match e with EvCallback _ _ _ => true | _ => false end.

Definition is_fetch (e : event) : bool :=
  match e with EvFetch _ => true | _ => false end.

Definition is_submission (e : event) : bool :=
  match e with
  | EvFetch r => match req_url r with ChangeUrl _ _ => true | _ => false end
  | _ => false
  end.

Definition is_signing (e : event) : bool :=
  match e with EvJwtSign _ => true | _ => false end.

Definition is_build (e : event) : bool :=
  match e with EvLog LogGeneratingProfile => true | _ => false end.

Definition is_settled (e : event) : bool :=
  match e with EvUpdateSettled _ => true | _ => false end.

Definition callbacks (t : list event) : list event := filter is_callback t.

(** Eighteen hours, in the unit of [Date.now()]. *)
Definition eighteen_hours_ms : Z := 18 * 60 * 60 * 1000.

(** The calls to [jwt.sign] made by a run of the signer are an initial
    segment of the payloads of [spec], and all of them when the run
    completes. *)
Definition refines {A} (spec : list jsval) (run : signing A) : Prop :=
  exists rest,
    map payload_of spec = fst run ++ rest
    /\ (forall a, snd run = Ok a -> rest = []).

(** A computation of the chain only adds events to the trace, and every
    event it adds passes [ok]. *)
Definition emits {A} (ok : event -> bool) (m : M A) : Prop :=
  forall w, exists evs,
    trace (snd (m w)) = trace w ++ evs /\ forallb ok evs = true.

(** The condition of lines 14-19. *)
Definition six_keys_missing (cfg : configuration) : bool :=
  missing (changeapi_auth0_private_key cfg)
  || missing (changeapi_null_profile cfg)
  || missing (changeapi_url cfg)
  || missing (personapi_client_id cfg)
  || missing (personapi_client_secret cfg)
  || missing (personapi_url cfg).

(** The conditions of lines 14-41 under which the rule goes on to the
    promise chain. *)
Definition passes_gates (cfg : configuration) (w : world) : bool :=
  negb (missing (changeapi_auth0_private_key cfg)
        || missing (changeapi_null_profile cfg)
        || missing (changeapi_url cfg)
        || missing (personapi_client_id cfg)
        || missing (personapi_client_secret cfg)
        || missing (personapi_url cfg))
  && match personapi_audience cfg, personapi_url cfg with
     | Some a, Some u => negb (includes a "https" || includes u "/v")
     | _, _ => false
     end
  && whitelisted (connectionStrategy (the_context w))
  && negb (truthy (own_or_undefined "existsInCIS"
                     (VObj Plain
                        (METADATA (METADATA_ref (the_user w) (the_context w))
                           (set_METADATA MetadataFresh [] w))))).

(** The condition under which [getBearerToken] reuses the cache, as the
    code evaluates it at the world [w]. *)
Definition cache_is_fresh (h : host) (w : world) : bool :=
  truthy (personapi_bearer_token w)
  && match personapi_bearer_token_creation_time w with
     | Some created =>
         truthy (VNum created)
         && (Date_now h (clock_reads w) - created
             <? PERSONAPI_BEARER_TOKEN_REFRESH_AGE)
     | None => false
     end.

Definition not_callback (e : event) : bool := negb (is_callback e).

(** The events hold exactly one invocation of the completion hook, and
    it carries no error. *)
Definition calls_back_once (evs : list event) : Prop :=
  exists u c, callbacks evs = [EvCallback None u c].

(** A computation that invokes the completion hook exactly once when it
    completes and not at all when it throws. *)
Definition ends_with_callback {A} (m : M A) : Prop :=
  forall w, exists evs,
    trace (snd (m w)) = trace w ++ evs
    /\ match fst (m w) with
       | Ok _ => calls_back_once evs
       | Throw _ => callbacks evs = []
       end.

Definition without_audience (cfg : configuration) : configuration :=
  {| changeapi_auth0_private_key := changeapi_auth0_private_key cfg;
     changeapi_null_profile := changeapi_null_profile cfg;
     changeapi_url := changeapi_url cfg;
     personapi_client_id := personapi_client_id cfg;
     personapi_client_secret := personapi_client_secret cfg;
     personapi_url := personapi_url cfg;
     personapi_audience := None;
     personapi_oauth_url := personapi_oauth_url cfg |}.

Definition without_oauth_url (cfg : configuration) : configuration :=
  {| changeapi_auth0_private_key := changeapi_auth0_private_key cfg;
     changeapi_null_profile := changeapi_null_profile cfg;
     changeapi_url := changeapi_url cfg;
     personapi_client_id := personapi_client_id cfg;
     personapi_client_secret := personapi_client_secret cfg;
     personapi_url := personapi_url cfg;
     personapi_audience := personapi_audience cfg;
     personapi_oauth_url := None |}.

(** The URLs requested in a trace, in order. *)
Definition requested (t : list event) : list url :=
  flat_map (fun e => match e with EvFetch r => [req_url r] | _ => [] end) t.

(** As [friendly_fetch], for a network that cannot be asked for a URL
    that is [undefined]: node-fetch rejects before it sends anything. *)
Definition picky_fetch (n : nat) (r : request) : fetch_outcome :=
  match req_url r with
  | OAuthUrl VUndef => Rejected
  | _ => friendly_fetch n r
  end.

(** A cache filled one second before the host's first clock reading. *)
Definition one_second_old_cache : world :=
  cached_world (VStr "tok") (1600000000000 - 1000)
    (sample_user [github_identity]) sample_context.

(** A cache filled 65 seconds before the host's first clock reading. *)
Definition sixty_five_seconds_old_cache : world :=
  cached_world (VStr "tok") (1600000000000 - 65000)
    (sample_user [github_identity]) sample_context.

(** The events by which an update left in flight settles. *)
Definition is_settlement (e : event) : bool :=
  match e with
  | EvUpdateSettled _ | EvUnhandledRejection | EvLog LogMetadataUpdated => true
  | _ => false
  end.

Definition not_settlement (e : event) : bool := negb (is_settlement e).

(** Neither the start of a profile build, nor a signature, nor a request
    to the change endpoint. *)
Definition leaves_profile_alone (e : event) : bool :=
  negb (is_build e || is_signing e || is_submission e).

(** The host [h] with another metadata store. *)
Definition with_updateUserMetadata (h : host)
    (upd : nat -> jsval -> props_t -> bool) : host :=
  {| Date_now := Date_now h; toISOString := toISOString h;
     encodeURI := encodeURI h; fetch := fetch h;
     updateUserMetadata := upd; jwt_sign := jwt_sign h;
     JSON_parse_base64 := JSON_parse_base64 h |}.

Definition not_submission (e : event) : bool := negb (is_submission e).

(** The events by which the update [u] settles: lines 298-304. *)
Definition settlement_of (h : host) (u : pending_update) : list event :=
  if updateUserMetadata h (upd_index u) (upd_user_id u) (upd_metadata u)
  then [EvUpdateSettled true; EvLog LogMetadataUpdated]
  else [EvUpdateSettled false; EvUnhandledRejection].

(** A person store that already knows the subject. *)
Definition knowing_fetch (n : nat) (r : request) : fetch_outcome :=
  match req_url r with
  | PersonUrl _ _ =>
      Responded 200
        (Some (VObj Plain [("user_id", VObj Plain [("value", VStr "github|12345")])]))
  | _ => friendly_fetch n r
  end.




(** ** Sample inputs of the signer and of the builder *)

Definition sample_sign (payload : jsval) : option string := Some "eyJ.sig".

(** An attribute with a signature record naming [publisher] and the
    scalar [v]. *)
Definition attribute_of (publisher : string) (v : jsval) : jsval :=
  VObj Plain
    [ ("signature",
        VObj Plain
          [ ("publisher", VObj Plain [ ("alg", VStr "RS256");
                                       ("name", VStr publisher) ]);
            ("additional",
              VObj Array
                [ ("0", VObj Plain [ ("name", VStr "");
                                     ("value", VStr "") ]) ]) ]);
      ("value", v) ].

(** A tree with a signable leaf, a scalar child, a list child, and a
    container holding a signable leaf, a leaf of another publisher and a
    leaf without a value. *)
Definition sample_tree : jsval :=
  VObj Plain
    [ ("user_id", attribute_of "access_provider" (VStr "github|12345"));
      ("schema", VStr "https://person-api.sso.mozilla.com/schema/v2/profile");
      ("tags", VObj Array [ ("0", VStr "a") ]);
      ("identities",
        VObj Plain
          [ ("github_id_v3", attribute_of "access_provider" (VNum 42));
            ("bugzilla_id", attribute_of "mozilliansorg" (VStr "7"));
            ("github_id_v4", attribute_of "access_provider" VNull) ]) ].

Definition sample_now : string := "2020-09-13T12:26:40.000Z".

(** The profile built for a user linked to Google first and GitHub
    second. *)
Definition google_then_github_profile : jsval :=
  Eval vm_compute in
    match populate (sample_user [google_identity; github_identity])
            (VStr "github|12345") sample_now sample_skeleton with
    | Ok p => p
    | Throw _ => VUndef
    end.

(** ** Further observations on the rule *)

Definition is_update (e : event) : bool :=
  match e with EvUpdateUserMetadata _ _ => true | _ => false end.

Definition not_update (e : event) : bool := negb (is_update e).

(** The six settings the first gate tests. *)
Definition tested_keys (cfg : configuration) : list (option string) :=
  [ changeapi_auth0_private_key cfg; changeapi_null_profile cfg;
    changeapi_url cfg; personapi_client_id cfg;
    personapi_client_secret cfg; personapi_url cfg ].

(** The configuration gets through lines 14-31. *)
Definition configured (cfg : configuration) : bool :=
  negb (six_keys_missing cfg)
  && match personapi_audience cfg, personapi_url cfg with
     | Some a, Some u => negb (includes a "https" || includes u "/v")
     | _, _ => false
     end.

(** What [METADATA] holds when the rule starts: the metadata of the
    primary account when the context carries it, else the user's own,
    else nothing. *)
Definition stored_metadata (u : user) (c : context) : props_t :=
  match primaryUserMetadata c with
  | Some m => m
  | None => mapping (user_metadata u)
  end.

(** [METADATA.existsInCIS] is truthy when the rule starts. *)
Definition flagged (u : user) (c : context) : bool :=
  truthy (own_or_undefined "existsInCIS" (VObj Plain (stored_metadata u c))).

(** The hook is the last of the events, and the only hook among them. *)
Definition hook_comes_last (evs : list event) : Prop :=
  exists before u c,
    evs = before ++ [EvCallback None u c]
    /\ forallb not_callback before = true.

Definition finishes_with_hook {A} (m : M A) : Prop :=
  forall w, exists evs,
    trace (snd (m w)) = trace w ++ evs
    /\ match fst (m w) with
       | Ok _ => hook_comes_last evs
       | Throw _ => forallb not_callback evs = true
       end.

(** ** Sample inputs for the gates *)

Definition with_empty_client_secret (cfg : configuration) : configuration :=
  {| changeapi_auth0_private_key := changeapi_auth0_private_key cfg;
     changeapi_null_profile := changeapi_null_profile cfg;
     changeapi_url := changeapi_url cfg;
     personapi_client_id := personapi_client_id cfg;
     personapi_client_secret := Some "";
     personapi_url := personapi_url cfg;
     personapi_audience := personapi_audience cfg;
     personapi_oauth_url := personapi_oauth_url cfg |}.

Definition with_audience (cfg : configuration) (a : string) : configuration :=
  {| changeapi_auth0_private_key := changeapi_auth0_private_key cfg;
     changeapi_null_profile := changeapi_null_profile cfg;
     changeapi_url := changeapi_url cfg;
     personapi_client_id := personapi_client_id cfg;
     personapi_client_secret := personapi_client_secret cfg;
     personapi_url := personapi_url cfg;
     personapi_audience := Some a;
     personapi_oauth_url := personapi_oauth_url cfg |}.

Definition ldap_context : context :=
  {| connectionStrategy := VStr "ad"; primaryUser := VUndef;
     primaryUserMetadata := None |}.

(** A GitHub login linked to a primary account that is flagged. *)
Definition linked_context : context :=
  {| connectionStrategy := VStr "github";
     primaryUser := VStr "ad|Mozilla-LDAP|octocat";
     primaryUserMetadata := Some [("existsInCIS", VBool true)] |}.

(** ** Sample hosts for the token endpoint *)

(** A token endpoint that does not answer. *)
Definition token_down_fetch (n : nat) (r : request) : fetch_outcome :=
  match req_url r with
  | OAuthUrl _ => Rejected
  | _ => friendly_fetch n r
  end.

(** A token endpoint that answers 401 with an error body. *)
Definition token_denied_fetch (n : nat) (r : request) : fetch_outcome :=
  match req_url r with
  | OAuthUrl _ =>
      Responded 401 (Some (VObj Plain [("error", VStr "access_denied")]))
  | _ => friendly_fetch n r
  end.

(** The ways a token request fails: the promise of [fetch] rejects, the
    body is not JSON, or the body is the JSON [null]. *)
Definition token_request_fails (o : fetch_outcome) : Prop :=
  o = Rejected
  \/ (exists st, o = Responded st None)
  \/ (exists st, o = Responded st (Some VNull)).

(** ** What a run leaves of the user and the context *)

(** Two worlds hold the same user, context and fresh metadata object. *)
Definition same_inputs (w1 w2 : world) : Prop :=
  the_user w1 = the_user w2
  /\ the_context w1 = the_context w2
  /\ fresh_metadata w1 = fresh_metadata w2.

Definition keeps_inputs {A} (m : M A) : Prop :=
  forall w, same_inputs (snd (m w)) w.

(** The world [w] with [existsInCIS = true] written on [METADATA]. *)
Definition marked (r : metadata_ref) (w : world) : world :=
  set_METADATA r (put "existsInCIS" (VBool true) (METADATA r w)) w.

(** The user, the context and the fresh metadata object are those of
    [w0], or those of [w0] with the flag written. *)
Definition at_most_marked (r : metadata_ref) (w0 w : world) : Prop :=
  same_inputs w w0 \/ same_inputs w (marked r w0).

Definition preserves (I : world -> Prop) {A} (m : M A) : Prop :=
  forall w, I w -> I (snd (m w)).

(** A change endpoint that refuses. *)
Definition refusing_fetch (n : nat) (r : request) : fetch_outcome :=
  match req_url r with
  | ChangeUrl _ _ =>
      Responded 500 (Some (VObj Plain [("status_code", VNum 500)]))
  | _ => friendly_fetch n r
  end.

(** A user who carries metadata of their own. *)
Definition sample_user_with_metadata : user :=
  with_user_metadata (sample_user [github_identity])
    (Some [("locale", VStr "en")]).

(** Since [w] the world [w'] has gained events, none of them a metadata
    update, and holds the user and the context of [w]. *)
Definition quiet_since (w w' : world) : Prop :=
  exists evs,
    trace w' = trace w ++ evs
    /\ forallb not_update evs = true
    /\ same_inputs w' w.

(** The events hold no metadata update, or one: for [uid], carrying
    [md] with [existsInCIS = true] written on it. *)
Definition at_most_one_update (uid : jsval) (md : props_t)
    (evs : list event) : Prop :=
  filter is_update evs = []
  \/ filter is_update evs
     = [EvUpdateUserMetadata uid (put "existsInCIS" (VBool true) md)].

(** Since [w] at most one update was started, with the metadata of [w]. *)
Definition updates_since (r : metadata_ref) (uid : jsval) (w w' : world)
  : Prop :=
  exists evs,
    trace w' = trace w ++ evs
    /\ at_most_one_update uid (METADATA r w) evs.

(** ** Observations on the builder *)

(** [Object.keys(v)] of an object. *)
Definition Object_keys (v : jsval) : list string :=
  match v with
  | VObj _ ps => map fst ps
  | _ => []
  end.

(** The profile [p'] has the root keys of [p], in their order, and holds
    under every root key outside [ks] what [p] holds. *)
Definition touches_only (ks : list string) (p p' : jsval) : Prop :=
  Object_keys p' = Object_keys p
  /\ forall k, ~ In k ks -> get_prop p' k = get_prop p k.

(** The attributes lines 105-126 write. *)
Definition account_attributes : list string :=
  ["active"; "first_name"; "last_name"; "primary_email"; "user_id"].

(** The attributes the loop over the identities writes. *)
Definition identity_attributes : list string :=
  ["login_method"; "identities"; "usernames"].

(** No identity of the list has a whitelisted connection. *)
Definition none_whitelisted (ids : list identity) : bool :=
  forallb (fun idn => negb (whitelisted (connection idn))) ids.

(** A skeleton without [user_id]. *)
Definition skeleton_without_user_id : jsval :=
  match sample_skeleton with
  | VObj c ps => VObj c (del "user_id" ps)
  | v => v
  end.

(** The profile built for a user with one GitHub identity. *)
Definition github_profile : jsval :=
  Eval vm_compute in
    match populate (sample_user [github_identity])
            (VStr "github|12345") sample_now sample_skeleton with
    | Ok p => p
    | Throw _ => VUndef
    end.

(** The profile built for a user whose one identity comes from LDAP. *)
Definition ldap_profile : jsval :=
  Eval vm_compute in
    match populate (sample_user [ldap_identity])
            (VStr "github|12345") sample_now sample_skeleton with
    | Ok p => p
    | Throw _ => VUndef
    end.

(** [null] or [undefined]. *)
Definition nullish (v : jsval) : bool :=
  match v with VUndef | VNull => true | _ => false end.

(** The chain [p.k1.k2...] can be read and what it yields can take a
    property write: it is neither [null] nor [undefined]. *)
Definition writable (p : jsval) (path : list string) : bool :=
  match read p path with
  | Ok v => negb (nullish v)
  | Throw _ => false
  end.

(** The root attribute [attr] of [p] can take the stamp of the builder:
    its [metadata] and its [signature.publisher] are there. *)
Definition stampable (p : jsval) (attr : string) : bool :=
  writable p [attr; "metadata"]
  && writable p [attr; "signature"; "publisher"].

(** What the loop body writes under [value] in [profile.identities] for
    one identity, by attribute: nothing for an identity whose connection
    is not whitelisted or whose provider is none of the three. *)
Definition slot_writes (u : user) (idn : identity) : list (string * jsval) :=
  if whitelisted (connection idn) then
    if eq_str (provider idn) "github" then
      ("github_id_v3", identity_user_id idn)
      :: (if truthy (profileData idn) then
            [ ("github_id_v4",
                own_or_undefined "node_id" (profileData idn));
              ("github_primary_email",
                own_or_undefined "email" (profileData idn)) ]
          else [])
    else if eq_str (provider idn) "google-oauth2" then
      [ ("google_oauth2_id", identity_user_id idn);
        ("google_primary_email", email u) ]
    else if eq_str (connection idn) "firefoxaccounts"
            && eq_str (provider idn) "oauth2"
    then [ ("firefox_accounts_id", identity_user_id idn);
           ("firefox_accounts_primary_email", email u) ]
    else []
  else [].

(** The attributes of [profile.identities] the loop may write. *)
Definition identity_slots : list string :=
  [ "github_id_v3"; "github_id_v4"; "github_primary_email";
    "google_oauth2_id"; "google_primary_email";
    "firefox_accounts_id"; "firefox_accounts_primary_email" ].

(** The identity makes the loop body write the attribute [slot]. *)
Definition writes_slot (u : user) (slot : string) (idn : identity) : bool :=
  existsb (fun kv => String.eqb (fst kv) slot) (slot_writes u idn).

(** No identity of the list makes the loop body write [slot]. *)
Definition none_writes (u : user) (slot : string) (ids : list identity)
  : bool :=
  forallb (fun idn => negb (writes_slot u slot idn)) ids.

(** A second GitHub identity of the same user. *)
Definition second_github_identity : identity :=
  {| connection := VStr "github"; provider := VStr "github";
     identity_user_id := VStr "67890"; profileData := VUndef |}.

(** The profile built for a user linked to GitHub twice, with a Google
    identity in between. *)
Definition twice_github_profile : jsval :=
  Eval vm_compute in
    match populate
            (sample_user
               [github_identity; google_identity; second_github_identity])
            (VStr "github|12345") sample_now sample_skeleton with
    | Ok p => p
    | Throw _ => VUndef
    end.

(** What [jwt.sign] may be handed: no [signature], and under [value]
    no number other than 0. *)
Definition clean_payload (payload : jsval) : Prop :=
  own_or_undefined "signature" payload = VUndef
  /\ forall z, own_or_undefined "value" payload = VNum z -> z = 0.

(** The sample tree after [signAll]. *)
Definition signed_sample_tree : jsval :=
  Eval vm_compute in
    match snd (signAll sample_sign sample_tree) with
    | Ok p => p
    | Throw _ => VUndef
    end.

(** The request of lines 227-239 for a profile. *)
Definition change_request (cfg : configuration) (bearer : jsval)
    (uid : string) (profile : jsval) : request :=
  {| req_url := ChangeUrl (conf (changeapi_url cfg)) uid;
     req_method := "POST";
     req_bearer := Some bearer;
     req_body := Some profile;
     req_timeout := CHANGEAPI_TIMEOUT |}.

(** Since [w] nothing was sent to the change endpoint. *)
Definition unsubmitted_since (w w' : world) : Prop :=
  exists evs,
    trace w' = trace w ++ evs /\ forallb not_submission evs = true.

(** Since [w] the change endpoint was sent nothing, or [profile] once. *)
Definition submitted_since (cfg : configuration) (profile : jsval)
    (w w' : world) : Prop :=
  exists evs,
    trace w' = trace w ++ evs
    /\ (filter is_submission evs = []
        \/ exists bearer uid,
             filter is_submission evs
             = [EvFetch (change_request cfg bearer uid profile)]).

(** Since [w] nothing was submitted, or the store was asked at [w] and
    reported no profile, the builder and the signer completed, and what
    they made was submitted once. *)
Definition submitted_what_was_built (h : host) (cfg : configuration)
    (USER_ID : jsval) (privateKey : string) (w w' : world) : Prop :=
  unsubmitted_since w w'
  \/ exists profile w1 built w2,
       getPersonProfile h cfg USER_ID w = (Ok profile, w1)
       /\ Object_keys_length profile = Ok 0%nat
       /\ createPersonProfile h cfg USER_ID privateKey w1 = (Ok built, w2)
       /\ submitted_since cfg built w w'.

(** ** Observations on the signer *)



(** A tree whose one child is a list that holds a leaf this system
    could sign. *)
Definition tree_with_a_list_of_leaves : jsval :=
  VObj Plain
    [ ("tags",
        VObj Array
          [ ("0", VObj Plain
                    [ ("signature",
                        VObj Plain
                          [ ("publisher",
                              VObj Plain
                                [ ("name", VStr "access_provider") ]) ]);
                      ("value", VStr "x") ]) ]) ].



(** * Properties *)

(** ** Own properties *)

Lemma own_put_same k x ps : own k (put k x ps) = Some x.
Proof.
  induction ps as [|[k' y] r IH]; simpl.
  - now rewrite String.eqb_refl.
  - destruct (String.eqb k k') eqn:E; simpl.
    + now rewrite String.eqb_refl.
    + now rewrite E.
Qed.

Lemma own_put_other k k' x ps : k <> k' -> own k' (put k x ps) = own k' ps.
Proof.
  intros Hne. induction ps as [|[k0 y] r IH]; simpl.
  - destruct (String.eqb_spec k' k); congruence.
  - destruct (String.eqb_spec k k0) as [->|Hk]; simpl.
    + destruct (String.eqb_spec k' k0); congruence.
    + now rewrite IH.
Qed.

Lemma own_del_other k k' ps : k <> k' -> own k' (del k ps) = own k' ps.
Proof.
  intros Hne. induction ps as [|[k0 y] r IH]; simpl; [reflexivity|].
  destruct (String.eqb_spec k k0) as [->|Hk]; simpl.
  - rewrite IH. destruct (String.eqb_spec k' k0); congruence.
  - now rewrite IH.
Qed.

Lemma own_del_same k ps : own k (del k ps) = None.
Proof.
  induction ps as [|[k0 y] r IH]; simpl; [reflexivity|].
  destruct (String.eqb_spec k k0) as [->|Hk]; simpl; [assumption|].
  destruct (String.eqb_spec k k0); congruence.
Qed.

Lemma get_prop_own c ps k :
  get_prop (VObj c ps) k = Ok (own_or_undefined k (VObj c ps)).
Proof. reflexivity. Qed.

Lemma get_prop_defined v k x :
  get_prop v k = Ok x -> x = own_or_undefined k v.
Proof. destruct v; simpl; congruence. Qed.

(** ** The signer *)

Section SignerFacts.
Variable sign : jsval -> option string.

Lemma sbind_slift_ok {A B} (a : A) (f : A -> signing B) :
  sbind (slift (Ok a)) f = f a.
Proof. unfold sbind, slift. now destruct (f a). Qed.

Lemma signAll_object c ps :
  signAll sign (VObj c ps) =
  sbind (forEach sign ps) (fun ps' => sret (VObj c ps')).
Proof. reflexivity. Qed.

Lemma forEach_cons k attr r :
  forEach sign ((k, attr) :: r) =
  sbind (forEach_callback sign (signAll sign) attr)
    (fun attr' => sbind (forEach sign r)
                    (fun r' => sret ((k, attr') :: r'))).
Proof. reflexivity. Qed.

Lemma coerce_value_object c ps :
  exists ps', coerce_value (VObj c ps) = Ok (VObj c ps').
Proof.
  unfold coerce_value. simpl.
  destruct (own "value" ps) as [[ | |b|z|s|c' ps']|]; simpl; eauto.
  - destruct b; simpl; eauto.
  - destruct (z =? 0); simpl; eauto.
  - destruct (String.eqb s ""); simpl; eauto.
Qed.

(** What [signAttribute] does to an object, by the outcome of its
    guard. *)
Lemma signAttribute_skips attr :
  sign_guard attr = Ok true -> signAttribute sign attr = ([], Ok attr).
Proof. intros H. unfold signAttribute. now rewrite H. Qed.

Lemma signAttribute_throws attr e :
  sign_guard attr = Throw e -> signAttribute sign attr = ([], Throw e).
Proof. intros H. unfold signAttribute. now rewrite H. Qed.

Lemma signAttribute_signs c ps :
  sign_guard (VObj c ps) = Ok false ->
  signAttribute sign (VObj c ps) =
  match sign (payload_of (VObj c ps)) with
  | Some s =>
      ([payload_of (VObj c ps)],
       set_prop (payload_of (VObj c ps)) "signature" (envelope s))
  | None => ([payload_of (VObj c ps)], Throw JwtError)
  end.
Proof.
  intros H. unfold signAttribute, payload_of. rewrite H. simpl.
  destruct (coerce_value_object c ps) as [ps' ->]. simpl.
  unfold jwt_sign_call.
  destruct (sign (VObj c (del "signature" ps'))); reflexivity.
Qed.



Lemma refines_throw {A} spec e : refines spec (([] : list jsval), @Throw A e).
Proof. exists (map payload_of spec). split; [reflexivity | discriminate]. Qed.


(** [signAttribute] hands nothing but the attribute itself to
    [jwt.sign]. *)
Lemma signAttribute_signs_only_itself c ps :
  Forall (eq (payload_of (VObj c ps)))
    (fst (signAttribute sign (VObj c ps))).
Proof.
  destruct (sign_guard (VObj c ps)) as [[|]|e] eqn:Eg.
  - rewrite (signAttribute_skips _ Eg). constructor.
  - rewrite (signAttribute_signs _ _ Eg).
    destruct (sign (payload_of (VObj c ps))); repeat constructor.
  - rewrite (signAttribute_throws _ _ Eg). constructor.
Qed.

(** A child with a truthy [signature] goes to [signAttribute]; the
    traversal does not enter it. *)
Lemma forEach_callback_leaf descend ps :
  own "constructor" ps = None ->
  truthy (own_or_undefined "signature" (VObj Plain ps)) = true ->
  forEach_callback sign descend (VObj Plain ps) =
  signAttribute sign (VObj Plain ps).
Proof.
  intros Hc Ht. unfold forEach_callback. simpl constructor_is_Object.
  rewrite Hc, get_prop_own, !sbind_slift_ok, Ht. reflexivity.
Qed.

(** A child that is not a plain object is left alone. *)
Lemma forEach_callback_not_plain descend attr :
  constructor_is_Object attr = Ok false ->
  forEach_callback sign descend attr = ([], Ok attr).
Proof.
  intros H. unfold forEach_callback. rewrite H.
  destruct attr; try discriminate; reflexivity.
Qed.



(** Lines 268-270 on a number other than zero. *)
Lemma signAttribute_coerces_nonzero c ps z s :
  z <> 0 ->
  own "value" ps = Some (VNum z) ->
  sign_guard (VObj c ps) = Ok false ->
  sign (payload_of (VObj c ps)) = Some s ->
  exists a,
    snd (signAttribute sign (VObj c ps)) = Ok a
    /\ get_prop a "value" = Ok (VStr (number_toString z)).
Proof.
  intros Hz Hv Hg Hs. rewrite (signAttribute_signs _ _ Hg), Hs.
  unfold payload_of, coerce_value. simpl get_prop. rewrite Hv.
  simpl. destruct (Z.eqb_spec z 0) as [|_]; [contradiction|].
  simpl. eexists. split; [reflexivity|].
  simpl. rewrite own_put_other by discriminate.
  rewrite own_del_other by discriminate.
  now rewrite own_put_same.
Qed.
End SignerFacts.

(** ** The profile builder *)

Lemma assign_undefined path k x : assign VUndef path k x = Throw TypeError.
Proof. destruct path; reflexivity. Qed.

(** A write below the root succeeds only on an object, and leaves an
    object of the same class. *)
Lemma assign_below_root v k rest f x v' :
  assign v (k :: rest) f x = Ok v' ->
  exists c ps child child',
    v = VObj c ps
    /\ get_prop v k = Ok child
    /\ assign child rest f x = Ok child'
    /\ v' = VObj c (put k child' ps).
Proof.
  simpl. destruct v as [ | |b|z|s|c ps]; simpl; try discriminate;
    try (rewrite assign_undefined; discriminate).
  destruct (assign _ rest f x) as [child'|e] eqn:E; simpl; [|discriminate].
  intros H; injection H as <-. eauto 10.
Qed.

(** A write under the key [k] does not touch what the root holds under
    another key. *)
Lemma assign_frame v k rest f x v' k0 :
  assign v (k :: rest) f x = Ok v' -> k <> k0 ->
  get_prop v' k0 = get_prop v k0.
Proof.
  intros H Hne.
  destruct (assign_below_root _ _ _ _ _ _ H) as (c & ps & ch & ch' & -> & _ & _ & ->).
  simpl. now rewrite own_put_other.
Qed.

Lemma stamp_frame now k rest p p' k0 :
  stamp now (k :: rest) p = Ok p' -> k <> k0 ->
  get_prop p' k0 = get_prop p k0.
Proof.
  unfold stamp. intros H Hne.
  destruct (assign p _ _ _) as [p1|] eqn:E1; [|discriminate].
  cbn [rbind] in H.
  rewrite (assign_frame _ _ _ _ _ _ _ H Hne).
  exact (assign_frame _ _ _ _ _ _ _ E1 Hne).
Qed.

Lemma display_private_frame k rest p p' k0 :
  display_private (k :: rest) p = Ok p' -> k <> k0 ->
  get_prop p' k0 = get_prop p k0.
Proof. unfold display_private. apply assign_frame. Qed.

(** After an attribute directly under the root was stamped, it is an
    object. *)
Lemma stamp_leaves_object now k p p' :
  stamp now [k] p = Ok p' ->
  exists c ps, get_prop p' k = Ok (VObj c ps).
Proof.
  unfold stamp. intros H.
  destruct (assign p _ _ _) as [p1|] eqn:E1; [|discriminate].
  cbn [rbind] in H. simpl app in H.
  destruct (assign_below_root _ _ _ _ _ _ H)
    as (c & ps & ch & ch' & -> & _ & Hch & ->).
  destruct (assign_below_root _ _ _ _ _ _ Hch)
    as (c1 & ps1 & _ & ch1' & -> & _ & _ & ->).
  simpl. rewrite own_put_same. eauto.
Qed.

(** Writing [o.k.f = x] where [o.k] is an object and reading it back. *)
Lemma assign_read_back p k f x p' c ps :
  get_prop p k = Ok (VObj c ps) ->
  assign p [k] f x = Ok p' ->
  read p' [k; f] = Ok x.
Proof.
  intros Hk H.
  destruct (assign_below_root _ _ _ _ _ _ H)
    as (c0 & ps0 & ch & ch' & -> & Hch & Hset & ->).
  rewrite Hk in Hch. injection Hch as <-. simpl in Hset.
  injection Hset as <-. simpl. rewrite own_put_same. simpl.
  now rewrite own_put_same.
Qed.

(** Running a sequence of writes backwards: every step that succeeded is
    split off, and a read under an untouched key is carried back over
    each write. *)
Ltac split_steps :=
  repeat match goal with
         | H : Ok _ = Ok _ |- _ => injection H as H; subst
         | H : Throw _ = Ok _ |- _ => discriminate H
         | H : rbind ?r _ = Ok _ |- _ =>
             let E := fresh "E" in
             destruct r eqn:E; [cbn [rbind] in H | discriminate H]
         | H : (if ?b then _ else _) = Ok _ |- _ => destruct b eqn:?
         end.

Ltac frame_back :=
  repeat match goal with
         | H : assign ?p (_ :: _) _ _ = Ok ?p' |- get_prop ?p' _ = _ =>
             rewrite (assign_frame _ _ _ _ _ _ _ H) by discriminate
         | H : stamp _ (_ :: _) ?p = Ok ?p' |- get_prop ?p' _ = _ =>
             rewrite (stamp_frame _ _ _ _ _ _ H) by discriminate
         | H : display_private (_ :: _) ?p = Ok ?p' |- get_prop ?p' _ = _ =>
             rewrite (display_private_frame _ _ _ _ _ H) by discriminate
         end.

Lemma map_provider_keeps_login_method u now idn p p' :
  map_provider u now idn p = Ok p' ->
  get_prop p' "login_method" = get_prop p "login_method".
Proof.
  unfold map_provider. intros H. split_steps; frame_back; reflexivity.
Qed.

Lemma map_identity_keeps_login_method u now i idn p p' :
  i <> 0%nat ->
  map_identity u now i idn p = Ok p' ->
  get_prop p' "login_method" = get_prop p "login_method".
Proof.
  unfold map_identity, store_login_method. intros Hi H.
  destruct (Nat.eqb_spec i 0); [contradiction|].
  split_steps; [reflexivity|].
  now apply map_provider_keeps_login_method in H.
Qed.

Lemma identities_loop_keeps_login_method u now ids :
  forall i p p',
    i <> 0%nat ->
    identities_loop u now i ids p = Ok p' ->
    get_prop p' "login_method" = get_prop p "login_method".
Proof.
  induction ids as [|idn rest IH]; simpl; intros i p p' Hi H.
  - now injection H as <-.
  - split_steps. rewrite (IH _ _ _ (Nat.neq_succ_0 i) H).
    eapply map_identity_keeps_login_method; eauto.
Qed.

(** The loop body on an identity whose connection is not whitelisted. *)
Lemma map_identity_skips u now i idn p :
  whitelisted (connection idn) = false ->
  map_identity u now i idn p = Ok p.
Proof. intros H. unfold map_identity. now rewrite H. Qed.

(** The loop body at index 0 on a whitelisted identity. *)
Lemma map_identity_first u now idn p p' :
  whitelisted (connection idn) = true ->
  map_identity u now 0 idn p = Ok p' ->
  read p' ["login_method"; "value"] = Ok (connection idn).
Proof.
  unfold map_identity, store_login_method. intros Hw H. rewrite Hw in H.
  cbn [negb Nat.eqb] in H.
  destruct (stamp now ["login_method"] p) as [p1|] eqn:E0; [|discriminate].
  cbn [rbind] in H.
  destruct (assign p1 ["login_method"] "value" (connection idn))
    as [p2|] eqn:E1; [|discriminate].
  cbn [rbind] in H.
  apply map_provider_keeps_login_method in H.
  destruct (stamp_leaves_object _ _ _ _ E0) as (c & ps & Hobj).
  pose proof (assign_read_back _ _ _ _ _ _ _ Hobj E1) as Hr.
  simpl in Hr |- *. rewrite H. exact Hr.
Qed.

(** A write leaves every read alone whose path parts ways with the path
    written. *)
Lemma assign_read_diverge path :
  forall p f x p' q,
    assign p path f x = Ok p' ->
    diverge (path ++ [f]) q = true ->
    read p' q = read p q.
Proof.
  induction path as [|k rest IH]; intros p f x p' q H Hd.
  - destruct q as [|y q']; [discriminate|]. simpl in Hd.
    destruct (String.eqb_spec f y) as [|Hne]; [discriminate|].
    destruct p; simpl in H; try discriminate; injection H as <-;
      try reflexivity.
    simpl. now rewrite own_put_other.
  - destruct (assign_below_root _ _ _ _ _ _ H)
      as (c & ps & ch & ch' & -> & Hch & Hrest & ->).
    destruct q as [|y q']; [discriminate|]. simpl in Hd.
    destruct (String.eqb_spec k y) as [<-|Hne].
    + simpl in Hch |- *. injection Hch as <-. rewrite own_put_same.
      cbn [rbind]. exact (IH _ _ _ _ _ Hrest Hd).
    + simpl. now rewrite own_put_other.
Qed.

Ltac read_back :=
  repeat match goal with
         | H : assign ?p _ _ _ = Ok ?p' |- read ?p' _ = _ =>
             rewrite (assign_read_diverge _ _ _ _ _ _ H) by reflexivity
         end.

Lemma populate_login_method u USER_ID now skeleton p :
  populate u USER_ID now skeleton = Ok p ->
  match identities u with
  | idn :: _ =>
      if whitelisted (connection idn)
      then read p ["login_method"; "value"] = Ok (connection idn)
      else get_prop p "login_method" = get_prop skeleton "login_method"
  | [] => get_prop p "login_method" = get_prop skeleton "login_method"
  end.
Proof.
  unfold populate. intros H. split_steps.
  match type of H with
  | identities_loop _ _ _ _ ?q = Ok _ =>
      assert (Hpre : get_prop q "login_method"
                     = get_prop skeleton "login_method")
        by (frame_back; reflexivity);
      generalize dependent q
  end.
  intros q _ H Hpre.
  destruct (identities u) as [|idn rest].
  - simpl in H. injection H as <-. exact Hpre.
  - simpl in H. rename q into q0.
    destruct (map_identity u now 0 idn q0) as [q|] eqn:Eq; [|discriminate].
    cbn [rbind] in H.
    apply identities_loop_keeps_login_method in H; [|discriminate].
    destruct (whitelisted (connection idn)) eqn:Hw.
    + apply map_identity_first in Eq; [|exact Hw].
      simpl in Eq |- *. now rewrite H.
    + rewrite map_identity_skips in Eq by exact Hw. injection Eq as <-.
      now rewrite H.
Qed.

(** No write of the builder reaches [usernames.metadata.last_modified]. *)
Lemma map_provider_leaves_usernames_last_modified u now idn p p' :
  map_provider u now idn p = Ok p' ->
  read p' ["usernames"; "metadata"; "last_modified"] =
  read p ["usernames"; "metadata"; "last_modified"].
Proof.
  unfold map_provider, stamp, display_private. intros H.
  split_steps; read_back; reflexivity.
Qed.

Lemma identities_loop_leaves_usernames_last_modified u now ids :
  forall i p p',
    identities_loop u now i ids p = Ok p' ->
    read p' ["usernames"; "metadata"; "last_modified"] =
    read p ["usernames"; "metadata"; "last_modified"].
Proof.
  induction ids as [|idn rest IH]; cbn [identities_loop]; intros i p p' H.
  - now injection H as <-.
  - split_steps. rewrite (IH _ _ _ H). clear H IH.
    unfold map_identity, store_login_method, stamp in E.
    split_steps;
      try (apply map_provider_leaves_usernames_last_modified in E;
           rewrite E);
      read_back; reflexivity.
Qed.

Lemma populate_leaves_usernames_last_modified u USER_ID now skeleton p :
  populate u USER_ID now skeleton = Ok p ->
  read p ["usernames"; "metadata"; "last_modified"] =
  read skeleton ["usernames"; "metadata"; "last_modified"].
Proof.
  unfold populate, stamp, display_private. intros H. split_steps.
  rewrite (identities_loop_leaves_usernames_last_modified _ _ _ _ _ _ H).
  read_back; reflexivity.
Qed.

(** ** The design document on the builder *)

(** C4, as stated, fails: "the first entry whose connection is
    whitelisted, at whatever position it occurs, sets the built
    profile's login_method to that entry's connection name".  For a user
    linked to LDAP first and GitHub second, GitHub is the first
    whitelisted identity and [login_method.value] stays [null]. *)
Lemma login_method_ignores_a_later_whitelisted_identity :
  ~ (forall u USER_ID now skeleton p idn,
        populate u USER_ID now skeleton = Ok p ->
        first_whitelisted (identities u) = Some idn ->
        read p ["login_method"; "value"] = Ok (connection idn)).
Proof.
  intros H.
  pose proof (H (sample_user [ldap_identity; github_identity])
                (VStr "github|12345") sample_now sample_skeleton) as H'.
  vm_compute in H'. specialize (H' _ _ eq_refl eq_refl). discriminate H'.
Qed.

(** C4, amended: for every ordered sequence of linked identities, the
    entry at position 0 sets the built profile's [login_method] to its
    connection name when its connection is whitelisted; otherwise (no
    entry, or a first entry that is not whitelisted) the builder leaves
    [login_method] as the skeleton has it, whatever follows.  An entry
    whose connection is not whitelisted is skipped: the loop body leaves
    the profile as it is. *)
Theorem login_method_comes_from_the_identity_at_index_zero :
  forall u USER_ID now skeleton p,
    populate u USER_ID now skeleton = Ok p ->
    match identities u with
    | idn :: _ =>
        if whitelisted (connection idn)
        then read p ["login_method"; "value"] = Ok (connection idn)
        else get_prop p "login_method" = get_prop skeleton "login_method"
    | [] => get_prop p "login_method" = get_prop skeleton "login_method"
    end
    /\ (forall i idn q,
          whitelisted (connection idn) = false ->
          map_identity u now i idn q = Ok q).
Proof.
  intros u USER_ID now skeleton p H. split.
  - exact (populate_login_method _ _ _ _ _ H).
  - intros i idn q Hw. now apply map_identity_skips.
Qed.

Lemma login_method_google_then_github :
  read google_then_github_profile ["login_method"; "value"]
  = Ok (VStr "google-oauth2").
Proof.
  exact (proj1 (login_method_comes_from_the_identity_at_index_zero
                  (sample_user [google_identity; github_identity])
                  (VStr "github|12345") sample_now sample_skeleton
                  google_then_github_profile eq_refl)).
Defined.

(** C5 fails on the code for the username slot.  For a user with a
    GitHub identity and a nickname, the builder writes
    [usernames.values] and [usernames.signature.publisher.name], and
    [usernames.metadata.last_modified] keeps the instant of the skeleton,
    while the neighbouring [identities.github_id_v3] is stamped with the
    current instant. *)
Theorem usernames_written_but_not_stamped :
  forall now,
  exists p,
    populate (sample_user [github_identity]) (VStr "github|12345") now
      sample_skeleton = Ok p
    /\ read p ["usernames"; "values"]
       = Ok (VObj Plain [("HACK#GITHUB", VStr "octocat")])
    /\ read p ["usernames"; "signature"; "publisher"; "name"]
       = Ok (VStr PUBLISHER_NAME)
    /\ read p ["usernames"; "metadata"; "last_modified"]
       = Ok (VStr "1970-01-01T00:00:00Z")
    /\ read p ["identities"; "github_id_v3"; "metadata"; "last_modified"]
       = Ok (VStr now).
Proof.
  intros now. eexists. split; [vm_compute; reflexivity|].
  repeat split; reflexivity.
Qed.

(** ** The design document on the signer *)

(** C7 fails on the code for the number zero.  A signed attribute whose
    value is the number 0 keeps the number: [jwt.sign] receives it and
    the signed attribute stores it, while its decimal string is ["0"].
    Every other integer is stored as its decimal string
    ([signAttribute_coerces_nonzero]). *)
Theorem signAttribute_leaves_zero_a_number :
  signAttribute sample_sign (attribute_of "access_provider" (VNum 0))
  = ([VObj Plain [("value", VNum 0)]],
     Ok (VObj Plain [("value", VNum 0); ("signature", envelope "eyJ.sig")]))
  /\ number_toString 0 = "0"
  /\ (forall sign,
        fst (signAttribute sign (attribute_of "access_provider" (VNum 0)))
        = [VObj Plain [("value", VNum 0)]]).
Proof.
  split; [reflexivity|]. split; [reflexivity|].
  intros sign. unfold signAttribute. simpl. unfold jwt_sign_call.
  destruct (sign _); reflexivity.
Qed.

Example signAttribute_forty_two :
  snd (signAttribute sample_sign (attribute_of "access_provider" (VNum 42)))
  = Ok (VObj Plain [("value", VStr "42"); ("signature", envelope "eyJ.sig")]).
Proof. reflexivity. Qed.

(** ** The promise chain: what enters the trace *)

Section TraceFacts.
Variable h : host.
Variable cfg : configuration.
Variable ok : event -> bool.

Lemma emits_pure {A} (g : world -> result A) :
  emits ok (fun w => (g w, w)).
Proof. intros w. exists []. simpl. now rewrite app_nil_r. Qed.

Lemma emits_mret {A} (a : A) : emits ok (mret a).
Proof. apply (emits_pure (fun _ => Ok a)). Qed.

Lemma emits_mthrow {A} e : emits ok (@mthrow A e).
Proof. apply (emits_pure (fun _ => Throw e)). Qed.

Lemma emits_mlift {A} (r : result A) : emits ok (mlift r).
Proof. apply (emits_pure (fun _ => r)). Qed.

Lemma emits_mdo f :
  (forall w, trace (f w) = trace w) -> emits ok (mdo f).
Proof.
  intros Hf w. exists []. simpl. now rewrite Hf, app_nil_r.
Qed.

Lemma emits_mbind {A B} (m : M A) (f : A -> M B) :
  emits ok m -> (forall a, emits ok (f a)) -> emits ok (mbind m f).
Proof.
  intros Hm Hf w. unfold mbind. destruct (Hm w) as [evs [Ht Hok]].
  destruct (m w) as [[a|e] w1]; simpl in *.
  - destruct (Hf a w1) as [evs' [Ht' Hok']].
    exists (evs ++ evs'). split.
    + now rewrite Ht', Ht, app_assoc.
    + now rewrite forallb_app, Hok, Hok'.
  - now exists evs.
Qed.

Lemma emits_try_catch {A} (m : M A) (handler : exn -> M A) :
  emits ok m -> (forall e, emits ok (handler e)) ->
  emits ok (try_catch m handler).
Proof.
  intros Hm Hh w. unfold try_catch. destruct (Hm w) as [evs [Ht Hok]].
  destruct (m w) as [[a|e] w1]; simpl in *.
  - now exists evs.
  - destruct (Hh e w1) as [evs' [Ht' Hok']].
    exists (evs ++ evs'). split.
    + now rewrite Ht', Ht, app_assoc.
    + now rewrite forallb_app, Hok, Hok'.
Qed.

Lemma emits_emit e : ok e = true -> emits ok (mdo (emit e)).
Proof. intros H w. exists [e]. simpl. now rewrite H. Qed.

Lemma emits_console_log l : ok (EvLog l) = true -> emits ok (console_log l).
Proof. apply emits_emit. Qed.

Lemma emits_callback :
  (forall u c, ok (EvCallback None u c) = true) -> emits ok callback.
Proof. intros H w. exists [EvCallback None (the_user w) (the_context w)].
       simpl. now rewrite H. Qed.

Lemma emits_now_ms : emits ok (now_ms h).
Proof. intros w. exists []. simpl. now rewrite app_nil_r. Qed.

Lemma emits_fetch_json r : ok (EvFetch r) = true -> emits ok (fetch_json h r).
Proof.
  intros H w. exists [EvFetch r]. unfold fetch_json.
  destruct (fetch h (fetch_calls w) r) as [|st [v|]]; simpl; now rewrite H.
Qed.

Lemma emits_bearer_token_is_fresh : emits ok (bearer_token_is_fresh h).
Proof.
  intros w. exists []. unfold bearer_token_is_fresh.
  destruct (truthy (personapi_bearer_token w)); [|simpl; now rewrite app_nil_r].
  destruct (personapi_bearer_token_creation_time w) as [t|];
    [|simpl; now rewrite app_nil_r].
  destruct (truthy (VNum t)); simpl; now rewrite app_nil_r.
Qed.

Lemma emits_getBearerToken :
  ok (EvLog LogRetrievingBearer) = true ->
  ok (EvLog LogRetrievedBearer) = true ->
  ok (EvFetch (bearer_request cfg)) = true -> emits ok (getBearerToken h cfg).
Proof.
  intros Hl1 Hl2 Hf. unfold getBearerToken.
  apply emits_mbind; [apply emits_bearer_token_is_fresh|].
  intros [|]; [apply (emits_pure (fun w => Ok (personapi_bearer_token w)))|].
  apply emits_mbind; [now apply emits_console_log|]. intros _.
  apply emits_try_catch; [|intros; apply emits_mthrow].
  apply emits_mbind; [now apply emits_fetch_json|]. intros data.
  apply emits_mbind; [apply emits_mlift|]. intros tok.
  apply emits_mbind; [now apply emits_mdo|]. intros _.
  apply emits_mbind; [apply emits_now_ms|]. intros t.
  apply emits_mbind; [now apply emits_mdo|]. intros _.
  apply emits_mbind; [now apply emits_console_log|]. intros _.
  apply (emits_pure (fun w => Ok (personapi_bearer_token w))).
Qed.

Lemma emits_getPersonProfile USER_ID :
  ok (EvLog LogRetrievingBearer) = true ->
  ok (EvLog LogRetrievedBearer) = true ->
  ok (EvLog LogFetchingProfile) = true ->
  ok (EvFetch (bearer_request cfg)) = true ->
  (forall bearer uid,
      ok (EvFetch {| req_url := PersonUrl (conf (personapi_url cfg)) uid;
                     req_method := "GET"; req_bearer := Some bearer;
                     req_body := None;
                     req_timeout := PERSONAPI_TIMEOUT |}) = true) ->
  emits ok (getPersonProfile h cfg USER_ID).
Proof.
  intros Hl1 Hl2 Hl3 Hb Hp. unfold getPersonProfile.
  apply emits_mbind; [now apply emits_getBearerToken|]. intros bearer.
  apply emits_mbind; [apply emits_mlift|]. intros uid.
  apply emits_mbind; [now apply emits_console_log|]. intros _.
  now apply emits_fetch_json.
Qed.

Lemma emits_postProfile USER_ID profile :
  ok (EvLog LogRetrievingBearer) = true ->
  ok (EvLog LogRetrievedBearer) = true ->
  ok (EvLog LogPostingProfile) = true ->
  ok (EvFetch (bearer_request cfg)) = true ->
  (forall bearer uid,
      ok (EvFetch {| req_url := ChangeUrl (conf (changeapi_url cfg)) uid;
                     req_method := "POST"; req_bearer := Some bearer;
                     req_body := Some profile;
                     req_timeout := CHANGEAPI_TIMEOUT |}) = true) ->
  emits ok (postProfile h cfg USER_ID profile).
Proof.
  intros Hl1 Hl2 Hl3 Hb Hp. unfold postProfile.
  apply emits_mbind; [now apply emits_console_log|]. intros _.
  apply emits_mbind; [now apply emits_getBearerToken|]. intros bearer.
  apply emits_mbind; [apply emits_mlift|]. intros uid.
  now apply emits_fetch_json.
Qed.

Lemma emits_signAll_traced privateKey profile :
  (forall p, ok (EvJwtSign p) = true) ->
  emits ok (signAll_traced h privateKey profile).
Proof.
  intros Hs w. unfold signAll_traced.
  destruct (signAll (jwt_sign h privateKey) profile) as [payloads r].
  exists (map EvJwtSign payloads). simpl. split.
  - revert w. induction payloads as [|p ps IH]; intros w; simpl.
    + now rewrite app_nil_r.
    + rewrite IH. simpl. now rewrite <- app_assoc.
  - induction payloads as [|p ps IH]; simpl; [reflexivity|].
    now rewrite Hs, IH.
Qed.

Lemma emits_createPersonProfile USER_ID privateKey :
  ok (EvLog LogGeneratingProfile) = true ->
  (forall p, ok (EvJwtSign p) = true) ->
  emits ok (createPersonProfile h cfg USER_ID privateKey).
Proof.
  intros Hl Hs. unfold createPersonProfile.
  apply emits_mbind; [now apply emits_console_log|]. intros _.
  apply emits_mbind; [apply emits_now_ms|]. intros t.
  apply emits_mbind.
  - destruct (changeapi_null_profile cfg) as [blob|]; [|apply emits_mthrow].
    destruct (JSON_parse_base64 h blob); [apply emits_mret|apply emits_mthrow].
  - intros skeleton. apply emits_mbind.
    + apply (emits_pure
               (fun w => populate (the_user w) USER_ID (toISOString h t)
                           skeleton)).
    + intros profile. now apply emits_signAll_traced.
Qed.

Lemma emits_setExistsInCIS METADATA_at USER_ID :
  (forall m, ok (EvUpdateUserMetadata USER_ID m) = true) ->
  emits ok (setExistsInCIS METADATA_at USER_ID).
Proof.
  intros Hu w. eexists [_]. unfold setExistsInCIS. simpl.
  split; [reflexivity|]. now rewrite Hu.
Qed.
End TraceFacts.

(** ** The bearer token cache *)

Section BearerToken.
Variable h : host.
Variable cfg : configuration.

Lemma bearer_token_is_fresh_decides w :
  fst (bearer_token_is_fresh h w) = Ok (cache_is_fresh h w)
  /\ trace (snd (bearer_token_is_fresh h w)) = trace w
  /\ fetch_calls (snd (bearer_token_is_fresh h w)) = fetch_calls w
  /\ personapi_bearer_token (snd (bearer_token_is_fresh h w))
     = personapi_bearer_token w.
Proof.
  unfold bearer_token_is_fresh, cache_is_fresh.
  destruct (truthy (personapi_bearer_token w)); [|now simpl].
  destruct (personapi_bearer_token_creation_time w) as [t|]; [|now simpl].
  destruct (truthy (VNum t)); now simpl.
Qed.

(** A fresh cache: the token comes back and nothing is fetched. *)
Lemma getBearerToken_reuses w :
  cache_is_fresh h w = true ->
  fst (getBearerToken h cfg w) = Ok (personapi_bearer_token w)
  /\ trace (snd (getBearerToken h cfg w)) = trace w.
Proof.
  intros Hf. unfold getBearerToken, mbind.
  destruct (bearer_token_is_fresh_decides w) as (Hr & Ht & _ & Htok).
  destruct (bearer_token_is_fresh h w) as [r w1]. simpl in *. subst r.
  rewrite Hf. simpl. now rewrite Htok.
Qed.

(** A cache that is not fresh: exactly one request, to the token
    endpoint. *)
Lemma getBearerToken_refreshes w :
  cache_is_fresh h w = false ->
  exists evs,
    trace (snd (getBearerToken h cfg w)) = trace w ++ evs
    /\ filter is_fetch evs = [EvFetch (bearer_request cfg)].
Proof.
  intros Hf. unfold getBearerToken, mbind.
  destruct (bearer_token_is_fresh_decides w) as (Hr & Ht & Hn & _).
  destruct (bearer_token_is_fresh h w) as [r w1]. simpl in *. subst r.
  rewrite Hf.
  unfold try_catch, mbind, console_log, mdo, fetch_json, mlift.
  cbn [emit fetch_calls].
  destruct (fetch h (fetch_calls w1) (bearer_request cfg)) as [|st [data|]];
    [| destruct (get_prop data "access_token") |];
    cbn [fst snd mthrow trace tick_fetch emit set_global now_ms tick_clock];
    rewrite Ht, <- ?app_assoc; eexists; (split; [reflexivity|reflexivity]).
Qed.

(** When the token endpoint answers with a body, the token of that
    body is returned and stored together with the instant of the next
    clock reading. *)
Lemma getBearerToken_stores w st data tok :
  cache_is_fresh h w = false ->
  fetch h (fetch_calls w) (bearer_request cfg) = Responded st (Some data) ->
  get_prop data "access_token" = Ok tok ->
  fst (getBearerToken h cfg w) = Ok tok
  /\ personapi_bearer_token (snd (getBearerToken h cfg w)) = tok
  /\ personapi_bearer_token_creation_time (snd (getBearerToken h cfg w))
     = Some (Date_now h (clock_reads (snd (bearer_token_is_fresh h w)))).
Proof.
  intros Hf Hfetch Htok. unfold getBearerToken, mbind.
  destruct (bearer_token_is_fresh_decides w) as (Hr & Ht & Hn & _).
  destruct (bearer_token_is_fresh h w) as [r w1]. simpl in *. subst r.
  rewrite Hf.
  unfold try_catch, mbind, console_log, mdo, fetch_json, mlift.
  cbn [emit fetch_calls]. rewrite Hn, Hfetch, Htok. simpl. auto.
Qed.
End BearerToken.

(** ** The completion hook *)

Lemma callbacks_app t1 t2 : callbacks (t1 ++ t2) = callbacks t1 ++ callbacks t2.
Proof. apply filter_app. Qed.

Lemma forallb_weaken {A} (p q : A -> bool) l :
  (forall x, p x = true -> q x = true) ->
  forallb p l = true -> forallb q l = true.
Proof.
  intros Hpq. induction l as [|x l IH]; simpl; [reflexivity|].
  intros H. apply Bool.andb_true_iff in H as [Hx Hl].
  now rewrite (Hpq _ Hx), IH.
Qed.

Lemma settlement_not_callback e : is_settlement e = true -> not_callback e = true.
Proof.
  destruct e as [[]| | | | | |]; simpl; intros H; try discriminate H;
    reflexivity.
Qed.

Lemma settlement_leaves_profile_alone e :
  is_settlement e = true -> leaves_profile_alone e = true.
Proof.
  destruct e as [[]| | | | | |]; simpl; intros H; try discriminate H;
    reflexivity.
Qed.

Lemma callbacks_quiet evs :
  forallb not_callback evs = true -> callbacks evs = [].
Proof.
  induction evs as [|e evs IH]; simpl; [reflexivity|].
  unfold not_callback at 1. destruct (is_callback e); simpl; [discriminate|].
  exact IH.
Qed.

Section CompletionHook.
Variable h : host.
Variable cfg : configuration.

Lemma ends_with_callback_bind {A B} (m : M A) (f : A -> M B) :
  emits not_callback m ->
  (forall a, ends_with_callback (f a)) ->
  ends_with_callback (mbind m f).
Proof.
  intros Hm Hf w. unfold mbind. destruct (Hm w) as [evs [Ht Hq]].
  apply callbacks_quiet in Hq.
  destruct (m w) as [[a|e] w1]; simpl in *.
  - destruct (Hf a w1) as [evs' [Ht' Hr]].
    exists (evs ++ evs'). split; [now rewrite Ht', Ht, app_assoc|].
    unfold calls_back_once in *. rewrite callbacks_app, Hq.
    exact Hr.
  - now exists evs.
Qed.

Lemma ends_with_callback_throw {A} e : ends_with_callback (@mthrow A e).
Proof. intros w. exists []. simpl. now rewrite app_nil_r. Qed.

Lemma ends_with_callback_callback : ends_with_callback callback.
Proof.
  intros w. exists [EvCallback None (the_user w) (the_context w)].
  simpl. split; [reflexivity|]. now exists (the_user w), (the_context w).
Qed.

Ltac quiet :=
  first [ apply emits_getPersonProfile | apply emits_postProfile
        | apply emits_createPersonProfile | apply emits_setExistsInCIS
        | apply emits_console_log | apply emits_mlift | apply emits_mthrow ];
  reflexivity.

(** The three [then] handlers, before the [catch]. *)
Lemma then_handlers_end_with_callback METADATA_at USER_ID privateKey :
  ends_with_callback (then_handlers h cfg METADATA_at USER_ID privateKey).
Proof.
  unfold then_handlers.
  apply ends_with_callback_bind; [quiet|]. intros profile.
  apply ends_with_callback_bind.
  { apply emits_mbind; [quiet|]. intros n.
    destruct (negb (Nat.eqb n 0)); [|quiet].
    apply emits_mbind; [quiet|]. intros _. quiet. }
  intros built.
  apply ends_with_callback_bind; [quiet|]. intros response.
  apply ends_with_callback_bind; [quiet|]. intros isObj.
  apply ends_with_callback_bind; [quiet|]. intros status_code.
  destruct (isObj && eq_num status_code 200);
    [|apply ends_with_callback_throw].
  apply ends_with_callback_bind; [quiet|]. intros _.
  apply ends_with_callback_bind; [quiet|]. intros _.
  apply ends_with_callback_callback.
Qed.

(** The chain never rejects and invokes the hook exactly once. *)
Lemma promise_chain_calls_back_once METADATA_at USER_ID privateKey w :
  fst (promise_chain h cfg METADATA_at USER_ID privateKey w) = Ok tt
  /\ exists evs,
       trace (snd (promise_chain h cfg METADATA_at USER_ID privateKey w))
       = trace w ++ evs
       /\ calls_back_once evs.
Proof.
  unfold promise_chain, try_catch, catch_handler.
  destruct (then_handlers_end_with_callback METADATA_at USER_ID privateKey w)
    as [evs [Ht Hr]].
  destruct (then_handlers h cfg METADATA_at USER_ID privateKey w)
    as [[[]|e] w1]; simpl in *.
  - split; [reflexivity|]. now exists evs.
  - split; [reflexivity|].
    exists (evs ++ [EvLog (LogError e);
                    EvCallback None (the_user w1) (the_context w1)]).
    split; [now rewrite Ht, <- !app_assoc|].
    unfold calls_back_once. rewrite callbacks_app, Hr. simpl. eauto.
Qed.

Lemma drain_trace w :
  exists evs,
    trace (drain h w) = trace w ++ evs
    /\ forallb is_settlement evs = true
    /\ the_user (drain h w) = the_user w
    /\ the_context (drain h w) = the_context w
    /\ fresh_metadata (drain h w) = fresh_metadata w.
Proof.
  unfold drain. generalize (in_flight w) as l. intros l.
  assert (H : forall w0, exists evs,
               trace (fold_left (settle h) l w0) = trace w0 ++ evs
               /\ forallb is_settlement evs = true
               /\ the_user (fold_left (settle h) l w0) = the_user w0
               /\ the_context (fold_left (settle h) l w0) = the_context w0
               /\ fresh_metadata (fold_left (settle h) l w0)
                  = fresh_metadata w0).
  { induction l as [|u l IH]; intros w0; simpl.
    - exists []. now rewrite app_nil_r.
    - destruct (IH (settle h w0 u)) as (evs & Ht & Hq & Hu & Hc & Hf).
      unfold settle in *.
      destruct (updateUserMetadata h _ _ _); simpl in *;
        eexists; rewrite Ht, <- !app_assoc;
        (split; [reflexivity|]); simpl; auto. }
  destruct (H w) as (evs & Ht & Hq & Hu & Hc & Hf). exists evs. simpl. auto.
Qed.
End CompletionHook.

(** ** The gates *)

Section Gates.
Variable h : host.
Variable cfg : configuration.

Lemma missing_false o : missing o = false -> exists s, o = Some s.
Proof. destruct o; [eauto | discriminate]. Qed.

(** One of the six keys the gate looks at is missing: a diagnostic,
    the hook, and nothing else. *)
Lemma rule_stops_at_the_first_gate w :
  six_keys_missing cfg = true ->
  fst (rule h cfg w) = Ok tt
  /\ trace (snd (rule h cfg w))
     = trace w ++ [EvLog LogConfigurationMissing;
                   EvCallback None (the_user w) (the_context w)].
Proof.
  unfold six_keys_missing, rule. intros H. rewrite H. simpl.
  now rewrite <- app_assoc.
Qed.

(** Past the gates, the rule is the promise chain, followed by the
    settling of the updates it left in flight. *)
Lemma rule_past_gates w :
  passes_gates cfg w = true ->
  exists privateKey,
    changeapi_auth0_private_key cfg = Some privateKey
    /\ rule h cfg w
       = (promise_chain h cfg (METADATA_ref (the_user w) (the_context w))
            (js_or (primaryUser (the_context w)) (user_id (the_user w)))
            privateKey ;;;
          mdo (drain h))
           (set_METADATA MetadataFresh [] w).
Proof.
  unfold passes_gates, rule. intros H.
  apply Bool.andb_true_iff in H as [H Hflag].
  apply Bool.andb_true_iff in H as [H Hwl].
  apply Bool.andb_true_iff in H as [Hsix Hmis].
  apply Bool.negb_true_iff in Hsix. rewrite Hsix.
  repeat (apply Bool.orb_false_iff in Hsix as [Hsix ?]).
  destruct (missing_false _ Hsix) as [key Hkey]. exists key.
  split; [exact Hkey|].
  destruct (personapi_audience cfg) as [a|]; [|discriminate].
  destruct (personapi_url cfg) as [u|]; [|discriminate].
  apply Bool.negb_true_iff in Hmis, Hflag.
  unfold mbind at 1, mlift at 1, conf_includes. cbn [rbind].
  apply Bool.orb_false_iff in Hmis as [Ha Hu]. rewrite Ha, Hu.
  cbn [the_context the_user set_METADATA]. rewrite Hwl. cbn [negb].
  rewrite Hflag, Hkey. reflexivity.
Qed.

(** With the audience configured, the rule never raises and invokes the
    hook exactly once, with no error, whatever the host answers. *)
Lemma rule_calls_back_once w a :
  personapi_audience cfg = Some a ->
  fst (rule h cfg w) = Ok tt
  /\ exists evs,
       trace (snd (rule h cfg w)) = trace w ++ evs /\ calls_back_once evs.
Proof.
  intros Haud.
  assert (Hone : forall (l : log_line) w0,
             trace w0 = trace w ->
             fst ((console_log l ;;; callback) w0) = Ok tt
             /\ exists evs,
                  trace (snd ((console_log l ;;; callback) w0))
                  = trace w ++ evs /\ calls_back_once evs).
  { intros l w0 Hw0. simpl. split; [reflexivity|].
    eexists. rewrite Hw0, <- app_assoc. split; [reflexivity|].
    simpl. unfold calls_back_once. simpl. eauto. }
  assert (Hcb : forall w0,
             trace w0 = trace w ->
             fst (callback w0) = Ok tt
             /\ exists evs,
                  trace (snd (callback w0)) = trace w ++ evs
                  /\ calls_back_once evs).
  { intros w0 Hw0. simpl. split; [reflexivity|].
    eexists. rewrite Hw0. split; [reflexivity|].
    unfold calls_back_once. simpl. eauto. }
  unfold rule.
  set (w0 := set_METADATA MetadataFresh [] w).
  assert (Hw0 : trace w0 = trace w) by reflexivity.
  destruct (_ || _) eqn:Hsix; [now apply Hone|].
  repeat (apply Bool.orb_false_iff in Hsix as [Hsix ?]).
  destruct (missing_false _ Hsix) as [key Hkey].
  destruct (missing_false (personapi_url cfg)) as [u Hu]; [assumption|].
  rewrite Haud, Hu, Hkey.
  cbv beta iota zeta delta [mbind mlift conf_includes rbind Buffer_from mdo].
  assert (Hmis : forall b : bool,
             (if b then Ok true else Ok (includes u "/v"))
             = Ok (b || includes u "/v")) by (intros []; reflexivity).
  rewrite Hmis.
  destruct (_ || _); [now apply Hone|].
  destruct (negb (whitelisted _)); [now apply Hcb|].
  destruct (truthy _); [now apply Hcb|].
  match goal with
  | |- context [promise_chain h cfg ?m ?i key w0] =>
      destruct (promise_chain_calls_back_once h cfg m i key w0)
        as [Hr [evs [Ht Hc]]];
      destruct (promise_chain h cfg m i key w0) as [r w1]
  end.
  simpl in Hr, Ht. subst r. cbn [fst snd].
  destruct (drain_trace h w1) as (evs' & Ht' & Hq & _).
  apply (forallb_weaken _ _ _ settlement_not_callback) in Hq.
  split; [reflexivity|]. exists (evs ++ evs'). split.
  - rewrite Ht', Ht, <- app_assoc. reflexivity.
  - unfold calls_back_once in *. rewrite callbacks_app.
    rewrite (callbacks_quiet _ Hq), app_nil_r. exact Hc.
Qed.
End Gates.

(** ** The design document on the gates, the hook and the token cache *)

(** C1 fails on the code for two of the eight settings.  The gate of
    lines 14-19 looks at six keys.  Without [personapi_audience] the
    rule gets past it and line 28 throws: nothing is fetched, and the
    hook is never invoked (the trace is left as it was).  Without
    [personapi_oauth_url], and with a token in the cache, the rule gets
    past both gates and sends the store request and the submission. *)
Theorem gate_overlooks_audience_and_oauth_url :
  (forall h w,
      rule h (without_audience sample_configuration) w
      = (Throw TypeError, set_METADATA MetadataFresh [] w)
      /\ trace (set_METADATA MetadataFresh [] w) = trace w)
  /\ (let run :=
         rule (sample_host sample_skeleton picky_fetch true)
           (without_oauth_url sample_configuration) one_second_old_cache in
       fst run = Ok tt
       /\ requested (trace (snd run))
          = [ PersonUrl (VStr "https://person.api.dev.sso.allizom.org")
                "github%7C12345";
              ChangeUrl (VStr "https://change.api.dev.sso.allizom.org")
                "github%7C12345" ]).
Proof.
  split.
  - intros h w. split; reflexivity.
  - vm_compute. split; reflexivity.
Qed.

(** C2 fails on the code through the same gap in the gate: for every
    host and every world, a configuration that has the six keys of the
    gate and no [personapi_audience] makes the rule raise a [TypeError]
    to its caller, and the hook is not invoked. *)
Theorem missing_audience_is_raised_to_the_caller :
  forall h cfg w,
    six_keys_missing cfg = false ->
    personapi_audience cfg = None ->
    fst (rule h cfg w) = Throw TypeError
    /\ trace (snd (rule h cfg w)) = trace w.
Proof.
  intros h cfg w Hsix Haud. unfold rule.
  unfold six_keys_missing in Hsix. rewrite Hsix, Haud. split; reflexivity.
Qed.

Lemma missing_audience_sample_run :
  fst (rule (sample_host sample_skeleton friendly_fetch true)
         (without_audience sample_configuration)
         (initial_world (sample_user [github_identity]) sample_context))
  = Throw TypeError
  /\ trace (snd (rule (sample_host sample_skeleton friendly_fetch true)
                   (without_audience sample_configuration)
                   (initial_world (sample_user [github_identity])
                      sample_context)))
     = [].
Proof.
  exact (missing_audience_is_raised_to_the_caller
           (sample_host sample_skeleton friendly_fetch true)
           (without_audience sample_configuration)
           (initial_world (sample_user [github_identity]) sample_context)
           eq_refl eq_refl).
Defined.

(** C3 fails on the code by the unit of the refresh window.  The window
    is the number 64800 ("18 hours", in seconds) and the age it is
    compared with is a difference of [Date.now()] readings, in
    milliseconds: a token 65 seconds old, far younger than eighteen
    hours, is not reused, and a token request goes out. *)
Theorem getBearerToken_refetches_a_token_65_seconds_old :
  let h := sample_host sample_skeleton friendly_fetch true in
  let w := sixty_five_seconds_old_cache in
  personapi_bearer_token w = VStr "tok"
  /\ personapi_bearer_token_creation_time w = Some (Date_now h 0 - 65000)
  /\ 65000 < eighteen_hours_ms
  /\ cache_is_fresh h w = false
  /\ requested (trace (snd (getBearerToken h sample_configuration w)))
     = [OAuthUrl (VStr "https://auth.mozilla.auth0.com/oauth/token")].
Proof. vm_compute. repeat split. Qed.

Example getBearerToken_reuses_a_token_one_second_old :
  let h := sample_host sample_skeleton friendly_fetch true in
  getBearerToken h sample_configuration one_second_old_cache
  = (Ok (VStr "tok"), tick_clock one_second_old_cache).
Proof. reflexivity. Qed.

(** ** The orchestration: marking, catching, settling *)

Lemma METADATA_set r m w : METADATA r (set_METADATA r m w) = m.
Proof. destruct r; reflexivity. Qed.

(** [setExistsInCIS]: the flag is on [METADATA] when the update is
    started, and the update is left in flight. *)
Lemma setExistsInCIS_marks METADATA_at USER_ID w :
  fst (setExistsInCIS METADATA_at USER_ID w) = Ok tt
  /\ METADATA METADATA_at (snd (setExistsInCIS METADATA_at USER_ID w))
     = put "existsInCIS" (VBool true) (METADATA METADATA_at w)
  /\ trace (snd (setExistsInCIS METADATA_at USER_ID w))
     = trace w
       ++ [EvUpdateUserMetadata USER_ID
             (put "existsInCIS" (VBool true) (METADATA METADATA_at w))]
  /\ in_flight (snd (setExistsInCIS METADATA_at USER_ID w))
     = in_flight w
       ++ [{| upd_index := update_calls w; upd_user_id := USER_ID;
              upd_metadata :=
                put "existsInCIS" (VBool true) (METADATA METADATA_at w) |}].
Proof.
  unfold setExistsInCIS. cbn [fst snd].
  assert (H : forall e w0, METADATA METADATA_at (emit e w0)
                           = METADATA METADATA_at w0)
    by (intros; destruct METADATA_at; reflexivity).
  assert (H' : forall u w0, METADATA METADATA_at (issue_update u w0)
                            = METADATA METADATA_at w0)
    by (intros; destruct METADATA_at; reflexivity).
  rewrite H', !H, !METADATA_set. repeat split.
Qed.

Section Orchestration.
Variable h : host.
Variable cfg : configuration.
Variable METADATA_at : metadata_ref.
Variable USER_ID : jsval.
Variable privateKey : string.

Lemma drain_settles w :
  trace (drain h w) = trace w ++ flat_map (settlement_of h) (in_flight w)
  /\ the_user (drain h w) = the_user w
  /\ the_context (drain h w) = the_context w
  /\ fresh_metadata (drain h w) = fresh_metadata w.
Proof.
  unfold drain. generalize (in_flight w) as l. intros l.
  assert (H : forall w0,
             trace (fold_left (settle h) l w0)
             = trace w0 ++ flat_map (settlement_of h) l
             /\ the_user (fold_left (settle h) l w0) = the_user w0
             /\ the_context (fold_left (settle h) l w0) = the_context w0
             /\ fresh_metadata (fold_left (settle h) l w0)
                = fresh_metadata w0).
  { induction l as [|u l IH]; intros w0; simpl.
    - now rewrite app_nil_r.
    - destruct (IH (settle h w0 u)) as (Ht & Hu & Hc & Hf).
      rewrite Ht, Hu, Hc, Hf. unfold settle, settlement_of.
      destruct (updateUserMetadata h _ _ _); simpl;
        rewrite <- !app_assoc; auto. }
  destruct (H w) as (Ht & Hu & Hc & Hf). simpl. auto.
Qed.

Lemma METADATA_drain w : METADATA METADATA_at (drain h w) = METADATA METADATA_at w.
Proof.
  destruct (drain_settles w) as (_ & Hu & Hc & Hf).
  unfold METADATA. now rewrite Hu, Hc, Hf.
Qed.

Lemma settlement_of_is_settlement l :
  forallb is_settlement (flat_map (settlement_of h) l) = true.
Proof.
  induction l as [|u l IH]; simpl; [reflexivity|].
  rewrite forallb_app, IH. unfold settlement_of.
  now destruct (updateUserMetadata h _ _ _).
Qed.

(** The existence check found a profile: the subject is marked, the
    first handler throws, and the [catch] handler invokes the hook. *)
Lemma promise_chain_profile_exists w profile w1 n :
  getPersonProfile h cfg USER_ID w = (Ok profile, w1) ->
  Object_keys_length profile = Ok (S n) ->
  promise_chain h cfg METADATA_at USER_ID privateKey w
  = catch_handler ProfileExistsError
      (snd (setExistsInCIS METADATA_at USER_ID w1)).
Proof.
  intros Hget Hkeys.
  unfold promise_chain, try_catch, then_handlers, mbind, mlift.
  rewrite Hget, Hkeys. reflexivity.
Qed.



(** The handlers ran to their end: the last one logged the creation,
    marked the subject and invoked the hook, in this order. *)
Lemma then_handlers_completed w :
  fst (then_handlers h cfg METADATA_at USER_ID privateKey w) = Ok tt ->
  exists w3,
    snd (then_handlers h cfg METADATA_at USER_ID privateKey w)
    = snd (callback
             (snd (setExistsInCIS METADATA_at USER_ID
                     (emit (EvLog LogProfileCreated) w3)))).
Proof.
  unfold then_handlers, mbind, mlift.
  destruct (getPersonProfile h cfg USER_ID w) as [[profile|] w1];
    [|discriminate].
  destruct (Object_keys_length profile) as [n|]; [|discriminate].
  destruct (negb (Nat.eqb n 0)); [discriminate|].
  destruct (createPersonProfile h cfg USER_ID privateKey w1)
    as [[built|] w2]; [|discriminate].
  destruct (postProfile h cfg USER_ID built w2) as [[response|] w3];
    [|discriminate].
  destruct (constructor_is_Object response) as [isObj|]; [|discriminate].
  destruct (get_prop response "status_code") as [sc|]; [|discriminate].
  destruct (isObj && eq_num sc 200); [|discriminate].
  intros _. exists w3. reflexivity.
Qed.

(** The chain does not look at the answers of the metadata store. *)
Lemma promise_chain_ignores_update_outcome upd :
  promise_chain (with_updateUserMetadata h upd) cfg METADATA_at USER_ID
    privateKey
  = promise_chain h cfg METADATA_at USER_ID privateKey.
Proof. reflexivity. Qed.
End Orchestration.

(** ** The design document on the orchestration *)

(** C8: for every run in which the store-existence check returns a
    non-empty body, the rule completes, the subject is marked (the flag
    [existsInCIS] is [true] on [METADATA] and the update call carries
    it), no profile build is started, nothing is signed, nothing is sent
    to the change endpoint, and the hook is invoked once. *)
Theorem existing_profile_is_marked_and_not_submitted :
  forall h cfg w profile w1 n,
    let METADATA_at := METADATA_ref (the_user w) (the_context w) in
    let USER_ID := js_or (primaryUser (the_context w)) (user_id (the_user w)) in
    passes_gates cfg w = true ->
    getPersonProfile h cfg USER_ID (set_METADATA MetadataFresh [] w)
    = (Ok profile, w1) ->
    Object_keys_length profile = Ok (S n) ->
    fst (rule h cfg w) = Ok tt
    /\ own "existsInCIS" (METADATA METADATA_at (snd (rule h cfg w)))
       = Some (VBool true)
    /\ exists evs,
         trace (snd (rule h cfg w)) = trace w ++ evs
         /\ In (EvUpdateUserMetadata USER_ID
                  (METADATA METADATA_at (snd (rule h cfg w)))) evs
         /\ forallb leaves_profile_alone evs = true
         /\ calls_back_once evs.
Proof.
  intros h cfg w profile w1 n METADATA_at USER_ID Hg Hget Hkeys.
  destruct (rule_past_gates h cfg w Hg) as (key & Hkey & Hrule).
  rewrite Hrule. unfold mbind.
  fold METADATA_at USER_ID.
  rewrite (promise_chain_profile_exists h cfg METADATA_at USER_ID key
             _ _ _ _ Hget Hkeys).
  destruct (setExistsInCIS_marks METADATA_at USER_ID w1)
    as (_ & Hmd & Htr & _).
  set (w2 := snd (setExistsInCIS METADATA_at USER_ID w1)) in *.
  unfold catch_handler, mbind, console_log, mdo, callback. cbn [fst snd].
  set (w3 := emit _ (emit _ w2)).
  assert (Hmd3 : METADATA METADATA_at w3 = METADATA METADATA_at w2)
    by (destruct METADATA_at; reflexivity).
  rewrite (METADATA_drain h METADATA_at w3), Hmd3, Hmd.
  split; [reflexivity|]. split; [apply own_put_same|].
  destruct (drain_settles h w3) as (Hdr & _).
  assert (Hq : emits (fun e => leaves_profile_alone e && not_callback e)
                 (getPersonProfile h cfg USER_ID))
    by (apply emits_getPersonProfile; reflexivity).
  destruct (Hq (set_METADATA MetadataFresh [] w)) as (evs0 & Ht0 & Hok0).
  rewrite Hget in Ht0. cbn [snd] in Ht0.
  change (trace (set_METADATA MetadataFresh [] w)) with (trace w) in Ht0.
  eexists. split.
  - rewrite Hdr. subst w3. cbn [trace emit]. rewrite Htr, Ht0.
    rewrite <- !app_assoc. reflexivity.
  - split; [|split].
    + apply in_or_app. right. left. reflexivity.
    + rewrite !forallb_app.
      rewrite (forallb_weaken _ leaves_profile_alone _
                 (fun e H => proj1 (proj1 (Bool.andb_true_iff _ _) H)) Hok0).
      rewrite (forallb_weaken _ _ _ settlement_leaves_profile_alone
                 (settlement_of_is_settlement h _)).
      reflexivity.
    + unfold calls_back_once. rewrite !callbacks_app.
      rewrite (callbacks_quiet evs0
                 (forallb_weaken _ not_callback _
                    (fun e H => proj2 (proj1 (Bool.andb_true_iff _ _) H))
                    Hok0)).
      rewrite (callbacks_quiet _
                 (forallb_weaken _ _ _ settlement_not_callback
                    (settlement_of_is_settlement h _))).
      simpl. eauto.
Qed.

Lemma existing_profile_sample_run :
  let run :=
    rule (sample_host sample_skeleton knowing_fetch true) sample_configuration
      (initial_world (sample_user [github_identity]) sample_context) in
  fst run = Ok tt
  /\ own "existsInCIS" (METADATA MetadataFresh (snd run)) = Some (VBool true)
  /\ exists evs,
       trace (snd run) = [] ++ evs
       /\ In (EvUpdateUserMetadata (VStr "github|12345")
                (METADATA MetadataFresh (snd run))) evs
       /\ forallb leaves_profile_alone evs = true
       /\ calls_back_once evs.
Proof.
  exact (existing_profile_is_marked_and_not_submitted
           (sample_host sample_skeleton knowing_fetch true)
           sample_configuration
           (initial_world (sample_user [github_identity]) sample_context)
           _ _ 0%nat eq_refl eq_refl eq_refl).
Defined.

Lemma filter_settlements l :
  forallb is_settlement l = true -> filter not_settlement l = [].
Proof.
  induction l as [|e l IH]; simpl; [reflexivity|].
  intros H. apply Bool.andb_true_iff in H as [He Hl].
  unfold not_settlement at 1. rewrite He. simpl. auto.
Qed.

Lemma drain_invisible h w :
  filter not_settlement (trace (drain h w)) = filter not_settlement (trace w).
Proof.
  destruct (drain_settles h w) as (Ht & _). rewrite Ht, filter_app.
  rewrite (filter_settlements _ (settlement_of_is_settlement h _)).
  apply app_nil_r.
Qed.

(** The answers of the metadata store change neither what the rule
    returns nor any event of the run but the settlements themselves. *)
Lemma rule_ignores_update_outcome h upd cfg w :
  fst (rule (with_updateUserMetadata h upd) cfg w) = fst (rule h cfg w)
  /\ filter not_settlement
       (trace (snd (rule (with_updateUserMetadata h upd) cfg w)))
     = filter not_settlement (trace (snd (rule h cfg w))).
Proof.
  unfold rule.
  set (w0 := set_METADATA MetadataFresh [] w).
  destruct (_ || _); [split; reflexivity|].
  cbv beta iota zeta delta [mbind mlift mdo].
  destruct (let! a := conf_includes (personapi_audience cfg) "https"
            in if (a : bool) then Ok true
               else conf_includes (personapi_url cfg) "/v")
    as [[|]|e]; try (split; reflexivity).
  destruct (negb (whitelisted _)); [split; reflexivity|].
  destruct (truthy _); [split; reflexivity|].
  destruct (Buffer_from (changeapi_auth0_private_key cfg)) as [key|e];
    [|split; reflexivity].
  rewrite promise_chain_ignores_update_outcome.
  destruct (promise_chain h cfg _ _ key w0) as [[[]|e] w1];
    [|split; reflexivity].
  cbn [fst snd]. split; [reflexivity|]. now rewrite !drain_invisible.
Qed.

(** *** One child of the tree handed to [signAll] *)





(** C10: [setExistsInCIS] writes [existsInCIS = true] on [METADATA]
    whatever the state, and only then starts the update, which carries
    the flag and is left in flight; on the success path the hook is
    invoked right after the update was started and before it settles;
    and the answer of the metadata store changes neither what the rule
    returns nor any event of the run other than the settlements. *)
Theorem flag_is_set_first_and_the_hook_does_not_wait :
  (forall METADATA_at USER_ID w,
      fst (setExistsInCIS METADATA_at USER_ID w) = Ok tt
      /\ own "existsInCIS"
           (METADATA METADATA_at (snd (setExistsInCIS METADATA_at USER_ID w)))
         = Some (VBool true)
      /\ trace (snd (setExistsInCIS METADATA_at USER_ID w))
         = trace w
           ++ [EvUpdateUserMetadata USER_ID
                 (METADATA METADATA_at
                    (snd (setExistsInCIS METADATA_at USER_ID w)))])
  /\ (forall h cfg w privateKey,
        let METADATA_at := METADATA_ref (the_user w) (the_context w) in
        let USER_ID :=
          js_or (primaryUser (the_context w)) (user_id (the_user w)) in
        passes_gates cfg w = true ->
        changeapi_auth0_private_key cfg = Some privateKey ->
        fst (then_handlers h cfg METADATA_at USER_ID privateKey
               (set_METADATA MetadataFresh [] w)) = Ok tt ->
        exists before m u c after n,
          trace (snd (rule h cfg w))
          = before ++ [EvUpdateUserMetadata USER_ID m; EvCallback None u c]
            ++ after
          /\ own "existsInCIS" m = Some (VBool true)
          /\ In (EvUpdateSettled (updateUserMetadata h n USER_ID m)) after)
  /\ (forall h upd cfg w,
        fst (rule (with_updateUserMetadata h upd) cfg w) = fst (rule h cfg w)
        /\ filter not_settlement
             (trace (snd (rule (with_updateUserMetadata h upd) cfg w)))
           = filter not_settlement (trace (snd (rule h cfg w)))).
Proof.
  split; [|split; [|exact rule_ignores_update_outcome]].
  - intros METADATA_at USER_ID w.
    destruct (setExistsInCIS_marks METADATA_at USER_ID w)
      as (Hr & Hmd & Htr & _).
    rewrite Hmd. split; [exact Hr|]. split; [apply own_put_same|exact Htr].
  - intros h cfg w privateKey METADATA_at USER_ID Hg Hkey Hok.
    destruct (rule_past_gates h cfg w Hg) as (key & Hkey' & Hrule).
    rewrite Hkey in Hkey'. injection Hkey' as <-.
    rewrite Hrule. fold METADATA_at USER_ID.
    unfold mbind, promise_chain, try_catch.
    destruct (then_handlers_completed h cfg METADATA_at USER_ID privateKey
                _ Hok) as [w3 Hw].
    destruct (then_handlers h cfg METADATA_at USER_ID privateKey
                (set_METADATA MetadataFresh [] w)) as [r w5].
    cbn [fst snd] in Hok, Hw. subst r w5. unfold mdo. cbn [fst snd].
    destruct (setExistsInCIS_marks METADATA_at USER_ID
                (emit (EvLog LogProfileCreated) w3))
      as (_ & Hmd & Htr & Hfl).
    set (w4 := snd (setExistsInCIS METADATA_at USER_ID
                      (emit (EvLog LogProfileCreated) w3))) in *.
    destruct (drain_settles h (snd (callback w4))) as (Hdr & _).
    rewrite Hdr. unfold callback. cbn [fst snd trace emit in_flight].
    rewrite Htr, Hfl, flat_map_app. cbn [trace emit].
    exists (trace w3 ++ [EvLog LogProfileCreated]),
      (put "existsInCIS" (VBool true)
         (METADATA METADATA_at (emit (EvLog LogProfileCreated) w3))),
      (the_user w4), (the_context w4).
    eexists. exists (update_calls (emit (EvLog LogProfileCreated) w3)).
    split; [|split].
    + rewrite <- !app_assoc. reflexivity.
    + apply own_put_same.
    + apply in_or_app. right. cbn [flat_map]. rewrite app_nil_r.
      unfold settlement_of. cbn [upd_index upd_user_id upd_metadata].
      destruct (updateUserMetadata h _ _ _); left; reflexivity.
Qed.

Lemma successful_sample_run :
  exists before m u c after n,
    trace (snd (rule (sample_host sample_skeleton friendly_fetch false)
                  sample_configuration
                  (initial_world (sample_user [github_identity])
                     sample_context)))
    = before ++ [EvUpdateUserMetadata (VStr "github|12345") m;
                 EvCallback None u c] ++ after
    /\ own "existsInCIS" m = Some (VBool true)
    /\ In (EvUpdateSettled
             (updateUserMetadata
                (sample_host sample_skeleton friendly_fetch false) n
                (VStr "github|12345") m)) after.
Proof.
  apply (proj1 (proj2 flag_is_set_first_and_the_hook_does_not_wait)
           (sample_host sample_skeleton friendly_fetch false)
           sample_configuration
           (initial_world (sample_user [github_identity]) sample_context)
           "cHJpdmF0ZS1rZXk="); vm_compute; reflexivity.
Defined.


(** * Further properties of the rule *)

(** ** The gates, one by one *)

Lemma tested_key_missing cfg o :
  In o (tested_keys cfg) -> o = None \/ o = Some "" ->
  six_keys_missing cfg = true.
Proof.
  intros Hin Ho.
  assert (Hm : missing o = true) by (destruct Ho; subst; reflexivity).
  unfold six_keys_missing. unfold tested_keys in Hin. simpl in Hin.
  repeat (destruct Hin as [<-|Hin];
          [rewrite Hm; rewrite ?Bool.orb_true_r; reflexivity|]).
  contradiction.
Qed.

Lemma METADATA_at_start w :
  METADATA (METADATA_ref (the_user w) (the_context w))
    (set_METADATA MetadataFresh [] w)
  = stored_metadata (the_user w) (the_context w).
Proof.
  unfold METADATA_ref, stored_metadata, METADATA.
  destruct (primaryUserMetadata (the_context w)) eqn:Ep;
    destruct (user_metadata (the_user w)) eqn:Eu; simpl;
    rewrite ?Ep, ?Eu; reflexivity.
Qed.

(** The rule on a configuration that gets through lines 14-31. *)
Lemma rule_configured h cfg w :
  configured cfg = true ->
  rule h cfg w
  = (if negb (whitelisted (connectionStrategy (the_context w))) then callback
     else if flagged (the_user w) (the_context w) then callback
     else
       privateKey <- mlift (Buffer_from (changeapi_auth0_private_key cfg)) ;;
       promise_chain h cfg (METADATA_ref (the_user w) (the_context w))
         (js_or (primaryUser (the_context w)) (user_id (the_user w)))
         privateKey ;;;
       mdo (drain h))
      (set_METADATA MetadataFresh [] w).
Proof.
  unfold configured, rule, flagged. intros H.
  apply Bool.andb_true_iff in H as [Hsix Hmis].
  apply Bool.negb_true_iff in Hsix. unfold six_keys_missing in Hsix.
  rewrite Hsix.
  destruct (personapi_audience cfg) as [a|]; [|discriminate].
  destruct (personapi_url cfg) as [u|]; [|discriminate].
  apply Bool.negb_true_iff in Hmis.
  apply Bool.orb_false_iff in Hmis as [Ha Hu].
  unfold mbind at 1, mlift at 1, conf_includes. cbn [rbind].
  rewrite Ha, Hu. rewrite <- (METADATA_at_start w). reflexivity.
Qed.

(** X1: when one of the six settings the first gate tests is absent or
    the empty string, the rule logs the missing configuration and
    invokes the hook with no error; it sends nothing and starts
    nothing. *)
Theorem rule_stops_when_a_tested_key_is_absent_or_empty :
  forall h cfg w o,
    In o (tested_keys cfg) ->
    o = None \/ o = Some "" ->
    fst (rule h cfg w) = Ok tt
    /\ trace (snd (rule h cfg w))
       = trace w ++ [EvLog LogConfigurationMissing;
                     EvCallback None (the_user w) (the_context w)].
Proof.
  intros h cfg w o Hin Ho.
  apply rule_stops_at_the_first_gate.
  exact (tested_key_missing cfg o Hin Ho).
Qed.

Lemma empty_client_secret_sample_run :
  fst (rule (sample_host sample_skeleton friendly_fetch true)
         (with_empty_client_secret sample_configuration)
         (initial_world (sample_user [github_identity]) sample_context))
  = Ok tt
  /\ trace (snd (rule (sample_host sample_skeleton friendly_fetch true)
                   (with_empty_client_secret sample_configuration)
                   (initial_world (sample_user [github_identity])
                      sample_context)))
     = [] ++ [EvLog LogConfigurationMissing;
              EvCallback None (sample_user [github_identity]) sample_context].
Proof.
  apply (rule_stops_when_a_tested_key_is_absent_or_empty
           (sample_host sample_skeleton friendly_fetch true)
           (with_empty_client_secret sample_configuration)
           (initial_world (sample_user [github_identity]) sample_context)
           (Some "")).
  - simpl. auto 10.
  - right. reflexivity.
Defined.

(** X2: with the six tested settings present, an audience that contains
    ["https"] or a store URL that contains ["/v"] makes the rule log the
    misconfiguration and invoke the hook with no error; it sends nothing
    and starts nothing. *)
Theorem rule_stops_on_a_misconfigured_person_api :
  forall h cfg w a u,
    six_keys_missing cfg = false ->
    personapi_audience cfg = Some a ->
    personapi_url cfg = Some u ->
    includes a "https" = true \/ includes u "/v" = true ->
    fst (rule h cfg w) = Ok tt
    /\ trace (snd (rule h cfg w))
       = trace w ++ [EvLog LogPersonApiMisconfigured;
                     EvCallback None (the_user w) (the_context w)].
Proof.
  intros h cfg w a u Hsix Ha Hu Hmis. unfold rule.
  unfold six_keys_missing in Hsix. rewrite Hsix, Ha, Hu.
  unfold mbind at 1, mlift at 1, conf_includes. cbn [rbind].
  assert (Hb : (if includes a "https" then Ok true
                else Ok (includes u "/v")) = @Ok bool true).
  { destruct Hmis as [-> | ->]; [reflexivity|].
    now destruct (includes a "https"). }
  rewrite Hb. simpl. now rewrite <- app_assoc.
Qed.

Lemma https_audience_sample_run :
  fst (rule (sample_host sample_skeleton friendly_fetch true)
         (with_audience sample_configuration
            "https://api.dev.sso.allizom.org")
         (initial_world (sample_user [github_identity]) sample_context))
  = Ok tt
  /\ trace (snd (rule (sample_host sample_skeleton friendly_fetch true)
                   (with_audience sample_configuration
                      "https://api.dev.sso.allizom.org")
                   (initial_world (sample_user [github_identity])
                      sample_context)))
     = [] ++ [EvLog LogPersonApiMisconfigured;
              EvCallback None (sample_user [github_identity]) sample_context].
Proof.
  apply (rule_stops_on_a_misconfigured_person_api
           (sample_host sample_skeleton friendly_fetch true)
           (with_audience sample_configuration
              "https://api.dev.sso.allizom.org")
           (initial_world (sample_user [github_identity]) sample_context)
           "https://api.dev.sso.allizom.org"
           "https://person.api.dev.sso.allizom.org").
  - reflexivity.
  - reflexivity.
  - reflexivity.
  - left. reflexivity.
Defined.

(** X3: on a configuration that gets through lines 14-31, a connection
    strategy outside the whitelist makes the rule invoke the hook with
    no error and do nothing else: no log line, no request, no update. *)
Theorem unlisted_connection_strategy_only_calls_back :
  forall h cfg w,
    configured cfg = true ->
    whitelisted (connectionStrategy (the_context w)) = false ->
    fst (rule h cfg w) = Ok tt
    /\ trace (snd (rule h cfg w))
       = trace w ++ [EvCallback None (the_user w) (the_context w)].
Proof.
  intros h cfg w Hc Hw. rewrite (rule_configured h cfg w Hc), Hw.
  split; reflexivity.
Qed.

Lemma ldap_login_sample_run :
  fst (rule (sample_host sample_skeleton friendly_fetch true)
         sample_configuration
         (initial_world (sample_user [ldap_identity]) ldap_context))
  = Ok tt
  /\ trace (snd (rule (sample_host sample_skeleton friendly_fetch true)
                   sample_configuration
                   (initial_world (sample_user [ldap_identity])
                      ldap_context)))
     = [] ++ [EvCallback None (sample_user [ldap_identity]) ldap_context].
Proof.
  apply (unlisted_connection_strategy_only_calls_back
           (sample_host sample_skeleton friendly_fetch true)
           sample_configuration
           (initial_world (sample_user [ldap_identity]) ldap_context));
    reflexivity.
Defined.

(** X4: on a configuration that gets through lines 14-31, a truthy
    [existsInCIS] on [METADATA] (the metadata of the primary account
    when the context carries it, else the user's own) makes the rule
    invoke the hook with no error and do nothing else; the metadata the
    hook sees is untouched. *)
Theorem flagged_subject_only_calls_back :
  forall h cfg w,
    configured cfg = true ->
    flagged (the_user w) (the_context w) = true ->
    fst (rule h cfg w) = Ok tt
    /\ trace (snd (rule h cfg w))
       = trace w ++ [EvCallback None (the_user w) (the_context w)].
Proof.
  intros h cfg w Hc Hf. rewrite (rule_configured h cfg w Hc), Hf.
  destruct (negb _); split; reflexivity.
Qed.

Lemma flagged_primary_sample_run :
  fst (rule (sample_host sample_skeleton friendly_fetch true)
         sample_configuration
         (initial_world (sample_user [github_identity]) linked_context))
  = Ok tt
  /\ trace (snd (rule (sample_host sample_skeleton friendly_fetch true)
                   sample_configuration
                   (initial_world (sample_user [github_identity])
                      linked_context)))
     = [] ++ [EvCallback None (sample_user [github_identity]) linked_context].
Proof.
  apply (flagged_subject_only_calls_back
           (sample_host sample_skeleton friendly_fetch true)
           sample_configuration
           (initial_world (sample_user [github_identity]) linked_context));
    reflexivity.
Defined.

(** X5: the rule raises to its caller in one case only: the six tested
    settings are present and [personapi_audience] is not; what it
    raises then is the [TypeError] of line 28. *)
Theorem rule_raises_only_without_an_audience :
  forall h cfg w e,
    fst (rule h cfg w) = Throw e ->
    six_keys_missing cfg = false
    /\ personapi_audience cfg = None
    /\ e = TypeError.
Proof.
  intros h cfg w e H.
  destruct (personapi_audience cfg) as [a|] eqn:Ha.
  - destruct (rule_calls_back_once h cfg w a Ha) as [Hok _]. congruence.
  - destruct (six_keys_missing cfg) eqn:Hsix.
    + destruct (rule_stops_at_the_first_gate h cfg w Hsix) as [Hok _].
      congruence.
    + split; [reflexivity|]. split; [reflexivity|].
      unfold rule in H. unfold six_keys_missing in Hsix.
      rewrite Hsix, Ha in H. simpl in H. congruence.
Qed.

Lemma raising_sample_run :
  six_keys_missing (without_audience sample_configuration) = false
  /\ personapi_audience (without_audience sample_configuration) = None
  /\ TypeError = TypeError.
Proof.
  exact (rule_raises_only_without_an_audience
           (sample_host sample_skeleton friendly_fetch true)
           (without_audience sample_configuration)
           (initial_world (sample_user [github_identity]) sample_context)
           TypeError eq_refl).
Defined.

(** ** After the hook *)

Section HookLast.
Variable h : host.
Variable cfg : configuration.

Lemma finishes_with_hook_bind {A B} (m : M A) (f : A -> M B) :
  emits not_callback m ->
  (forall a, finishes_with_hook (f a)) ->
  finishes_with_hook (mbind m f).
Proof.
  intros Hm Hf w. unfold mbind. destruct (Hm w) as [evs [Ht Hq]].
  destruct (m w) as [[a|e] w1]; simpl in *; [|now exists evs].
  destruct (Hf a w1) as [evs' [Ht' Hr]].
  exists (evs ++ evs'). split; [now rewrite Ht', Ht, app_assoc|].
  destruct (fst (f a w1)).
  - destruct Hr as (before & u & c & -> & Hb).
    exists (evs ++ before), u, c. split; [now rewrite app_assoc|].
    now rewrite forallb_app, Hq, Hb.
  - now rewrite forallb_app, Hq, Hr.
Qed.

Lemma finishes_with_hook_throw {A} e : finishes_with_hook (@mthrow A e).
Proof. intros w. exists []. simpl. now rewrite app_nil_r. Qed.

Lemma finishes_with_hook_callback : finishes_with_hook callback.
Proof.
  intros w. exists [EvCallback None (the_user w) (the_context w)].
  simpl. split; [reflexivity|].
  now exists [], (the_user w), (the_context w).
Qed.

Ltac no_hook :=
  first [ apply emits_getPersonProfile | apply emits_postProfile
        | apply emits_createPersonProfile | apply emits_setExistsInCIS
        | apply emits_console_log | apply emits_mlift | apply emits_mthrow ];
  reflexivity.

Lemma then_handlers_finish_with_hook METADATA_at USER_ID privateKey :
  finishes_with_hook (then_handlers h cfg METADATA_at USER_ID privateKey).
Proof.
  unfold then_handlers.
  apply finishes_with_hook_bind; [no_hook|]. intros profile.
  apply finishes_with_hook_bind.
  { apply emits_mbind; [no_hook|]. intros n.
    destruct (negb (Nat.eqb n 0)); [|no_hook].
    apply emits_mbind; [no_hook|]. intros _. no_hook. }
  intros built.
  apply finishes_with_hook_bind; [no_hook|]. intros response.
  apply finishes_with_hook_bind; [no_hook|]. intros isObj.
  apply finishes_with_hook_bind; [no_hook|]. intros status_code.
  destruct (isObj && eq_num status_code 200);
    [|apply finishes_with_hook_throw].
  apply finishes_with_hook_bind; [no_hook|]. intros _.
  apply finishes_with_hook_bind; [no_hook|]. intros _.
  apply finishes_with_hook_callback.
Qed.

Lemma promise_chain_finishes_with_hook METADATA_at USER_ID privateKey w :
  exists evs,
    trace (snd (promise_chain h cfg METADATA_at USER_ID privateKey w))
    = trace w ++ evs
    /\ hook_comes_last evs.
Proof.
  unfold promise_chain, try_catch, catch_handler.
  destruct (then_handlers_finish_with_hook METADATA_at USER_ID privateKey w)
    as [evs [Ht Hr]].
  destruct (then_handlers h cfg METADATA_at USER_ID privateKey w)
    as [[[]|e] w1]; simpl in *.
  - now exists evs.
  - exists (evs ++ [EvLog (LogError e);
                    EvCallback None (the_user w1) (the_context w1)]).
    split; [now rewrite Ht, <- !app_assoc|].
    exists (evs ++ [EvLog (LogError e)]), (the_user w1), (the_context w1).
    split; [now rewrite <- app_assoc|].
    now rewrite forallb_app, Hr.
Qed.
End HookLast.

(** X6: with the audience configured, whatever the host answers, the
    rule returns, and the events of its run are: events that are not
    the hook, then one invocation of the hook with no error, then
    nothing but the settling of metadata updates.  Once it has called
    back, the rule sends, signs and starts nothing. *)
Theorem nothing_but_settlements_follows_the_hook :
  forall h cfg w a,
    personapi_audience cfg = Some a ->
    fst (rule h cfg w) = Ok tt
    /\ exists evs after,
         trace (snd (rule h cfg w)) = trace w ++ evs ++ after
         /\ hook_comes_last evs
         /\ forallb is_settlement after = true.
Proof.
  intros h cfg w a Haud.
  split; [exact (proj1 (rule_calls_back_once h cfg w a Haud))|].
  assert (Hone : forall (l : log_line) w0,
             trace w0 = trace w ->
             exists evs after,
               trace (snd ((console_log l ;;; callback) w0))
               = trace w ++ evs ++ after
               /\ hook_comes_last evs /\ forallb is_settlement after = true).
  { intros l w0 Hw0.
    exists [EvLog l; EvCallback None (the_user w0) (the_context w0)], [].
    simpl. rewrite Hw0, <- app_assoc. split; [reflexivity|].
    split; [|reflexivity].
    now exists [EvLog l], (the_user w0), (the_context w0). }
  assert (Hcb : forall w0,
             trace w0 = trace w ->
             exists evs after,
               trace (snd (callback w0)) = trace w ++ evs ++ after
               /\ hook_comes_last evs /\ forallb is_settlement after = true).
  { intros w0 Hw0.
    exists [EvCallback None (the_user w0) (the_context w0)], [].
    simpl. rewrite Hw0. split; [reflexivity|]. split; [|reflexivity].
    now exists [], (the_user w0), (the_context w0). }
  unfold rule.
  set (w0 := set_METADATA MetadataFresh [] w).
  assert (Hw0 : trace w0 = trace w) by reflexivity.
  destruct (_ || _) eqn:Hsix; [now apply Hone|].
  repeat (apply Bool.orb_false_iff in Hsix as [Hsix ?]).
  destruct (missing_false _ Hsix) as [key Hkey].
  destruct (missing_false (personapi_url cfg)) as [u Hu]; [assumption|].
  rewrite Haud, Hu, Hkey.
  cbv beta iota zeta delta [mbind mlift conf_includes rbind Buffer_from mdo].
  assert (Hmis : forall b : bool,
             (if b then Ok true else Ok (includes u "/v"))
             = Ok (b || includes u "/v")) by (intros []; reflexivity).
  rewrite Hmis.
  destruct (_ || _); [now apply Hone|].
  destruct (negb (whitelisted _)); [now apply Hcb|].
  destruct (truthy _); [now apply Hcb|].
  match goal with
  | |- context [promise_chain h cfg ?m ?i key w0] =>
      destruct (promise_chain_finishes_with_hook h cfg m i key w0)
        as [evs [Ht Hc]];
      destruct (promise_chain_calls_back_once h cfg m i key w0) as [Hr _];
      destruct (promise_chain h cfg m i key w0) as [r w1]
  end.
  simpl in Hr, Ht. subst r. cbn [fst snd].
  destruct (drain_settles h w1) as (Hdr & _).
  exists evs, (flat_map (settlement_of h) (in_flight w1)).
  split; [now rewrite Hdr, Ht, <- app_assoc|].
  split; [exact Hc|apply settlement_of_is_settlement].
Qed.

Lemma hook_last_sample_run :
  fst (rule (sample_host sample_skeleton friendly_fetch false)
         sample_configuration
         (initial_world (sample_user [github_identity]) sample_context))
  = Ok tt
  /\ exists evs after,
       trace (snd (rule (sample_host sample_skeleton friendly_fetch false)
                     sample_configuration
                     (initial_world (sample_user [github_identity])
                        sample_context)))
       = [] ++ evs ++ after
       /\ hook_comes_last evs
       /\ forallb is_settlement after = true.
Proof.
  exact (nothing_but_settlements_follows_the_hook
           (sample_host sample_skeleton friendly_fetch false)
           sample_configuration
           (initial_world (sample_user [github_identity]) sample_context)
           "api.dev.sso.allizom.org" eq_refl).
Defined.

(** ** The token cache, case by case *)

(** X7: a truthy cached token whose creation instant is not 0 and lies
    less than 64800 clock units (milliseconds) back is returned as it
    is: the clock is read once and nothing else happens - no request,
    no log line, no change of the cache. *)
Theorem fresh_token_is_returned_without_a_request :
  forall h cfg w created,
    truthy (personapi_bearer_token w) = true ->
    personapi_bearer_token_creation_time w = Some created ->
    created <> 0 ->
    Date_now h (clock_reads w) - created < PERSONAPI_BEARER_TOKEN_REFRESH_AGE ->
    getBearerToken h cfg w = (Ok (personapi_bearer_token w), tick_clock w).
Proof.
  intros h cfg w created Htok Hc Hz Hage.
  unfold getBearerToken, bearer_token_is_fresh, mbind, now_ms, mret.
  rewrite Htok, Hc. cbn [truthy].
  destruct (Z.eqb_spec created 0) as [|_]; [contradiction|]. cbn [negb].
  destruct (Z.ltb_spec (Date_now h (clock_reads w) - created)
              PERSONAPI_BEARER_TOKEN_REFRESH_AGE) as [_|Hge]; [reflexivity|].
  lia.
Qed.

Lemma one_second_old_token_is_reused :
  getBearerToken (sample_host sample_skeleton friendly_fetch true)
    sample_configuration one_second_old_cache
  = (Ok (personapi_bearer_token one_second_old_cache),
     tick_clock one_second_old_cache).
Proof.
  apply (fresh_token_is_returned_without_a_request
           (sample_host sample_skeleton friendly_fetch true)
           sample_configuration one_second_old_cache
           (1600000000000 - 1000)).
  - reflexivity.
  - reflexivity.
  - vm_compute. discriminate.
  - vm_compute. reflexivity.
Defined.

Section TokenRefresh.
Variable h : host.
Variable cfg : configuration.

Lemma getBearerToken_not_fresh w :
  cache_is_fresh h w = false ->
  getBearerToken h cfg w
  = (console_log LogRetrievingBearer ;;;
     try_catch
       (data <- fetch_json h (bearer_request cfg) ;;
        access_token <- mlift (get_prop data "access_token") ;;
        mdo (fun w => set_global access_token
                        (personapi_bearer_token_creation_time w) w) ;;;
        created <- now_ms h ;;
        mdo (fun w => set_global (personapi_bearer_token w)
                        (Some created) w) ;;;
        console_log LogRetrievedBearer ;;;
        fun w => (Ok (personapi_bearer_token w), w))
       (fun _ => mthrow BearerTokenError))
      (snd (bearer_token_is_fresh h w)).
Proof.
  intros Hf. unfold getBearerToken at 1, mbind at 1.
  destruct (bearer_token_is_fresh_decides h w) as (Hr & _).
  destruct (bearer_token_is_fresh h w) as [r w1]. simpl in Hr. subst r.
  rewrite Hf. reflexivity.
Qed.

Lemma bearer_token_is_fresh_frame w :
  let w1 := snd (bearer_token_is_fresh h w) in
  trace w1 = trace w /\ fetch_calls w1 = fetch_calls w
  /\ personapi_bearer_token w1 = personapi_bearer_token w
  /\ personapi_bearer_token_creation_time w1
     = personapi_bearer_token_creation_time w
  /\ the_user w1 = the_user w /\ the_context w1 = the_context w
  /\ (clock_reads w <= clock_reads w1)%nat.
Proof.
  assert (H : snd (bearer_token_is_fresh h w) = w
              \/ snd (bearer_token_is_fresh h w) = tick_clock w).
  { unfold bearer_token_is_fresh.
    destruct (truthy (personapi_bearer_token w)); [|now left].
    destruct (personapi_bearer_token_creation_time w) as [t|]; [|now left].
    destruct (truthy (VNum t)); [now right|now left]. }
  destruct H as [-> | ->]; simpl; repeat split; lia.
Qed.
End TokenRefresh.

(** An answer whose body is a JSON object, whatever the status code. *)
Lemma getBearerToken_takes_object_body h cfg w st c ps :
  cache_is_fresh h w = false ->
  fetch h (fetch_calls w) (bearer_request cfg)
  = Responded st (Some (VObj c ps)) ->
  let tok := own_or_undefined "access_token" (VObj c ps) in
  let w' := snd (getBearerToken h cfg w) in
  fst (getBearerToken h cfg w) = Ok tok
  /\ personapi_bearer_token w' = tok
  /\ fetch_calls w' = S (fetch_calls w)
  /\ exists n,
       (clock_reads w <= n)%nat
       /\ clock_reads w' = S n
       /\ personapi_bearer_token_creation_time w' = Some (Date_now h n).
Proof.
  intros Hf Hfetch tok w'. subst w'.
  rewrite (getBearerToken_not_fresh h cfg w Hf).
  destruct (bearer_token_is_fresh_frame h w) as (_ & Hn & _ & _ & _ & _ & Hcl).
  set (w1 := snd (bearer_token_is_fresh h w)) in *.
  unfold try_catch, mbind, console_log, mdo, fetch_json, mlift.
  cbn [emit fetch_calls]. rewrite Hn, Hfetch. cbn [get_prop].
  fold tok. simpl. split; [reflexivity|]. split; [reflexivity|].
  split; [now rewrite Hn|].
  exists (clock_reads w1). auto.
Qed.

(** A token request that fails. *)
Lemma getBearerToken_fails h cfg w :
  cache_is_fresh h w = false ->
  token_request_fails (fetch h (fetch_calls w) (bearer_request cfg)) ->
  let w' := snd (getBearerToken h cfg w) in
  fst (getBearerToken h cfg w) = Throw BearerTokenError
  /\ trace w' = trace w ++ [EvLog LogRetrievingBearer;
                            EvFetch (bearer_request cfg)]
  /\ personapi_bearer_token w' = personapi_bearer_token w
  /\ personapi_bearer_token_creation_time w'
     = personapi_bearer_token_creation_time w
  /\ the_user w' = the_user w /\ the_context w' = the_context w.
Proof.
  intros Hf Hfail w'. subst w'.
  rewrite (getBearerToken_not_fresh h cfg w Hf).
  destruct (bearer_token_is_fresh_frame h w)
    as (Ht & Hn & Htok & Hct & Hu & Hc & _).
  set (w1 := snd (bearer_token_is_fresh h w)) in *.
  unfold try_catch, mbind, console_log, mdo, fetch_json, mlift.
  cbn [emit fetch_calls]. rewrite Hn.
  destruct Hfail as [-> | [[st ->] | [st ->]]]; simpl;
    rewrite Ht, Htok, Hct, Hu, Hc, <- app_assoc; auto 10.
Qed.

(** A token request that fails leaves the clock as the freshness check
    left it. *)
Lemma getBearerToken_fails_unstamped h cfg w :
  cache_is_fresh h w = false ->
  token_request_fails (fetch h (fetch_calls w) (bearer_request cfg)) ->
  clock_reads (snd (getBearerToken h cfg w))
  = clock_reads (snd (bearer_token_is_fresh h w)).
Proof.
  intros Hf Hfail.
  rewrite (getBearerToken_not_fresh h cfg w Hf).
  destruct (bearer_token_is_fresh_frame h w) as (_ & Hn & _).
  set (w1 := snd (bearer_token_is_fresh h w)) in *.
  unfold try_catch, mbind, console_log, mdo, fetch_json, mlift.
  cbn [emit fetch_calls]. rewrite Hn.
  destruct Hfail as [-> | [[st ->] | [st ->]]]; reflexivity.
Qed.

(** X8: when the cache is not fresh, [getBearerToken] sends exactly one
    request, the POST to the token endpoint.  Whatever the status code,
    an answer whose body is a JSON object is taken: its [access_token]
    ([undefined] when it has none) is returned and cached, and the
    cache is stamped with one further reading of the clock, the one
    that follows the reading of the freshness check if there was one.
    That reading is made only when an answer is taken: a request that
    fails (the promise rejects, the body is not JSON, or the body is
    [null]) leaves the clock unread and the cache as it was. *)
Theorem stale_cache_sends_one_token_request :
  forall h cfg w,
    cache_is_fresh h w = false ->
    (exists evs,
        trace (snd (getBearerToken h cfg w)) = trace w ++ evs
        /\ filter is_fetch evs = [EvFetch (bearer_request cfg)])
    /\ (forall st c ps,
          fetch h (fetch_calls w) (bearer_request cfg)
          = Responded st (Some (VObj c ps)) ->
          let tok := own_or_undefined "access_token" (VObj c ps) in
          let checked := snd (bearer_token_is_fresh h w) in
          let w' := snd (getBearerToken h cfg w) in
          fst (getBearerToken h cfg w) = Ok tok
          /\ personapi_bearer_token w' = tok
          /\ (clock_reads w <= clock_reads checked)%nat
          /\ clock_reads w' = S (clock_reads checked)
          /\ personapi_bearer_token_creation_time w'
             = Some (Date_now h (clock_reads checked)))
    /\ (token_request_fails (fetch h (fetch_calls w) (bearer_request cfg)) ->
        let checked := snd (bearer_token_is_fresh h w) in
        let w' := snd (getBearerToken h cfg w) in
        fst (getBearerToken h cfg w) = Throw BearerTokenError
        /\ clock_reads w' = clock_reads checked
        /\ personapi_bearer_token w' = personapi_bearer_token w
        /\ personapi_bearer_token_creation_time w'
           = personapi_bearer_token_creation_time w).
Proof.
  intros h cfg w Hf. split; [exact (getBearerToken_refreshes h cfg w Hf)|].
  split.
  - intros st c ps Hfetch tok checked w'. subst w' checked.
    rewrite (getBearerToken_not_fresh h cfg w Hf).
    destruct (bearer_token_is_fresh_frame h w)
      as (_ & Hn & _ & _ & _ & _ & Hcl).
    set (w1 := snd (bearer_token_is_fresh h w)) in *.
    unfold try_catch, mbind, console_log, mdo, fetch_json, mlift.
    cbn [emit fetch_calls]. rewrite Hn, Hfetch. cbn [get_prop].
    fold tok. simpl. auto.
  - intros Hfail checked w'. subst w' checked.
    destruct (getBearerToken_fails h cfg w Hf Hfail)
      as (Hr & _ & Htok & Hct & _).
    split; [exact Hr|].
    split; [exact (getBearerToken_fails_unstamped h cfg w Hf Hfail)|].
    split; [exact Htok|exact Hct].
Qed.

Lemma denied_token_sample_run :
  (exists evs,
      trace (snd (getBearerToken
                    (sample_host sample_skeleton token_denied_fetch true)
                    sample_configuration
                    (initial_world (sample_user [github_identity])
                       sample_context)))
      = [] ++ evs
      /\ filter is_fetch evs = [EvFetch (bearer_request sample_configuration)])
  /\ fst (getBearerToken
            (sample_host sample_skeleton token_denied_fetch true)
            sample_configuration
            (initial_world (sample_user [github_identity]) sample_context))
     = Ok VUndef
  /\ clock_reads
       (snd (getBearerToken
               (sample_host sample_skeleton token_denied_fetch true)
               sample_configuration
               (initial_world (sample_user [github_identity])
                  sample_context)))
     = 1%nat
  /\ clock_reads
       (snd (getBearerToken
               (sample_host sample_skeleton token_down_fetch true)
               sample_configuration
               (initial_world (sample_user [github_identity])
                  sample_context)))
     = 0%nat.
Proof.
  pose proof (stale_cache_sends_one_token_request
                (sample_host sample_skeleton token_denied_fetch true)
                sample_configuration
                (initial_world (sample_user [github_identity]) sample_context)
                eq_refl) as (H1 & H2 & _).
  pose proof (stale_cache_sends_one_token_request
                (sample_host sample_skeleton token_down_fetch true)
                sample_configuration
                (initial_world (sample_user [github_identity]) sample_context)
                eq_refl) as (_ & _ & H3).
  split; [exact H1|].
  split; [exact (proj1 (H2 401 Plain [("error", VStr "access_denied")]
                          eq_refl))|].
  split.
  - exact (proj1 (proj2 (proj2 (proj2
             (H2 401 Plain [("error", VStr "access_denied")] eq_refl))))).
  - exact (proj1 (proj2 (H3 (or_introl eq_refl)))).
Defined.

(** The existence check without a token, and the chain without an
    existence check. *)
Lemma getPersonProfile_without_token h cfg USER_ID w e :
  fst (getBearerToken h cfg w) = Throw e ->
  fst (getPersonProfile h cfg USER_ID w) = Throw e
  /\ snd (getPersonProfile h cfg USER_ID w) = snd (getBearerToken h cfg w).
Proof.
  intros H. unfold getPersonProfile, mbind.
  destruct (getBearerToken h cfg w) as [[tok|e'] w1]; simpl in *;
    [discriminate|]. split; congruence.
Qed.

Lemma promise_chain_check_throws h cfg METADATA_at USER_ID privateKey w e :
  fst (getPersonProfile h cfg USER_ID w) = Throw e ->
  promise_chain h cfg METADATA_at USER_ID privateKey w
  = catch_handler e (snd (getPersonProfile h cfg USER_ID w)).
Proof.
  intros H. unfold promise_chain, try_catch, then_handlers, mbind.
  destruct (getPersonProfile h cfg USER_ID w) as [[p|e'] w1]; simpl in *;
    [discriminate|]. congruence.
Qed.

(** X9: when the cache is not fresh and the token request fails (the
    promise rejects, the body is not JSON, or the body is [null]), the
    promise chain stops there: that one request is all it sent, the
    error of [getBearerToken] is logged, the hook is invoked with no
    error and with the user and context as they were, and the cache is
    left as it was. *)
Theorem failed_token_request_ends_the_chain :
  forall h cfg METADATA_at USER_ID privateKey w,
    cache_is_fresh h w = false ->
    token_request_fails (fetch h (fetch_calls w) (bearer_request cfg)) ->
    let run := promise_chain h cfg METADATA_at USER_ID privateKey w in
    fst run = Ok tt
    /\ trace (snd run)
       = trace w ++ [EvLog LogRetrievingBearer;
                     EvFetch (bearer_request cfg);
                     EvLog (LogError BearerTokenError);
                     EvCallback None (the_user w) (the_context w)]
    /\ personapi_bearer_token (snd run) = personapi_bearer_token w
    /\ personapi_bearer_token_creation_time (snd run)
       = personapi_bearer_token_creation_time w.
Proof.
  intros h cfg METADATA_at USER_ID privateKey w Hf Hfail run. subst run.
  destruct (getBearerToken_fails h cfg w Hf Hfail)
    as (Hr & Ht & Htok & Hct & Hu & Hc).
  rewrite (promise_chain_check_throws h cfg METADATA_at USER_ID privateKey
             w BearerTokenError
             (proj1 (getPersonProfile_without_token h cfg USER_ID w _ Hr))).
  rewrite (proj2 (getPersonProfile_without_token h cfg USER_ID w _ Hr)).
  unfold catch_handler, mbind, console_log, mdo, callback.
  cbn [fst snd trace emit personapi_bearer_token
       personapi_bearer_token_creation_time the_user the_context].
  rewrite Ht, Htok, Hct, Hu, Hc, <- !app_assoc. auto.
Qed.

Lemma token_down_sample_run :
  let w := initial_world (sample_user [github_identity]) sample_context in
  let run :=
    promise_chain (sample_host sample_skeleton token_down_fetch true)
      sample_configuration MetadataFresh (VStr "github|12345")
      "cHJpdmF0ZS1rZXk=" w in
  fst run = Ok tt
  /\ trace (snd run)
     = trace w ++ [EvLog LogRetrievingBearer;
                   EvFetch (bearer_request sample_configuration);
                   EvLog (LogError BearerTokenError);
                   EvCallback None (the_user w) (the_context w)]
  /\ personapi_bearer_token (snd run) = personapi_bearer_token w
  /\ personapi_bearer_token_creation_time (snd run)
     = personapi_bearer_token_creation_time w.
Proof.
  apply (failed_token_request_ends_the_chain
           (sample_host sample_skeleton token_down_fetch true)
           sample_configuration MetadataFresh (VStr "github|12345")
           "cHJpdmF0ZS1rZXk="
           (initial_world (sample_user [github_identity]) sample_context)).
  - reflexivity.
  - left. reflexivity.
Defined.

(** X10: what the next call does after a refresh that was answered with
    a JSON object: the cache is fresh for it exactly when the token
    taken is truthy, the instant stored is not 0, and the clock has
    moved on by less than 64800; an answer without a usable token is
    therefore asked for again by the next call, with one more request. *)
Theorem refreshed_cache_at_the_next_call :
  forall h cfg w st c ps,
    cache_is_fresh h w = false ->
    fetch h (fetch_calls w) (bearer_request cfg)
    = Responded st (Some (VObj c ps)) ->
    let tok := own_or_undefined "access_token" (VObj c ps) in
    let w' := snd (getBearerToken h cfg w) in
    exists n,
      clock_reads w' = S n
      /\ cache_is_fresh h w'
         = truthy tok
           && (negb (Date_now h n =? 0)
               && (Date_now h (S n) - Date_now h n
                   <? PERSONAPI_BEARER_TOKEN_REFRESH_AGE))
      /\ (truthy tok = false ->
          exists evs,
            trace (snd (getBearerToken h cfg w')) = trace w' ++ evs
            /\ filter is_fetch evs = [EvFetch (bearer_request cfg)])
      /\ (cache_is_fresh h w' = true ->
          fst (getBearerToken h cfg w') = Ok tok
          /\ trace (snd (getBearerToken h cfg w')) = trace w').
Proof.
  intros h cfg w st c ps Hf Hfetch tok w'.
  destruct (getBearerToken_takes_object_body h cfg w st c ps Hf Hfetch)
    as (_ & Htok & _ & n & _ & Hcl & Hct).
  fold w' in Htok, Hcl, Hct. fold tok in Htok.
  exists n. split; [exact Hcl|].
  assert (Hfresh : cache_is_fresh h w'
                   = truthy tok
                     && (negb (Date_now h n =? 0)
                         && (Date_now h (S n) - Date_now h n
                             <? PERSONAPI_BEARER_TOKEN_REFRESH_AGE))).
  { unfold cache_is_fresh. now rewrite Htok, Hct, Hcl. }
  split; [exact Hfresh|]. split.
  - intros Hfalsy. apply getBearerToken_refreshes.
    rewrite Hfresh, Hfalsy. reflexivity.
  - intros Hyes. destruct (getBearerToken_reuses h cfg w' Hyes) as [H1 H2].
    now rewrite H1, Htok.
Qed.

Lemma denied_token_is_asked_for_again :
  let h := sample_host sample_skeleton token_denied_fetch true in
  let w := initial_world (sample_user [github_identity]) sample_context in
  let w' := snd (getBearerToken h sample_configuration w) in
  exists evs,
    trace (snd (getBearerToken h sample_configuration w')) = trace w' ++ evs
    /\ filter is_fetch evs = [EvFetch (bearer_request sample_configuration)].
Proof.
  destruct (refreshed_cache_at_the_next_call
              (sample_host sample_skeleton token_denied_fetch true)
              sample_configuration
              (initial_world (sample_user [github_identity]) sample_context)
              401 Plain [("error", VStr "access_denied")] eq_refl eq_refl)
    as (n & _ & _ & H & _).
  exact (H eq_refl).
Defined.

(** ** What the chain leaves of its inputs *)

Lemma same_inputs_refl w : same_inputs w w.
Proof. repeat split. Qed.

Lemma same_inputs_trans w1 w2 w3 :
  same_inputs w1 w2 -> same_inputs w2 w3 -> same_inputs w1 w3.
Proof.
  intros (A1 & A2 & A3) (B1 & B2 & B3). repeat split; congruence.
Qed.

Section KeepsInputs.
Variable h : host.
Variable cfg : configuration.

Lemma keeps_pure {A} (g : world -> result A) : keeps_inputs (fun w => (g w, w)).
Proof. intros w. repeat split. Qed.

Lemma keeps_mdo f :
  (forall w, same_inputs (f w) w) -> keeps_inputs (mdo f).
Proof. intros Hf w. apply Hf. Qed.

Lemma keeps_mbind {A B} (m : M A) (f : A -> M B) :
  keeps_inputs m -> (forall a, keeps_inputs (f a)) -> keeps_inputs (mbind m f).
Proof.
  intros Hm Hf w. unfold mbind. specialize (Hm w).
  destruct (m w) as [[a|e] w1]; simpl in *; [|exact Hm].
  exact (same_inputs_trans _ _ _ (Hf a w1) Hm).
Qed.

Lemma keeps_try_catch {A} (m : M A) (handler : exn -> M A) :
  keeps_inputs m -> (forall e, keeps_inputs (handler e)) ->
  keeps_inputs (try_catch m handler).
Proof.
  intros Hm Hh w. unfold try_catch. specialize (Hm w).
  destruct (m w) as [[a|e] w1]; simpl in *; [exact Hm|].
  exact (same_inputs_trans _ _ _ (Hh e w1) Hm).
Qed.

Lemma keeps_console_log l : keeps_inputs (console_log l).
Proof. intros w. repeat split. Qed.

Lemma keeps_callback : keeps_inputs callback.
Proof. intros w. repeat split. Qed.

Lemma keeps_now_ms : keeps_inputs (now_ms h).
Proof. intros w. repeat split. Qed.

Lemma keeps_fetch_json r : keeps_inputs (fetch_json h r).
Proof.
  intros w. unfold fetch_json.
  destruct (fetch h (fetch_calls w) r) as [|st [v|]]; repeat split.
Qed.

Lemma keeps_bearer_token_is_fresh : keeps_inputs (bearer_token_is_fresh h).
Proof.
  intros w. destruct (bearer_token_is_fresh_frame h w)
    as (_ & _ & _ & _ & Hu & Hc & _).
  repeat split; try assumption.
  unfold bearer_token_is_fresh.
  destruct (truthy (personapi_bearer_token w)); [|reflexivity].
  destruct (personapi_bearer_token_creation_time w) as [t|]; [|reflexivity].
  destruct (truthy (VNum t)); reflexivity.
Qed.

Lemma keeps_getBearerToken : keeps_inputs (getBearerToken h cfg).
Proof.
  unfold getBearerToken.
  apply keeps_mbind; [apply keeps_bearer_token_is_fresh|].
  intros [|]; [apply (keeps_pure (fun w => Ok (personapi_bearer_token w)))|].
  apply keeps_mbind; [apply keeps_console_log|]. intros _.
  apply keeps_try_catch;
    [|intros; apply (keeps_pure (fun _ => Throw BearerTokenError))].
  apply keeps_mbind; [apply keeps_fetch_json|]. intros data.
  apply keeps_mbind; [apply (keeps_pure (fun _ => _))|]. intros tok.
  apply keeps_mbind;
    [apply keeps_mdo; intros w; repeat split|]. intros _.
  apply keeps_mbind; [apply keeps_now_ms|]. intros t.
  apply keeps_mbind;
    [apply keeps_mdo; intros w; repeat split|]. intros _.
  apply keeps_mbind; [apply keeps_console_log|]. intros _.
  apply (keeps_pure (fun w => Ok (personapi_bearer_token w))).
Qed.

Lemma keeps_getPersonProfile USER_ID :
  keeps_inputs (getPersonProfile h cfg USER_ID).
Proof.
  unfold getPersonProfile.
  apply keeps_mbind; [apply keeps_getBearerToken|]. intros bearer.
  apply keeps_mbind; [apply (keeps_pure (fun _ => _))|]. intros uid.
  apply keeps_mbind; [apply keeps_console_log|]. intros _.
  apply keeps_fetch_json.
Qed.

Lemma keeps_postProfile USER_ID profile :
  keeps_inputs (postProfile h cfg USER_ID profile).
Proof.
  unfold postProfile.
  apply keeps_mbind; [apply keeps_console_log|]. intros _.
  apply keeps_mbind; [apply keeps_getBearerToken|]. intros bearer.
  apply keeps_mbind; [apply (keeps_pure (fun _ => _))|]. intros uid.
  apply keeps_fetch_json.
Qed.

Lemma keeps_signAll_traced privateKey profile :
  keeps_inputs (signAll_traced h privateKey profile).
Proof.
  intros w. unfold signAll_traced.
  destruct (signAll (jwt_sign h privateKey) profile) as [payloads r].
  cbn [snd]. revert w.
  induction payloads as [|p ps IH]; intros w; [apply same_inputs_refl|].
  simpl. exact (same_inputs_trans _ _ _ (IH _) (same_inputs_refl _)).
Qed.

Lemma keeps_createPersonProfile USER_ID privateKey :
  keeps_inputs (createPersonProfile h cfg USER_ID privateKey).
Proof.
  unfold createPersonProfile.
  apply keeps_mbind; [apply keeps_console_log|]. intros _.
  apply keeps_mbind; [apply keeps_now_ms|]. intros t.
  apply keeps_mbind.
  - destruct (changeapi_null_profile cfg) as [blob|];
      [|apply (keeps_pure (fun _ => _))].
    destruct (JSON_parse_base64 h blob); apply (keeps_pure (fun _ => _)).
  - intros skeleton. apply keeps_mbind.
    + apply (keeps_pure
               (fun w => populate (the_user w) USER_ID (toISOString h t)
                           skeleton)).
    + intros profile. apply keeps_signAll_traced.
Qed.

Lemma keeps_catch_handler e : keeps_inputs (catch_handler e).
Proof.
  unfold catch_handler.
  apply keeps_mbind; [apply keeps_console_log|]. intros _.
  apply keeps_callback.
Qed.
End KeepsInputs.

Section Unconfirmed.
Variable h : host.
Variable cfg : configuration.

Lemma quiet_since_refl w : quiet_since w w.
Proof.
  exists []. rewrite app_nil_r. repeat split.
Qed.

Lemma quiet_since_trans w1 w2 w3 :
  quiet_since w1 w2 -> quiet_since w2 w3 -> quiet_since w1 w3.
Proof.
  intros (e1 & T1 & O1 & S1) (e2 & T2 & O2 & S2).
  exists (e1 ++ e2). split; [now rewrite T2, T1, app_assoc|].
  split; [now rewrite forallb_app, O1, O2|].
  exact (same_inputs_trans _ _ _ S2 S1).
Qed.

Lemma quiet_since_run {A} (m : M A) w :
  emits not_update m -> keeps_inputs m -> quiet_since w (snd (m w)).
Proof.
  intros He Hk. destruct (He w) as (evs & T & O).
  exists evs. repeat split; try assumption; apply Hk.
Qed.

Lemma quiet_getPersonProfile USER_ID w :
  quiet_since w (snd (getPersonProfile h cfg USER_ID w)).
Proof.
  apply quiet_since_run;
    [apply emits_getPersonProfile; reflexivity
    |apply keeps_getPersonProfile].
Qed.

Lemma quiet_createPersonProfile USER_ID privateKey w :
  quiet_since w (snd (createPersonProfile h cfg USER_ID privateKey w)).
Proof.
  apply quiet_since_run;
    [apply emits_createPersonProfile; reflexivity
    |apply keeps_createPersonProfile].
Qed.

Lemma quiet_postProfile USER_ID profile w :
  quiet_since w (snd (postProfile h cfg USER_ID profile w)).
Proof.
  apply quiet_since_run;
    [apply emits_postProfile; reflexivity
    |apply keeps_postProfile].
Qed.

Lemma quiet_catch_handler e w : quiet_since w (snd (catch_handler e w)).
Proof.
  apply quiet_since_run; [|apply keeps_catch_handler].
  unfold catch_handler. apply emits_mbind;
    [apply emits_console_log; reflexivity|].
  intros _. apply emits_callback. reflexivity.
Qed.

Lemma then_handlers_throw_quiet METADATA_at USER_ID privateKey w e w' :
  (forall profile n,
      fst (getPersonProfile h cfg USER_ID w) = Ok profile ->
      Object_keys_length profile <> Ok (S n)) ->
  then_handlers h cfg METADATA_at USER_ID privateKey w = (Throw e, w') ->
  quiet_since w w'.
Proof.
  intros Hnone. unfold then_handlers.
  cbv beta iota zeta delta [mbind mlift mthrow mret].
  pose proof (quiet_getPersonProfile USER_ID w) as Q1.
  destruct (getPersonProfile h cfg USER_ID w) as [[profile|e1] w1] eqn:E1;
    cbn [fst snd] in *;
    [|intros [= <- <-]; exact Q1].
  destruct (Object_keys_length profile) as [[|n]|e2] eqn:EK;
    [|exfalso; exact (Hnone profile n eq_refl EK)
     |intros [= <- <-]; exact Q1].
  cbn [Nat.eqb negb].
  pose proof (quiet_createPersonProfile USER_ID privateKey w1) as Q2.
  destruct (createPersonProfile h cfg USER_ID privateKey w1)
    as [[built|e2] w2]; cbn [fst snd] in *;
    [|intros [= <- <-]; exact (quiet_since_trans _ _ _ Q1 Q2)].
  pose proof (quiet_postProfile USER_ID built w2) as Q3.
  pose proof (quiet_since_trans _ _ _ Q1 (quiet_since_trans _ _ _ Q2 Q3))
    as Q.
  destruct (postProfile h cfg USER_ID built w2)
    as [[response|e3] w3]; cbn [fst snd] in *;
    [|intros [= <- <-]; exact Q].
  destruct (constructor_is_Object response) as [isObj|e4];
    [|intros [= <- <-]; exact Q].
  destruct (get_prop response "status_code") as [status_code|e5];
    [|intros [= <- <-]; exact Q].
  destruct (isObj && eq_num status_code 200);
    [discriminate|intros [= <- <-]; exact Q].
Qed.

Lemma promise_chain_unconfirmed METADATA_at USER_ID privateKey w :
  (forall profile n,
      fst (getPersonProfile h cfg USER_ID w) = Ok profile ->
      Object_keys_length profile <> Ok (S n)) ->
  fst (then_handlers h cfg METADATA_at USER_ID privateKey w) <> Ok tt ->
  quiet_since w (snd (promise_chain h cfg METADATA_at USER_ID privateKey w)).
Proof.
  intros Hnone Hfail. unfold promise_chain, try_catch.
  destruct (then_handlers h cfg METADATA_at USER_ID privateKey w)
    as [[[]|e] w1] eqn:E; [exfalso; apply Hfail; reflexivity|].
  exact (quiet_since_trans _ _ _
           (then_handlers_throw_quiet _ _ _ _ _ _ Hnone E)
           (quiet_catch_handler e w1)).
Qed.

Lemma quiet_drain w : quiet_since w (drain h w).
Proof.
  destruct (drain_trace h w) as (evs & T & O & U & C & F).
  exists evs. repeat split; try assumption.
  apply (forallb_weaken is_settlement); [|exact O].
  intros [] H; try discriminate H; reflexivity.
Qed.
End Unconfirmed.


(** X11: a run that gets past the gates, in which the store does not
    report a profile and the handlers of the chain do not run to
    their end (the token, the build, the signing or the submission
    failed, or the change endpoint did not answer with status 200),
    starts no metadata update and hands the user and the context back
    as they came. *)
Theorem unconfirmed_profile_is_not_marked :
  forall h cfg w,
    passes_gates cfg w = true ->
    let w0 := set_METADATA MetadataFresh [] w in
    let METADATA_at := METADATA_ref (the_user w) (the_context w) in
    let USER_ID :=
      js_or (primaryUser (the_context w)) (user_id (the_user w)) in
    (forall profile n,
        fst (getPersonProfile h cfg USER_ID w0) = Ok profile ->
        Object_keys_length profile <> Ok (S n)) ->
    (forall privateKey,
        changeapi_auth0_private_key cfg = Some privateKey ->
        fst (then_handlers h cfg METADATA_at USER_ID privateKey w0)
        <> Ok tt) ->
    exists evs,
      trace (snd (rule h cfg w)) = trace w ++ evs
      /\ forallb not_update evs = true
      /\ the_user (snd (rule h cfg w)) = the_user w
      /\ the_context (snd (rule h cfg w)) = the_context w.
Proof.
  intros h cfg w Hg w0 METADATA_at USER_ID Hnone Hfail.
  destruct (rule_past_gates h cfg w Hg) as (key & Hkey & ->).
  pose proof (promise_chain_unconfirmed h cfg METADATA_at USER_ID key w0
                Hnone (Hfail key Hkey)) as Q.
  fold w0 METADATA_at USER_ID. unfold mbind.
  destruct (promise_chain h cfg METADATA_at USER_ID key w0)
    as [[[]|e] w1]; cbn [fst snd mdo] in *.
  - destruct (quiet_since_trans _ _ _ Q (quiet_drain h w1))
      as (evs & T & O & U & C & _).
    exists evs. repeat split; assumption.
  - destruct Q as (evs & T & O & U & C & _).
    exists evs. repeat split; assumption.
Qed.

Lemma refused_submission_sample_run :
  let h := sample_host sample_skeleton refusing_fetch true in
  let w := initial_world (sample_user [github_identity]) sample_context in
  exists evs,
    trace (snd (rule h sample_configuration w)) = trace w ++ evs
    /\ forallb not_update evs = true
    /\ the_user (snd (rule h sample_configuration w)) = the_user w
    /\ the_context (snd (rule h sample_configuration w)) = the_context w.
Proof.
  apply (unconfirmed_profile_is_not_marked
           (sample_host sample_skeleton refusing_fetch true)
           sample_configuration
           (initial_world (sample_user [github_identity]) sample_context)).
  - vm_compute. reflexivity.
  - intros profile n E. vm_compute in E. injection E as <-.
    discriminate.
  - intros privateKey E. injection E as <-. vm_compute. discriminate.
Defined.

(** ** The only write on the user and the context *)

Lemma put_put k x ps : put k x (put k x ps) = put k x ps.
Proof.
  induction ps as [|[k' y] r IH]; simpl.
  - now rewrite String.eqb_refl.
  - destruct (String.eqb k k') eqn:E; simpl.
    + now rewrite String.eqb_refl.
    + now rewrite E, IH.
Qed.

Section OnlyTheFlag.
Variable h : host.
Variable cfg : configuration.
Variable r : metadata_ref.
Variable w0 : world.

Lemma at_most_marked_same w w' :
  same_inputs w' w -> at_most_marked r w0 w -> at_most_marked r w0 w'.
Proof.
  intros S [H|H]; [left|right]; exact (same_inputs_trans _ _ _ S H).
Qed.

Lemma preserves_keeps {A} (m : M A) :
  keeps_inputs m -> preserves (at_most_marked r w0) m.
Proof. intros Hk w Hw. exact (at_most_marked_same _ _ (Hk w) Hw). Qed.

Lemma preserves_mbind {A B} I (m : M A) (f : A -> M B) :
  preserves I m -> (forall a, preserves I (f a)) -> preserves I (mbind m f).
Proof.
  intros Hm Hf w Hw. unfold mbind. specialize (Hm w Hw).
  destruct (m w) as [[a|e] w1]; simpl in *; [|exact Hm].
  exact (Hf a w1 Hm).
Qed.

Lemma preserves_try_catch {A} I (m : M A) (handler : exn -> M A) :
  preserves I m -> (forall e, preserves I (handler e)) ->
  preserves I (try_catch m handler).
Proof.
  intros Hm Hh w Hw. unfold try_catch. specialize (Hm w Hw).
  destruct (m w) as [[a|e] w1]; simpl in *; [exact Hm|].
  exact (Hh e w1 Hm).
Qed.

Lemma marked_same w w' :
  same_inputs w w' -> same_inputs (marked r w) (marked r w').
Proof.
  intros (U & C & F). unfold marked, same_inputs.
  destruct r; cbn [METADATA set_METADATA the_user the_context fresh_metadata];
    rewrite ?U, ?C, ?F; repeat split.
Qed.

Lemma marked_twice w : same_inputs (marked r (marked r w)) (marked r w).
Proof.
  unfold marked, same_inputs.
  destruct r;
    cbn [METADATA set_METADATA the_user the_context fresh_metadata
         with_user_metadata with_primaryUserMetadata user_metadata
         primaryUserMetadata mapping];
    rewrite ?put_put; repeat split.
Qed.

Lemma preserves_setExistsInCIS USER_ID :
  preserves (at_most_marked r w0) (setExistsInCIS r USER_ID).
Proof.
  intros w Hw. right.
  assert (S : same_inputs (snd (setExistsInCIS r USER_ID w)) (marked r w))
    by (repeat split).
  apply (same_inputs_trans _ _ _ S).
  destruct Hw as [H|H].
  - exact (marked_same _ _ H).
  - exact (same_inputs_trans _ _ _ (marked_same _ _ H) (marked_twice w0)).
Qed.

Lemma preserves_promise_chain USER_ID privateKey :
  preserves (at_most_marked r w0) (promise_chain h cfg r USER_ID privateKey).
Proof.
  unfold promise_chain.
  apply preserves_try_catch;
    [|intros e; apply preserves_keeps, keeps_catch_handler].
  unfold then_handlers.
  apply preserves_mbind;
    [apply preserves_keeps, keeps_getPersonProfile|]. intros profile.
  apply preserves_mbind.
  - apply preserves_mbind;
      [apply preserves_keeps, (keeps_pure (fun _ => _))|]. intros n.
    destruct (negb (Nat.eqb n 0)).
    + apply preserves_mbind; [apply preserves_setExistsInCIS|]. intros _.
      apply preserves_keeps, (keeps_pure (fun _ => _)).
    + apply preserves_keeps, keeps_createPersonProfile.
  - intros built. apply preserves_mbind;
      [apply preserves_keeps, keeps_postProfile|]. intros response.
    apply preserves_mbind;
      [apply preserves_keeps, (keeps_pure (fun _ => _))|]. intros isObj.
    apply preserves_mbind;
      [apply preserves_keeps, (keeps_pure (fun _ => _))|]. intros status_code.
    destruct (isObj && eq_num status_code 200).
    + apply preserves_mbind;
        [apply preserves_keeps, keeps_console_log|]. intros _.
      apply preserves_mbind; [apply preserves_setExistsInCIS|]. intros _.
      apply preserves_keeps, keeps_callback.
    + apply preserves_keeps, (keeps_pure (fun _ => _)).
Qed.

Lemma keeps_drain : keeps_inputs (mdo (drain h)).
Proof.
  intros w. destruct (drain_settles h w) as (_ & U & C & F).
  repeat split; assumption.
Qed.
End OnlyTheFlag.

(** X12: whatever the host answers, the user and the context the rule
    ends with are those it was given, or those it was given with
    [existsInCIS = true] written on the metadata object [METADATA]
    stands for; nothing else of them is ever changed. *)
Theorem rule_writes_nothing_but_the_flag :
  forall h cfg w,
    let METADATA_at := METADATA_ref (the_user w) (the_context w) in
    let w' := snd (rule h cfg w) in
    (the_user w' = the_user w /\ the_context w' = the_context w)
    \/ (the_user w' = the_user (marked METADATA_at w)
        /\ the_context w' = the_context (marked METADATA_at w)).
Proof.
  intros h cfg w METADATA_at w'.
  set (w0 := set_METADATA MetadataFresh [] w).
  assert (H : at_most_marked METADATA_at w0 w').
  { subst w'. unfold rule. cbv zeta. fold w0.
    change (METADATA_ref (the_user w0) (the_context w0)) with METADATA_at.
    assert (I0 : at_most_marked METADATA_at w0 w0)
      by (left; apply same_inputs_refl).
    destruct (missing (changeapi_auth0_private_key cfg)
              || missing (changeapi_null_profile cfg)
              || missing (changeapi_url cfg)
              || missing (personapi_client_id cfg)
              || missing (personapi_client_secret cfg)
              || missing (personapi_url cfg)).
    - apply (preserves_keeps METADATA_at w0); [|exact I0].
      apply keeps_mbind; [apply keeps_console_log|]. intros _.
      apply keeps_callback.
    - revert I0. apply preserves_mbind;
        [apply preserves_keeps, (keeps_pure (fun _ => _))|].
      intros misconfigured. destruct misconfigured.
      + apply preserves_keeps, keeps_mbind;
          [apply keeps_console_log|]. intros _. apply keeps_callback.
      + destruct (negb (whitelisted (connectionStrategy (the_context w0))));
          [apply preserves_keeps, keeps_callback|].
        destruct (truthy (own_or_undefined "existsInCIS"
                            (VObj Plain (METADATA METADATA_at w0))));
          [apply preserves_keeps, keeps_callback|].
        apply preserves_mbind;
          [apply preserves_keeps, (keeps_pure (fun _ => _))|].
        intros privateKey. apply preserves_mbind;
          [apply preserves_promise_chain|]. intros _.
        apply preserves_keeps, keeps_drain. }
  destruct H as [(U & C & _)|(U & C & _)]; [left|right]; split.
  - exact U.
  - exact C.
  - rewrite U. unfold marked, METADATA_at.
    destruct (METADATA_ref (the_user w) (the_context w)); reflexivity.
  - rewrite C. unfold marked, METADATA_at.
    destruct (METADATA_ref (the_user w) (the_context w)); reflexivity.
Qed.

(** ** How many updates a run starts *)

Lemma METADATA_same r w w' :
  same_inputs w w' -> METADATA r w = METADATA r w'.
Proof.
  intros (U & C & F). destruct r; cbn [METADATA]; congruence.
Qed.

Lemma filter_is_update_quiet evs :
  forallb not_update evs = true -> filter is_update evs = [].
Proof.
  induction evs as [|e evs IH]; simpl; [reflexivity|].
  intros H. apply Bool.andb_true_iff in H as [He Hl].
  unfold not_update in He. apply Bool.negb_true_iff in He.
  rewrite He. exact (IH Hl).
Qed.

Section UpdatesOfARun.
Variable h : host.
Variable cfg : configuration.
Variable METADATA_at : metadata_ref.
Variable USER_ID : jsval.

Lemma quiet_updates w w' : quiet_since w w' -> updates_since METADATA_at USER_ID w w'.
Proof.
  intros (evs & T & O & _). exists evs. split; [exact T|].
  left. exact (filter_is_update_quiet _ O).
Qed.

Lemma quiet_then_updates w w1 w2 :
  quiet_since w w1 -> updates_since METADATA_at USER_ID w1 w2 -> updates_since METADATA_at USER_ID w w2.
Proof.
  intros (e1 & T1 & O1 & S1) (e2 & T2 & H2).
  exists (e1 ++ e2). split; [now rewrite T2, T1, app_assoc|].
  unfold at_most_one_update in *.
  rewrite filter_app, (filter_is_update_quiet _ O1),
    <- (METADATA_same METADATA_at _ _ S1).
  exact H2.
Qed.

Lemma updates_then_quiet w w1 w2 :
  updates_since METADATA_at USER_ID w w1 -> quiet_since w1 w2 -> updates_since METADATA_at USER_ID w w2.
Proof.
  intros (e1 & T1 & H1) (e2 & T2 & O2 & _).
  exists (e1 ++ e2). split; [now rewrite T2, T1, app_assoc|].
  unfold at_most_one_update in *.
  rewrite filter_app, (filter_is_update_quiet _ O2), app_nil_r.
  exact H1.
Qed.

Lemma updates_setExistsInCIS w :
  updates_since METADATA_at USER_ID w (snd (setExistsInCIS METADATA_at USER_ID w)).
Proof.
  destruct (setExistsInCIS_marks METADATA_at USER_ID w) as (_ & _ & T & _).
  eexists. split; [exact T|]. right. reflexivity.
Qed.

Lemma then_handlers_updates privateKey w :
  updates_since METADATA_at USER_ID w
    (snd (then_handlers h cfg METADATA_at USER_ID privateKey w)).
Proof.
  unfold then_handlers.
  cbv beta iota zeta delta [mbind mlift mthrow mret].
  pose proof (quiet_getPersonProfile h cfg USER_ID w) as Q1.
  destruct (getPersonProfile h cfg USER_ID w) as [[profile|e1] w1];
    cbn [fst snd] in *; [|exact (quiet_updates _ _ Q1)].
  destruct (Object_keys_length profile) as [[|n]|e2];
    [| |exact (quiet_updates _ _ Q1)].
  - cbn [Nat.eqb negb].
    pose proof (quiet_createPersonProfile h cfg USER_ID privateKey w1) as Q2.
    destruct (createPersonProfile h cfg USER_ID privateKey w1)
      as [[built|e2] w2]; cbn [fst snd] in *;
      [|exact (quiet_updates _ _ (quiet_since_trans _ _ _ Q1 Q2))].
    pose proof (quiet_postProfile h cfg USER_ID built w2) as Q3.
    pose proof (quiet_since_trans _ _ _ Q1 (quiet_since_trans _ _ _ Q2 Q3))
      as Q.
    destruct (postProfile h cfg USER_ID built w2)
      as [[response|e3] w3]; cbn [fst snd] in *;
      [|exact (quiet_updates _ _ Q)].
    destruct (constructor_is_Object response) as [isObj|e4];
      [|exact (quiet_updates _ _ Q)].
    destruct (get_prop response "status_code") as [status_code|e5];
      [|exact (quiet_updates _ _ Q)].
    destruct (isObj && eq_num status_code 200);
      [|exact (quiet_updates _ _ Q)].
    apply (quiet_then_updates _ _ _ Q).
    apply (quiet_then_updates _ (emit (EvLog LogProfileCreated) w3)).
    + exists [EvLog LogProfileCreated]. repeat split.
    + pose proof (updates_setExistsInCIS (emit (EvLog LogProfileCreated) w3))
        as U.
      destruct (setExistsInCIS_marks METADATA_at USER_ID
                  (emit (EvLog LogProfileCreated) w3)) as (R & _).
      unfold console_log, mdo.
      destruct (setExistsInCIS METADATA_at USER_ID
                  (emit (EvLog LogProfileCreated) w3)) as [[[]|e] w4];
        cbn [fst snd] in *; [|discriminate R].
      apply (updates_then_quiet _ _ _ U).
      apply quiet_since_run; [|apply keeps_callback].
      apply emits_callback. reflexivity.
  - cbn [Nat.eqb negb].
    apply (quiet_then_updates _ _ _ Q1).
    pose proof (updates_setExistsInCIS w1) as U.
    destruct (setExistsInCIS METADATA_at USER_ID w1) as [[[]|e] w2];
      exact U.
Qed.

Lemma promise_chain_updates privateKey w :
  updates_since METADATA_at USER_ID w
    (snd (promise_chain h cfg METADATA_at USER_ID privateKey w)).
Proof.
  unfold promise_chain, try_catch.
  pose proof (then_handlers_updates privateKey w) as U.
  destruct (then_handlers h cfg METADATA_at USER_ID privateKey w)
    as [[[]|e] w1]; cbn [fst snd] in *; [exact U|].
  exact (updates_then_quiet _ _ _ U (quiet_catch_handler e w1)).
Qed.
End UpdatesOfARun.

(** X13: whatever the host answers, a run starts at most one metadata
    update; when it starts one, the update is for the primary account
    if the context names one and else for the user, and it carries the
    metadata the rule found with [existsInCIS = true] written on it. *)
Theorem rule_starts_at_most_one_update :
  forall h cfg w,
    exists evs,
      trace (snd (rule h cfg w)) = trace w ++ evs
      /\ at_most_one_update
           (js_or (primaryUser (the_context w)) (user_id (the_user w)))
           (stored_metadata (the_user w) (the_context w)) evs.
Proof.
  intros h cfg w.
  set (w0 := set_METADATA MetadataFresh [] w).
  set (METADATA_at := METADATA_ref (the_user w) (the_context w)).
  set (USER_ID := js_or (primaryUser (the_context w)) (user_id (the_user w))).
  assert (Hmd : METADATA METADATA_at w0
                = stored_metadata (the_user w) (the_context w)).
  { unfold METADATA_at, METADATA_ref, stored_metadata.
    destruct (primaryUserMetadata (the_context w)) eqn:Ep;
      [cbn [METADATA w0 set_METADATA the_context]; now rewrite Ep|].
    destruct (user_metadata (the_user w)) eqn:Eu;
      cbn [METADATA w0 set_METADATA the_user fresh_metadata];
      [now rewrite Eu|reflexivity]. }
  assert (H : updates_since METADATA_at USER_ID w0 (snd (rule h cfg w))).
  { assert (Hquiet : forall m : M unit,
               emits not_update m -> keeps_inputs m ->
               updates_since METADATA_at USER_ID w0 (snd (m w0)))
      by (intros m He Hk; apply quiet_updates, quiet_since_run; assumption).
    assert (Hcb : emits not_update callback)
      by (apply emits_callback; reflexivity).
    unfold rule. cbv zeta. fold w0.
    change (METADATA_ref (the_user w0) (the_context w0)) with METADATA_at.
    change (js_or (primaryUser (the_context w0)) (user_id (the_user w0)))
      with USER_ID.
    destruct (missing (changeapi_auth0_private_key cfg)
              || missing (changeapi_null_profile cfg)
              || missing (changeapi_url cfg)
              || missing (personapi_client_id cfg)
              || missing (personapi_client_secret cfg)
              || missing (personapi_url cfg)).
    - apply Hquiet.
      + apply emits_mbind; [apply emits_console_log; reflexivity|].
        intros _. exact Hcb.
      + apply keeps_mbind; [apply keeps_console_log|]. intros _.
        apply keeps_callback.
    - unfold mbind at 1, mlift at 1.
      destruct (let! a := conf_includes (personapi_audience cfg) "https" in
                if (a : bool) then Ok true
                else conf_includes (personapi_url cfg) "/v")
        as [[|]|e]; [| |apply quiet_updates, quiet_since_refl].
      + apply Hquiet.
        * apply emits_mbind; [apply emits_console_log; reflexivity|].
          intros _. exact Hcb.
        * apply keeps_mbind; [apply keeps_console_log|]. intros _.
          apply keeps_callback.
      + destruct (negb (whitelisted (connectionStrategy (the_context w0))));
          [apply Hquiet; [exact Hcb|apply keeps_callback]|].
        destruct (truthy (own_or_undefined "existsInCIS"
                            (VObj Plain (METADATA METADATA_at w0))));
          [apply Hquiet; [exact Hcb|apply keeps_callback]|].
        unfold mbind at 1, mlift at 1.
        destruct (Buffer_from (changeapi_auth0_private_key cfg))
          as [privateKey|e]; [|apply quiet_updates, quiet_since_refl].
        unfold mbind.
        pose proof (promise_chain_updates h cfg METADATA_at USER_ID
                      privateKey w0) as U.
        destruct (promise_chain h cfg METADATA_at USER_ID privateKey w0)
          as [[[]|e] w1]; cbn [fst snd mdo] in *; [|exact U].
        exact (updates_then_quiet _ _ _ _ _ U (quiet_drain h w1)). }
  destruct H as (evs & T & A). exists evs. rewrite <- Hmd.
  split; [exact T|exact A].
Qed.

(** ** The profile builder *)

Lemma put_keeps_keys k x y ps :
  own k ps = Some y -> map fst (put k x ps) = map fst ps.
Proof.
  induction ps as [|[k' z] r IH]; simpl; [discriminate|].
  destruct (String.eqb_spec k k') as [->|Hne]; simpl; [reflexivity|].
  intros H. now rewrite (IH H).
Qed.

Lemma touches_only_refl ks p : touches_only ks p p.
Proof. split; [reflexivity|]. intros; reflexivity. Qed.

Lemma touches_only_trans ks p1 p2 p3 :
  touches_only ks p1 p2 -> touches_only ks p2 p3 -> touches_only ks p1 p3.
Proof.
  intros [K1 G1] [K2 G2]. split; [congruence|].
  intros k Hk. now rewrite (G2 k Hk), (G1 k Hk).
Qed.

Lemma touches_only_more ks ks' p p' :
  incl ks ks' -> touches_only ks p p' -> touches_only ks' p p'.
Proof.
  intros Hi [K G]. split; [exact K|].
  intros k Hk. apply G. intros Hin. exact (Hk (Hi _ Hin)).
Qed.

(** A write below the root key [k] keeps the root keys and what the
    other root keys hold. *)
Lemma assign_touches ks p k rest f x p' :
  In k ks -> assign p (k :: rest) f x = Ok p' -> touches_only ks p p'.
Proof.
  intros Hin H. split.
  - destruct (assign_below_root _ _ _ _ _ _ H)
      as (c & ps & ch & ch' & -> & Hch & Hrest & ->).
    simpl in Hch |- *. destruct (own k ps) as [y|] eqn:Eo.
    + exact (put_keeps_keys _ _ _ _ Eo).
    + injection Hch as <-. rewrite assign_undefined in Hrest.
      discriminate.
  - intros k0 Hk0. apply (assign_frame _ _ _ _ _ _ _ H).
    intros ->. exact (Hk0 Hin).
Qed.

Ltac touch :=
  repeat match goal with
         | H : assign ?p (_ :: _) _ _ = Ok ?p' |- touches_only ?ks _ ?p' =>
             apply (touches_only_trans ks _ p p');
             [|apply (fun Hin => assign_touches ks _ _ _ _ _ _ Hin H);
               simpl; tauto]
         end;
  try apply touches_only_refl.

Lemma map_provider_touches u now idn p p' :
  map_provider u now idn p = Ok p' ->
  touches_only ["identities"; "usernames"] p p'.
Proof.
  unfold map_provider, stamp, display_private. cbn [app].
  intros H. split_steps; touch.
Qed.

Lemma map_identity_touches u now i idn p p' :
  map_identity u now i idn p = Ok p' ->
  touches_only identity_attributes p p'.
Proof.
  unfold map_identity, store_login_method, stamp. cbn [app].
  intros H. split_steps; try apply touches_only_refl;
    match goal with
    | Hm : map_provider _ _ _ ?q = Ok ?p' |- touches_only _ _ ?p' =>
        apply (touches_only_trans _ _ q p');
        [unfold identity_attributes; touch
        |apply (touches_only_more ["identities"; "usernames"]);
         [intros k Hk; unfold identity_attributes; simpl in *; tauto
         |exact (map_provider_touches _ _ _ _ _ Hm)]]
    end.
Qed.

Lemma identities_loop_touches u now ids :
  forall i p p',
    identities_loop u now i ids p = Ok p' ->
    touches_only identity_attributes p p'.
Proof.
  induction ids as [|idn rest IH]; cbn [identities_loop]; intros i p p' H.
  - injection H as <-. apply touches_only_refl.
  - split_steps.
    exact (touches_only_trans _ _ _ _
             (map_identity_touches _ _ _ _ _ _ E) (IH _ _ _ H)).
Qed.

Lemma read_root_frame p p' k q :
  get_prop p' k = get_prop p k -> read p' (k :: q) = read p (k :: q).
Proof. simpl. now intros ->. Qed.

Lemma js_or_truthy a b : truthy b = true -> truthy (js_or a b) = true.
Proof. unfold js_or. destruct (truthy a) eqn:E; auto. Qed.

(** The value written under an attribute of lines 105-126 is still
    there when the loop over the identities is through. *)
Ltac value_of attr :=
  match goal with
  | Hs : stamp _ [attr] _ = Ok ?p1,
    Ha : assign ?p1 [attr] "value" _ = Ok ?p2,
    Hl : identities_loop _ _ _ _ _ = Ok ?p
    |- read ?p [attr; "value"] = _ =>
      let c := fresh "c" in
      let ps := fresh "ps" in
      let Hobj := fresh "Hobj" in
      destruct (stamp_leaves_object _ _ _ _ Hs) as (c & ps & Hobj);
      transitivity (read p2 [attr; "value"]);
      [apply read_root_frame;
       rewrite (proj2 (identities_loop_touches _ _ _ _ _ _ Hl) attr)
         by (unfold identity_attributes; simpl;
             intros [?|[?|[?|[]]]]; discriminate);
       frame_back; reflexivity
      |exact (assign_read_back _ _ _ _ _ _ _ Hobj Ha)]
  end.

(** X14: in a profile the builder completed, [active] holds [true],
    [user_id] the id the rule works for, [primary_email] the user's
    email, and [first_name] and [last_name] never hold a falsy value:
    the given name, respectively the family name, when the user has
    one, and when the user has no name at all the blank [" "]. *)
Theorem populate_writes_the_account_attributes :
  forall u USER_ID now skeleton p,
    populate u USER_ID now skeleton = Ok p ->
    read p ["active"; "value"] = Ok (VBool true)
    /\ read p ["user_id"; "value"] = Ok USER_ID
    /\ read p ["primary_email"; "value"] = Ok (email u)
    /\ (exists v,
          read p ["first_name"; "value"] = Ok v
          /\ truthy v = true
          /\ (truthy (given_name u) = true -> v = given_name u)
          /\ (truthy (given_name u) = false ->
              truthy (name u) = false ->
              truthy (family_name u) = false ->
              truthy (nickname u) = false -> v = VStr " "))
    /\ (exists v,
          read p ["last_name"; "value"] = Ok v
          /\ truthy v = true
          /\ (truthy (family_name u) = true -> v = family_name u)
          /\ (truthy (family_name u) = false -> v = VStr " ")).
Proof.
  intros u USER_ID now skeleton p H. unfold populate in H. split_steps.
  split; [value_of "active"|].
  split; [value_of "user_id"|].
  split; [value_of "primary_email"|].
  split.
  - eexists. split; [value_of "first_name"|].
    split; [repeat apply js_or_truthy; reflexivity|].
    split.
    + intros G. unfold js_or at 1. now rewrite G.
    + intros G1 G2 G3 G4. unfold js_or. now rewrite G1, G2, G3, G4.
  - eexists. split; [value_of "last_name"|].
    destruct (truthy (family_name u)) eqn:G.
    + split; [exact G|]. split; [reflexivity|discriminate].
    + split; [reflexivity|]. split; [discriminate|reflexivity].
Qed.

Lemma github_profile_account_attributes :
  read github_profile ["active"; "value"] = Ok (VBool true)
  /\ read github_profile ["user_id"; "value"] = Ok (VStr "github|12345")
  /\ read github_profile ["primary_email"; "value"]
     = Ok (email (sample_user [github_identity]))
  /\ (exists v,
        read github_profile ["first_name"; "value"] = Ok v
        /\ truthy v = true
        /\ (truthy (given_name (sample_user [github_identity])) = true ->
            v = given_name (sample_user [github_identity]))
        /\ (truthy (given_name (sample_user [github_identity])) = false ->
            truthy (name (sample_user [github_identity])) = false ->
            truthy (family_name (sample_user [github_identity])) = false ->
            truthy (nickname (sample_user [github_identity])) = false ->
            v = VStr " "))
  /\ (exists v,
        read github_profile ["last_name"; "value"] = Ok v
        /\ truthy v = true
        /\ (truthy (family_name (sample_user [github_identity])) = true ->
            v = family_name (sample_user [github_identity]))
        /\ (truthy (family_name (sample_user [github_identity])) = false ->
            v = VStr " ")).
Proof.
  apply (populate_writes_the_account_attributes
           (sample_user [github_identity]) (VStr "github|12345")
           sample_now sample_skeleton github_profile).
  vm_compute. reflexivity.
Defined.

Lemma populate_touches u USER_ID now skeleton p :
  populate u USER_ID now skeleton = Ok p ->
  exists q,
    touches_only account_attributes skeleton q
    /\ identities_loop u now 0 (identities u) q = Ok p.
Proof.
  unfold populate, stamp, display_private. cbn [app]. intros H.
  split_steps.
  match type of H with
  | identities_loop _ _ _ _ ?q = Ok _ => exists q
  end.
  split; [unfold account_attributes; touch|exact H].
Qed.

(** X15: a profile the builder completed has the root attributes of the
    skeleton, in their order, and every root attribute other than the
    five account attributes and [login_method], [identities] and
    [usernames] holds what the skeleton holds. *)
Theorem populate_keeps_the_other_attributes :
  forall u USER_ID now skeleton p,
    populate u USER_ID now skeleton = Ok p ->
    Object_keys p = Object_keys skeleton
    /\ forall k,
         ~ In k (account_attributes ++ identity_attributes) ->
         get_prop p k = get_prop skeleton k.
Proof.
  intros u USER_ID now skeleton p H.
  destruct (populate_touches _ _ _ _ _ H) as (q & Hq & Hl).
  apply (touches_only_trans _ skeleton q p).
  - apply (touches_only_more account_attributes); [|exact Hq].
    apply incl_appl, incl_refl.
  - apply (touches_only_more identity_attributes);
      [|exact (identities_loop_touches _ _ _ _ _ _ Hl)].
    apply incl_appr, incl_refl.
Qed.

Lemma github_profile_other_attributes :
  Object_keys github_profile = Object_keys sample_skeleton
  /\ forall k,
       ~ In k (account_attributes ++ identity_attributes) ->
       get_prop github_profile k = get_prop sample_skeleton k.
Proof.
  apply (populate_keeps_the_other_attributes
           (sample_user [github_identity]) (VStr "github|12345")
           sample_now sample_skeleton github_profile).
  vm_compute. reflexivity.
Defined.

Lemma identities_loop_none_whitelisted u now ids :
  forall i p,
    none_whitelisted ids = true -> identities_loop u now i ids p = Ok p.
Proof.
  induction ids as [|idn rest IH]; intros i p H; [reflexivity|].
  cbn [none_whitelisted forallb] in H.
  apply Bool.andb_true_iff in H as [Hw Hr].
  apply Bool.negb_true_iff in Hw.
  cbn [identities_loop]. rewrite (map_identity_skips _ _ _ _ _ Hw).
  cbn [rbind]. exact (IH _ _ Hr).
Qed.

(** X16: identities whose connection is not whitelisted leave no mark:
    when the user has no identity with a whitelisted connection, a
    profile the builder completed holds under [login_method],
    [identities] and [usernames], and under every root attribute other
    than the five account attributes, what the skeleton holds. *)
Theorem unlisted_identities_are_left_out :
  forall u USER_ID now skeleton p,
    none_whitelisted (identities u) = true ->
    populate u USER_ID now skeleton = Ok p ->
    forall k, ~ In k account_attributes ->
              get_prop p k = get_prop skeleton k.
Proof.
  intros u USER_ID now skeleton p Hn H.
  destruct (populate_touches _ _ _ _ _ H) as (q & Hq & Hl).
  rewrite (identities_loop_none_whitelisted _ _ _ _ _ Hn) in Hl.
  injection Hl as <-. exact (proj2 Hq).
Qed.

Lemma ldap_identity_is_left_out :
  get_prop ldap_profile "login_method"
  = get_prop sample_skeleton "login_method"
  /\ get_prop ldap_profile "identities"
     = get_prop sample_skeleton "identities"
  /\ get_prop ldap_profile "usernames"
     = get_prop sample_skeleton "usernames".
Proof.
  split; [|split];
    apply (unlisted_identities_are_left_out
             (sample_user [ldap_identity]) (VStr "github|12345")
             sample_now sample_skeleton ldap_profile);
    try (vm_compute; reflexivity);
    (unfold account_attributes; simpl;
     intros [?|[?|[?|[?|[?|[]]]]]]; discriminate).
Defined.

(** *** What the builder needs of the skeleton *)

Lemma get_prop_throws v k e : get_prop v k = Throw e -> e = TypeError.
Proof. destruct v; simpl; congruence. Qed.

Lemma set_prop_throws v k x e : set_prop v k x = Throw e -> e = TypeError.
Proof. destruct v; simpl; congruence. Qed.

Lemma assign_throws path :
  forall p f x e, assign p path f x = Throw e -> e = TypeError.
Proof.
  induction path as [|k rest IH]; intros p f x e; cbn [assign].
  - apply set_prop_throws.
  - destruct (get_prop p k) as [child|e0] eqn:Eg; cbn [rbind];
      [|intros [= <-]; exact (get_prop_throws _ _ _ Eg)].
    destruct (assign child rest f x) as [child'|e1] eqn:Ea; cbn [rbind];
      [discriminate|].
    intros [= <-]. exact (IH _ _ _ _ Ea).
Qed.

Ltac split_throw :=
  repeat match goal with
         | H : Ok _ = Throw _ |- _ => discriminate H
         | H : Throw _ = Throw _ |- _ => injection H as H; subst
         | H : assign _ _ _ _ = Throw ?e |- _ =>
             apply assign_throws in H; subst
         | H : get_prop _ _ = Throw ?e |- _ =>
             apply get_prop_throws in H; subst
         | H : rbind ?r _ = Throw _ |- _ =>
             let E := fresh "E" in
             destruct r eqn:E; cbn [rbind] in H
         | H : (if ?b then _ else _) = Throw _ |- _ => destruct b eqn:?
         end.

Lemma map_provider_throws u now idn p e :
  map_provider u now idn p = Throw e -> e = TypeError.
Proof.
  unfold map_provider, stamp, display_private. intros H.
  split_throw; reflexivity.
Qed.

Lemma identities_loop_throws u now ids :
  forall i p e, identities_loop u now i ids p = Throw e -> e = TypeError.
Proof.
  induction ids as [|idn rest IH]; cbn [identities_loop]; intros i p e H.
  - discriminate H.
  - destruct (map_identity u now i idn p) as [p1|e1] eqn:E; cbn [rbind] in H.
    + exact (IH _ _ _ H).
    + injection H as <-. clear IH.
      unfold map_identity, store_login_method, stamp in E.
      split_throw; try reflexivity;
        match goal with
        | Hm : map_provider _ _ _ _ = Throw _ |- _ =>
            exact (map_provider_throws _ _ _ _ _ Hm)
        end.
Qed.

Lemma populate_throws u USER_ID now skeleton e :
  populate u USER_ID now skeleton = Throw e -> e = TypeError.
Proof.
  unfold populate, stamp, display_private. intros H.
  split_throw; try reflexivity.
  exact (identities_loop_throws _ _ _ _ _ _ H).
Qed.

(** A write that succeeded found something to write on. *)
Lemma assign_needs path :
  forall p f x p', assign p path f x = Ok p' -> writable p path = true.
Proof.
  unfold writable.
  induction path as [|k rest IH]; intros p f x p'; cbn [assign read].
  - destruct p; simpl; congruence.
  - destruct (get_prop p k) as [child|] eqn:Eg; cbn [rbind]; [|discriminate].
    destruct (assign child rest f x) as [child'|] eqn:Ea; cbn [rbind];
      [|discriminate].
    intros _. exact (IH _ _ _ _ Ea).
Qed.

Ltac needs :=
  match goal with
  | H : assign ?p1 ?path _ _ = Ok _ |- writable ?skeleton ?path = true =>
      unfold writable;
      replace (read skeleton path) with (read p1 path)
        by (read_back; reflexivity);
      exact (assign_needs _ _ _ _ _ H)
  end.

Lemma populate_needs u USER_ID now skeleton p :
  populate u USER_ID now skeleton = Ok p ->
  forallb (stampable skeleton) account_attributes = true.
Proof.
  unfold populate, stamp, display_private. cbn [app]. intros H.
  split_steps. clear H.
  cbn [forallb account_attributes]. unfold stampable.
  repeat (apply Bool.andb_true_iff; split); try reflexivity; needs.
Qed.

(** X17: the builder cannot do without the account attributes.  When
    [metadata] or [signature.publisher] of one of [active],
    [first_name], [last_name], [primary_email] and [user_id] is missing
    from the skeleton (absent, [null], or below something absent), the
    builder throws a [TypeError], whatever the user; and a [TypeError]
    is all the builder ever throws. *)
Theorem populate_needs_the_account_attributes :
  forall u USER_ID now skeleton,
    (forall attr,
        In attr account_attributes ->
        stampable skeleton attr = false ->
        populate u USER_ID now skeleton = Throw TypeError)
    /\ (forall e,
          populate u USER_ID now skeleton = Throw e -> e = TypeError).
Proof.
  intros u USER_ID now skeleton.
  split; [|apply populate_throws].
  intros attr Hin Hs.
  destruct (populate u USER_ID now skeleton) as [p|e] eqn:E.
  - pose proof (populate_needs _ _ _ _ _ E) as Hall.
    rewrite forallb_forall in Hall. rewrite (Hall attr Hin) in Hs.
    discriminate Hs.
  - now rewrite (populate_throws _ _ _ _ _ E).
Qed.

Lemma skeleton_without_user_id_throws :
  populate (sample_user [github_identity]) (VStr "github|12345") sample_now
    skeleton_without_user_id
  = Throw TypeError.
Proof.
  apply (proj1 (populate_needs_the_account_attributes
                  (sample_user [github_identity]) (VStr "github|12345")
                  sample_now skeleton_without_user_id) "user_id").
  - vm_compute. tauto.
  - vm_compute. reflexivity.
Defined.

(** *** The identities and their slots *)

Lemma read_app p a :
  forall b, read p (a ++ b) = let! v := read p a in read v b.
Proof.
  revert p. induction a as [|k a IH]; intros p b; cbn [app read rbind];
    [reflexivity|].
  destruct (get_prop p k) as [child|e]; cbn [rbind]; [apply IH|reflexivity].
Qed.

Lemma read_prefix_eq p p' q r :
  read p' q = read p q -> read p' (q ++ r) = read p (q ++ r).
Proof. intros H. now rewrite !read_app, H. Qed.

(** After a write below [q], what [q] leads to is an object. *)
Lemma assign_prefix_object q :
  forall p k rest f x p',
    assign p (q ++ k :: rest) f x = Ok p' ->
    exists c ps, read p' q = Ok (VObj c ps).
Proof.
  induction q as [|k0 q IH]; intros p k rest f x p' H; cbn [app] in H;
    destruct (assign_below_root _ _ _ _ _ _ H)
      as (c & ps & ch & ch' & -> & Hch & Hrest & ->).
  - cbn [read]. eauto.
  - cbn [read get_prop]. rewrite own_put_same. cbn [rbind].
    exact (IH _ _ _ _ _ _ Hrest).
Qed.

(** Writing [o.p1...pn.f = x] where [o.p1...pn] is an object, and
    reading it back. *)
Lemma assign_read_same path :
  forall p f x p' c ps,
    read p path = Ok (VObj c ps) ->
    assign p path f x = Ok p' ->
    read p' (path ++ [f]) = Ok x.
Proof.
  induction path as [|k rest IH]; intros p f x p' c ps Hr H.
  - cbn [read] in Hr. injection Hr as ->. cbn [assign set_prop] in H.
    injection H as <-. cbn [app read get_prop]. rewrite own_put_same.
    reflexivity.
  - destruct (assign_below_root _ _ _ _ _ _ H)
      as (c0 & ps0 & ch & ch' & -> & Hch & Hrest & ->).
    cbn [read] in Hr. rewrite Hch in Hr. cbn [rbind] in Hr.
    cbn [app read get_prop]. rewrite own_put_same. cbn [rbind].
    exact (IH _ _ _ _ _ _ Hr Hrest).
Qed.

Lemma identities_loop_app u now pre :
  forall i post p,
    identities_loop u now i (pre ++ post) p
    = let! q := identities_loop u now i pre p in
      identities_loop u now (i + List.length pre) post q.
Proof.
  induction pre as [|idn pre IH]; intros i post p;
    cbn [app identities_loop List.length rbind].
  - now rewrite Nat.add_0_r.
  - destruct (map_identity u now i idn p) as [p1|e]; cbn [rbind];
      [|reflexivity].
    rewrite IH. now rewrite Nat.add_succ_r.
Qed.

Lemma map_identity_other_slot u now i idn p p' slot :
  In slot identity_slots ->
  writes_slot u slot idn = false ->
  map_identity u now i idn p = Ok p' ->
  read p' ["identities"; slot] = read p ["identities"; slot].
Proof.
  intros Hin Ho H. unfold writes_slot, slot_writes in Ho.
  unfold map_identity, store_login_method, map_provider, stamp,
    display_private in H.
  cbn [app] in H. revert Ho H.
  destruct (whitelisted (connection idn)); cbn [negb];
    [|intros _ H; injection H as <-; reflexivity].
  destruct Hin as [<-|[<-|[<-|[<-|[<-|[<-|[<-|[]]]]]]]];
    destruct (eq_str (provider idn) "github");
    try destruct (truthy (profileData idn));
    try destruct (eq_str (provider idn) "google-oauth2");
    try destruct (eq_str (connection idn) "firefoxaccounts"
                  && eq_str (provider idn) "oauth2");
    intros Ho H; try discriminate Ho;
    split_steps; read_back; reflexivity.
Qed.

Lemma identities_loop_other_slot u now slot ids :
  forall i p p',
    In slot identity_slots ->
    none_writes u slot ids = true ->
    identities_loop u now i ids p = Ok p' ->
    read p' ["identities"; slot] = read p ["identities"; slot].
Proof.
  induction ids as [|idn rest IH];
    cbn [identities_loop none_writes forallb]; intros i p p' Hin Ho H.
  - now injection H as <-.
  - apply Bool.andb_true_iff in Ho as [Ho Hr].
    apply Bool.negb_true_iff in Ho. split_steps.
    rewrite (IH _ _ _ Hin Hr H).
    exact (map_identity_other_slot _ _ _ _ _ _ _ Hin Ho E).
Qed.

Ltac value_written :=
  repeat match goal with
         | Hg : get_prop _ _ = Ok ?a |- _ =>
             apply get_prop_defined in Hg; subst a
         end;
  read_back;
  match goal with
  | Hp : assign _ ["identities"; ?slot; "signature"; "publisher"] _ _
         = Ok ?q,
    Hv : assign ?q ["identities"; ?slot] "value" ?x = Ok ?q'
    |- read ?q' ["identities"; ?slot; "value"] = Ok ?x =>
      let c := fresh "c" in
      let ps := fresh "ps" in
      let Hobj := fresh "Hobj" in
      destruct (assign_prefix_object ["identities"; slot] _ _ _ _ _ _ Hp)
        as (c & ps & Hobj);
      exact (assign_read_same ["identities"; slot] _ _ _ _ _ _ Hobj Hv)
  end.

Lemma map_identity_fills_slot u now i idn p p' slot v :
  In (slot, v) (slot_writes u idn) ->
  map_identity u now i idn p = Ok p' ->
  read p' ["identities"; slot; "value"] = Ok v.
Proof.
  intros Hs H. unfold slot_writes in Hs.
  unfold map_identity, store_login_method, map_provider, stamp,
    display_private in H.
  cbn [app] in H. revert Hs H.
  destruct (whitelisted (connection idn)); cbn [negb]; [|intros []].
  destruct (eq_str (provider idn) "github");
    [destruct (truthy (profileData idn))
    |destruct (eq_str (provider idn) "google-oauth2");
      [|destruct (eq_str (connection idn) "firefoxaccounts"
                  && eq_str (provider idn) "oauth2"); [|intros []]]];
    cbn [In]; intros Hs H;
    repeat match type of Hs with
           | _ \/ _ => destruct Hs as [Hs|Hs]
           | False => destruct Hs
           end;
    injection Hs as <- <-; split_steps; value_written.
Qed.

Lemma slot_writes_in u idn slot v :
  In (slot, v) (slot_writes u idn) -> In slot identity_slots.
Proof.
  unfold slot_writes, identity_slots.
  destruct (whitelisted (connection idn)); [|intros []].
  destruct (eq_str (provider idn) "github");
    [destruct (truthy (profileData idn))
    |destruct (eq_str (provider idn) "google-oauth2");
      [|destruct (eq_str (connection idn) "firefoxaccounts"
                  && eq_str (provider idn) "oauth2"); [|intros []]]];
    cbn [In]; intros Hs;
    repeat match type of Hs with
           | _ \/ _ => destruct Hs as [Hs|Hs]
           | False => destruct Hs
           end;
    injection Hs as <- _; tauto.
Qed.

Lemma populate_keeps_identities u USER_ID now skeleton p :
  populate u USER_ID now skeleton = Ok p ->
  exists q,
    get_prop q "identities" = get_prop skeleton "identities"
    /\ identities_loop u now 0 (identities u) q = Ok p.
Proof.
  intros H. destruct (populate_touches _ _ _ _ _ H) as (q & Hq & Hl).
  exists q. split; [|exact Hl].
  apply (proj2 Hq). unfold account_attributes. simpl.
  intros [?|[?|[?|[?|[?|[]]]]]]; discriminate.
Qed.

(** X18: an attribute of [profile.identities] is written only for an
    identity of its kind: when no identity of the user makes the loop
    write it (none is whitelisted and of its provider, and for
    [github_id_v4] and [github_primary_email] none carries
    [profileData]), a profile the builder completed holds there what
    the skeleton holds. *)
Theorem slot_without_an_identity_is_left_alone :
  forall u USER_ID now skeleton p slot,
    In slot identity_slots ->
    none_writes u slot (identities u) = true ->
    populate u USER_ID now skeleton = Ok p ->
    read p ["identities"; slot] = read skeleton ["identities"; slot].
Proof.
  intros u USER_ID now skeleton p slot Hin Ho H.
  destruct (populate_keeps_identities _ _ _ _ _ H) as (q & Hq & Hl).
  rewrite (identities_loop_other_slot _ _ _ _ _ _ _ Hin Ho Hl).
  exact (read_root_frame _ _ _ _ Hq).
Qed.

Lemma github_profile_has_no_github_id_v4 :
  read github_profile ["identities"; "github_id_v4"]
  = read sample_skeleton ["identities"; "github_id_v4"].
Proof.
  apply (slot_without_an_identity_is_left_alone
           (sample_user [github_identity]) (VStr "github|12345")
           sample_now sample_skeleton github_profile "github_id_v4").
  - simpl. tauto.
  - vm_compute. reflexivity.
  - vm_compute. reflexivity.
Defined.

(** X19: what the loop writes for an identity stays unless a later
    identity writes the same attribute: in a profile the builder
    completed, an attribute of [profile.identities] holds under [value]
    what the last identity that writes it gives - the id of the
    identity for [github_id_v3], [google_oauth2_id] and
    [firefox_accounts_id], [node_id] and [email] of its [profileData]
    for [github_id_v4] and [github_primary_email], and the email of the
    user for the primary email of Google and of Firefox Accounts. *)
Theorem last_identity_of_a_kind_fills_its_slot :
  forall u USER_ID now skeleton p pre idn post slot v,
    identities u = pre ++ idn :: post ->
    In (slot, v) (slot_writes u idn) ->
    none_writes u slot post = true ->
    populate u USER_ID now skeleton = Ok p ->
    read p ["identities"; slot; "value"] = Ok v.
Proof.
  intros u USER_ID now skeleton p pre idn post slot v Hids Hs Ho H.
  destruct (populate_keeps_identities _ _ _ _ _ H) as (q & _ & Hl).
  rewrite Hids, identities_loop_app in Hl. split_steps.
  cbn [identities_loop] in Hl. split_steps.
  pose proof (identities_loop_other_slot _ _ _ _ _ _ _
                (slot_writes_in _ _ _ _ Hs) Ho Hl) as Hpost.
  change ["identities"; slot; "value"]
    with (["identities"; slot] ++ ["value"]).
  rewrite (read_prefix_eq _ _ _ ["value"] Hpost).
  match goal with
  | Hm : map_identity _ _ _ idn _ = Ok _ |- _ =>
      exact (map_identity_fills_slot _ _ _ _ _ _ _ _ Hs Hm)
  end.
Qed.

Lemma twice_github_profile_holds_the_second_id :
  read twice_github_profile ["identities"; "github_id_v3"; "value"]
  = Ok (VStr "67890").
Proof.
  apply (last_identity_of_a_kind_fills_its_slot
           (sample_user
              [github_identity; google_identity; second_github_identity])
           (VStr "github|12345") sample_now sample_skeleton
           twice_github_profile
           [github_identity; google_identity] second_github_identity []
           "github_id_v3" (VStr "67890")).
  - reflexivity.
  - vm_compute. tauto.
  - reflexivity.
  - vm_compute. reflexivity.
Defined.

(** ** The signer, run again *)

Lemma del_absent k ps : own k ps = None -> del k ps = ps.
Proof.
  induction ps as [|[k' y] r IH]; simpl; [reflexivity|].
  destruct (String.eqb k k'); [discriminate|]. intros H. now rewrite IH.
Qed.

Lemma del_put_absent k x ps : own k ps = None -> del k (put k x ps) = ps.
Proof.
  induction ps as [|[k' y] r IH]; simpl.
  - now rewrite String.eqb_refl.
  - destruct (String.eqb k k') eqn:E; [discriminate|]. intros H.
    simpl. now rewrite E, IH.
Qed.

Lemma sbind_ok {A B} (m : signing A) (f : A -> signing B) l b :
  sbind m f = (l, Ok b) ->
  exists l1 a l2, m = (l1, Ok a) /\ f a = (l2, Ok b) /\ l = l1 ++ l2.
Proof.
  unfold sbind. destruct m as [l1 [a|e]]; [|discriminate].
  destruct (f a) as [l2 r] eqn:E. intros [= <- ->]. eauto 10.
Qed.

Lemma fst_sbind {A B} (m : signing A) (f : A -> signing B) :
  fst (sbind m f)
  = fst m ++ match snd m with Ok a => fst (f a) | Throw _ => [] end.
Proof.
  unfold sbind. destruct m as [l [a|e]]; simpl.
  - now destruct (f a).
  - now rewrite app_nil_r.
Qed.

Section SignerTwice.
Variable sign : jsval -> option string.

(** The coercion of lines 268-270 on an object: it is left as it is, or
    its truthy number becomes a string. *)
Lemma coerce_value_cases c ps :
  (coerce_value (VObj c ps) = Ok (VObj c ps)
   /\ forall z, own "value" ps = Some (VNum z) -> z = 0)
  \/ exists z, own "value" ps = Some (VNum z)
               /\ coerce_value (VObj c ps)
                  = Ok (VObj c (put "value" (VStr (number_toString z)) ps)).
Proof.
  unfold coerce_value. cbn [get_prop rbind].
  destruct (own "value" ps) as [[ | |b|z|s|c' ps']|] eqn:E;
    cbn [truthy is_number];
    rewrite ?Bool.andb_false_r;
    try (left; split; [reflexivity|discriminate]).
  destruct (Z.eqb_spec z 0) as [->|Hz]; cbn [negb andb].
  - left. split; [reflexivity|]. now intros z' [= <-].
  - right. exists z. split; reflexivity.
Qed.

Lemma sign_guard_false c ps :
  sign_guard (VObj c ps) = Ok false ->
  truthy (own_or_undefined "signature" (VObj c ps)) = true
  /\ (exists pub,
        get_prop (own_or_undefined "signature" (VObj c ps)) "publisher"
        = Ok pub)
  /\ is_null (own_or_undefined "value" (VObj c ps)) = false
  /\ is_null (own_or_undefined "values" (VObj c ps)) = false.
Proof.
  unfold sign_guard. rewrite !get_prop_own. cbn [rbind].
  destruct (truthy (own_or_undefined "signature" (VObj c ps)));
    cbn [negb]; [|discriminate].
  destruct (get_prop (own_or_undefined "signature" (VObj c ps)) "publisher")
    as [pub|]; cbn [rbind]; [|discriminate].
  destruct (get_prop pub "name") as [name|]; cbn [rbind]; [|discriminate].
  destruct (negb (eq_str name PUBLISHER_NAME)); [discriminate|].
  destruct (is_null (own_or_undefined "value" (VObj c ps)));
    [discriminate|].
  intros [= H]. eauto.
Qed.

(** What a completed [signAttribute] made of an object that went past
    its guard. *)
Lemma signAttribute_signed c ps l a :
  sign_guard (VObj c ps) = Ok false ->
  signAttribute sign (VObj c ps) = (l, Ok a) ->
  exists ps1 s,
    coerce_value (VObj c ps) = Ok (VObj c ps1)
    /\ sign (VObj c (del "signature" ps1)) = Some s
    /\ l = [VObj c (del "signature" ps1)]
    /\ a = VObj c (put "signature" (envelope s) (del "signature" ps1)).
Proof.
  intros Eg H. rewrite (signAttribute_signs sign _ _ Eg) in H.
  unfold payload_of in H.
  destruct (coerce_value_object c ps) as [ps1 E1]. rewrite E1 in H.
  cbn [delete_signature] in H.
  destruct (sign (VObj c (del "signature" ps1))) as [s|] eqn:Es;
    [|discriminate].
  cbn [set_prop] in H. injection H as <- <-. eauto 10.
Qed.

(** The object a completed [signAttribute] leaves goes past the guard
    again, and is handed to [jwt.sign] as the same payload. *)
Lemma signAttribute_twice c ps l a :
  signAttribute sign (VObj c ps) = (l, Ok a) ->
  signAttribute sign a = (l, Ok a).
Proof.
  intros H. destruct (sign_guard (VObj c ps)) as [[|]|e] eqn:Eg.
  - rewrite (signAttribute_skips sign _ Eg) in H. injection H as <- <-.
    exact (signAttribute_skips sign _ Eg).
  - destruct (signAttribute_signed _ _ _ _ Eg H)
      as (ps1 & s & E1 & Es & -> & ->).
    destruct (sign_guard_false _ _ Eg) as (_ & _ & Hv & Hvs).
    set (ps2 := put "signature" (envelope s) (del "signature" ps1)).
    assert (Hval : own "value" ps2 = own "value" ps1).
    { unfold ps2. rewrite own_put_other, own_del_other by discriminate.
      reflexivity. }
    assert (Hvals : own "values" ps2 = own "values" ps).
    { unfold ps2. rewrite own_put_other, own_del_other by discriminate.
      destruct (coerce_value_cases c ps) as [[E _]|(z & _ & E)];
        rewrite E in E1; injection E1 as <-; [reflexivity|].
      now rewrite own_put_other by discriminate. }
    assert (Hfix : forall z, own "value" ps1 = Some (VNum z) -> z = 0).
    { destruct (coerce_value_cases c ps) as [[E Hz]|(z & _ & E)];
        rewrite E in E1; injection E1 as <-; [exact Hz|].
      intros z'. rewrite own_put_same. discriminate. }
    assert (Hnn : is_null (own_or_undefined "value" (VObj c ps1)) = false).
    { destruct (coerce_value_cases c ps) as [[E _]|(z & _ & E)];
        rewrite E in E1; injection E1 as <-; [exact Hv|].
      cbn [own_or_undefined]. now rewrite own_put_same. }
    assert (Eg2 : sign_guard (VObj c ps2) = Ok false).
    { assert (Hsig : own "signature" ps2 = Some (envelope s))
        by apply own_put_same.
      unfold sign_guard. cbn [get_prop rbind]. rewrite !Hsig, Hval, Hvals.
      cbn [own_or_undefined] in Hnn, Hvs. cbn. rewrite Hnn, Hvs.
      reflexivity. }
    assert (Ec2 : coerce_value (VObj c ps2) = Ok (VObj c ps2)).
    { destruct (coerce_value_cases c ps2) as [[E _]|(z & Ez & _)];
        [exact E|].
      rewrite Hval in Ez. pose proof (Hfix _ Ez) as ->.
      unfold coerce_value. cbn [get_prop rbind]. rewrite Hval, Ez.
      reflexivity. }
    assert (Ep2 : payload_of (VObj c ps2) = VObj c (del "signature" ps1)).
    { unfold payload_of. rewrite Ec2. cbn [delete_signature]. unfold ps2.
      now rewrite (del_put_absent _ _ _ (own_del_same "signature" ps1)). }
    rewrite (signAttribute_signs sign _ _ Eg2), Ep2, Es. reflexivity.
  - rewrite (signAttribute_throws sign _ _ Eg) in H. discriminate H.
Qed.

(** A falsy child comes back from the callback as it is. *)
Lemma forEach_callback_falsy descend v l v' :
  truthy v = false ->
  forEach_callback sign descend v = (l, Ok v') -> l = [] /\ v' = v.
Proof.
  destruct v as [ | |b|z|s|c ps]; try discriminate; intros _;
    unfold forEach_callback; simpl; intros H; try discriminate H;
    injection H as <- <-; split; reflexivity.
Qed.

(** What the loop of [signAll] leaves under a key: nothing where there
    was nothing, and else what the callback made of the child. *)
Lemma forEach_own ps :
  forall l ps', forEach sign ps = (l, Ok ps') ->
  forall k,
    match own k ps with
    | None => own k ps' = None
    | Some v =>
        exists lv v',
          forEach_callback sign (signAll sign) v = (lv, Ok v')
          /\ own k ps' = Some v'
    end.
Proof.
  induction ps as [|[k0 attr] r IH]; intros l ps' H k.
  - injection H as <- <-. reflexivity.
  - rewrite forEach_cons in H.
    destruct (sbind_ok _ _ _ _ H) as (l1 & attr' & l2 & Hcb & H2 & ->).
    destruct (sbind_ok _ _ _ _ H2) as (l3 & r' & l4 & Hr & H4 & ->).
    injection H4 as <- <-. cbn [own].
    destruct (String.eqb k k0); [eauto|].
    exact (IH _ _ Hr k).
Qed.

(** What [signAll] makes of a container is a container again. *)
Lemma signAll_keeps_container ps l a :
  own "constructor" ps = None ->
  truthy (own_or_undefined "signature" (VObj Plain ps)) = false ->
  signAll sign (VObj Plain ps) = (l, Ok a) ->
  exists ps',
    a = VObj Plain ps'
    /\ own "constructor" ps' = None
    /\ truthy (own_or_undefined "signature" (VObj Plain ps')) = false.
Proof.
  intros Hc Hs H. rewrite signAll_object in H.
  destruct (sbind_ok _ _ _ _ H) as (l1 & ps' & l2 & Hf & H2 & ->).
  injection H2 as <- <-. exists ps'. split; [reflexivity|].
  pose proof (forEach_own _ _ _ Hf "constructor") as Kc.
  pose proof (forEach_own _ _ _ Hf "signature") as Ks.
  rewrite Hc in Kc. split; [exact Kc|].
  cbn [own_or_undefined] in Hs |- *.
  destruct (own "signature" ps) as [v|].
  - destruct Ks as (lv & v' & Hcb & ->).
    destruct (forEach_callback_falsy _ _ _ _ Hs Hcb) as [_ ->]. exact Hs.
  - now rewrite Ks.
Qed.

(** What [signAttribute] makes of a leaf is a leaf again. *)
Lemma signAttribute_keeps_leaf ps l a :
  own "constructor" ps = None ->
  truthy (own_or_undefined "signature" (VObj Plain ps)) = true ->
  signAttribute sign (VObj Plain ps) = (l, Ok a) ->
  exists ps',
    a = VObj Plain ps'
    /\ own "constructor" ps' = None
    /\ truthy (own_or_undefined "signature" (VObj Plain ps')) = true.
Proof.
  intros Hc Hs H. destruct (sign_guard (VObj Plain ps)) as [[|]|e] eqn:Eg.
  - rewrite (signAttribute_skips sign _ Eg) in H. injection H as <- <-.
    eauto.
  - destruct (signAttribute_signed _ _ _ _ Eg H)
      as (ps1 & s & E1 & _ & _ & ->).
    eexists. split; [reflexivity|]. split.
    + rewrite own_put_other, own_del_other by discriminate.
      destruct (coerce_value_cases Plain ps) as [[E _]|(z & _ & E)];
        rewrite E in E1; injection E1 as <-; [exact Hc|].
      now rewrite own_put_other by discriminate.
    + cbn [own_or_undefined]. now rewrite own_put_same.
  - rewrite (signAttribute_throws sign _ _ Eg) in H. discriminate H.
Qed.

Lemma forEach_callback_twice attr :
  (forall l a, signAll sign attr = (l, Ok a) ->
               signAll sign a = (l, Ok a)) ->
  forall l a,
    forEach_callback sign (signAll sign) attr = (l, Ok a) ->
    forEach_callback sign (signAll sign) a = (l, Ok a).
Proof.
  intros IH l a H.
  destruct attr as [ | |b|z|s|c ps];
    try (unfold forEach_callback in H; simpl in H; discriminate H);
    try (unfold forEach_callback in H; simpl in H; injection H as <- <-;
         reflexivity).
  destruct c;
    [|unfold forEach_callback in H; simpl in H; injection H as <- <-;
      reflexivity].
  destruct (own "constructor" ps) as [x|] eqn:Hc.
  - assert (E : forEach_callback sign (signAll sign) (VObj Plain ps)
                = ([], Ok (VObj Plain ps))).
    { apply forEach_callback_not_plain. simpl. now rewrite Hc. }
    rewrite E in H. injection H as <- <-. exact E.
  - destruct (truthy (own_or_undefined "signature" (VObj Plain ps)))
      eqn:Hs.
    + rewrite (forEach_callback_leaf sign _ _ Hc Hs) in H.
      destruct (signAttribute_keeps_leaf _ _ _ Hc Hs H)
        as (ps' & -> & Hc' & Hs').
      rewrite (forEach_callback_leaf sign _ _ Hc' Hs').
      exact (signAttribute_twice _ _ _ _ H).
    + assert (E : forall qs,
                 own "constructor" qs = None ->
                 truthy (own_or_undefined "signature" (VObj Plain qs))
                 = false ->
                 forEach_callback sign (signAll sign) (VObj Plain qs)
                 = signAll sign (VObj Plain qs)).
      { intros qs Hq Hsq. unfold forEach_callback.
        simpl constructor_is_Object.
        rewrite Hq, get_prop_own, !sbind_slift_ok, Hsq. reflexivity. }
      rewrite (E _ Hc Hs) in H.
      destruct (signAll_keeps_container _ _ _ Hc Hs H)
        as (ps' & -> & Hc' & Hs').
      rewrite (E _ Hc' Hs'). exact (IH _ _ H).
Qed.

Lemma forEach_twice ps :
  Forall (fun kv => forall l a,
              signAll sign (snd kv) = (l, Ok a) ->
              signAll sign a = (l, Ok a)) ps ->
  forall l ps', forEach sign ps = (l, Ok ps') ->
                forEach sign ps' = (l, Ok ps').
Proof.
  induction 1 as [|[k attr] r Hattr Hr IH]; intros l ps' H.
  - injection H as <- <-. reflexivity.
  - rewrite forEach_cons in H.
    destruct (sbind_ok _ _ _ _ H) as (l1 & attr' & l2 & Hcb & H2 & ->).
    destruct (sbind_ok _ _ _ _ H2) as (l3 & r' & l4 & Hr' & H4 & ->).
    injection H4 as <- <-.
    rewrite forEach_cons, (forEach_callback_twice _ Hattr _ _ Hcb).
    cbn [sbind]. rewrite (IH _ _ Hr'). reflexivity.
Qed.

Lemma signAll_twice profile :
  forall l a, signAll sign profile = (l, Ok a) ->
              signAll sign a = (l, Ok a).
Proof.
  induction profile as [ | |b|z|s|c ps IH] using jsval_ind; intros l a H;
    try discriminate H; try (injection H as <- <-; reflexivity).
  rewrite signAll_object in H.
  destruct (sbind_ok _ _ _ _ H) as (l1 & ps' & l2 & Hf & H2 & ->).
  injection H2 as <- <-.
  rewrite signAll_object, (forEach_twice _ IH _ _ Hf). reflexivity.
Qed.

(** *** What reaches [jwt.sign] *)

Lemma signAttribute_payloads attr :
  Forall clean_payload (fst (signAttribute sign attr)).
Proof.
  destruct attr as [ | |b|z|s|c ps]; try (constructor; fail).
  destruct (sign_guard (VObj c ps)) as [[|]|e] eqn:Eg.
  - rewrite (signAttribute_skips sign _ Eg). constructor.
  - rewrite (signAttribute_signs sign _ _ Eg).
    assert (Hp : clean_payload (payload_of (VObj c ps))).
    { unfold payload_of, clean_payload.
      destruct (coerce_value_cases c ps) as [[E Hz]|(z & _ & E)];
        rewrite E; cbn [delete_signature own_or_undefined];
        rewrite own_del_same, own_del_other by discriminate;
        (split; [reflexivity|]).
      - intros z. destruct (own "value" ps) as [v|]; [|discriminate].
        intros ->. now apply Hz.
      - intros z'. rewrite own_put_same. discriminate. }
    destruct (sign (payload_of (VObj c ps))); cbn [fst];
      (apply Forall_cons; [exact Hp|constructor]).
  - rewrite (signAttribute_throws sign _ _ Eg). constructor.
Qed.

Lemma forEach_callback_payloads attr :
  Forall clean_payload (fst (signAll sign attr)) ->
  Forall clean_payload (fst (forEach_callback sign (signAll sign) attr)).
Proof.
  intros IH.
  destruct attr as [ | |b|z|s|c ps]; try (constructor; fail).
  destruct c; [|constructor].
  destruct (own "constructor" ps) as [x|] eqn:Hc.
  - rewrite forEach_callback_not_plain; [constructor|].
    simpl. now rewrite Hc.
  - destruct (truthy (own_or_undefined "signature" (VObj Plain ps)))
      eqn:Hs.
    + rewrite (forEach_callback_leaf sign _ _ Hc Hs).
      apply signAttribute_payloads.
    + unfold forEach_callback. simpl constructor_is_Object.
      rewrite Hc, get_prop_own, !sbind_slift_ok, Hs. exact IH.
Qed.

Lemma forEach_payloads ps :
  Forall (fun kv => Forall clean_payload (fst (signAll sign (snd kv)))) ps ->
  Forall clean_payload (fst (forEach sign ps)).
Proof.
  induction 1 as [|[k attr] r Hattr Hr IH]; [constructor|].
  rewrite forEach_cons, fst_sbind. apply Forall_app. split.
  - exact (forEach_callback_payloads _ Hattr).
  - destruct (snd (forEach_callback sign (signAll sign) attr));
      [|constructor].
    rewrite fst_sbind. apply Forall_app. split; [exact IH|].
    destruct (snd (forEach sign r)); constructor.
Qed.

Lemma signAll_payloads profile :
  Forall clean_payload (fst (signAll sign profile)).
Proof.
  induction profile as [ | |b|z|s|c ps IH] using jsval_ind;
    try (constructor; fail).
  rewrite signAll_object, fst_sbind. apply Forall_app. split.
  - exact (forEach_payloads _ IH).
  - destruct (snd (forEach sign ps)); constructor.
Qed.
End SignerTwice.

(** X20: whatever the tree and whatever the signer answers, nothing
    that [signAll] hands to [jwt.sign] carries a [signature], and none
    carries under [value] a number other than 0: the old signature is
    always taken off first, and a non-zero number is always made a
    string first. *)
Theorem jwt_sign_never_sees_a_signature :
  forall sign profile,
    Forall clean_payload (fst (signAll sign profile))
    /\ forall attr, Forall clean_payload (fst (signAttribute sign attr)).
Proof.
  intros sign profile. split.
  - apply signAll_payloads.
  - apply signAttribute_payloads.
Qed.

(** X21: signing is idempotent.  When [signAll] completes on a tree,
    running it again on the signed tree hands [jwt.sign] the same
    payloads in the same order and, the signer giving the same
    signatures, leaves the signed tree as it is; and so does
    [signAttribute] on an attribute it has signed. *)
Theorem signAll_again_changes_nothing :
  forall sign profile payloads signed,
    signAll sign profile = (payloads, Ok signed) ->
    signAll sign signed = (payloads, Ok signed)
    /\ forall c ps l a,
         signAttribute sign (VObj c ps) = (l, Ok a) ->
         signAttribute sign a = (l, Ok a).
Proof.
  intros sign profile payloads signed H. split.
  - exact (signAll_twice sign _ _ _ H).
  - apply signAttribute_twice.
Qed.

Lemma signed_sample_tree_signed_again :
  signAll sample_sign signed_sample_tree
  = (fst (signAll sample_sign sample_tree), Ok signed_sample_tree)
  /\ forall c ps l a,
       signAttribute sample_sign (VObj c ps) = (l, Ok a) ->
       signAttribute sample_sign a = (l, Ok a).
Proof.
  apply (signAll_again_changes_nothing sample_sign sample_tree
           (fst (signAll sample_sign sample_tree)) signed_sample_tree).
  vm_compute. reflexivity.
Defined.

(** ** What is sent to the change endpoint *)

Lemma filter_is_submission_quiet evs :
  forallb not_submission evs = true -> filter is_submission evs = [].
Proof.
  induction evs as [|e evs IH]; simpl; [reflexivity|].
  intros H. apply Bool.andb_true_iff in H as [He Hl].
  unfold not_submission in He. apply Bool.negb_true_iff in He.
  rewrite He. exact (IH Hl).
Qed.

Section Submission.
Variable h : host.
Variable cfg : configuration.
Variable METADATA_at : metadata_ref.
Variable USER_ID : jsval.

Lemma unsubmitted_refl w : unsubmitted_since w w.
Proof. exists []. now rewrite app_nil_r. Qed.

Lemma unsubmitted_trans w1 w2 w3 :
  unsubmitted_since w1 w2 -> unsubmitted_since w2 w3 ->
  unsubmitted_since w1 w3.
Proof.
  intros (e1 & T1 & O1) (e2 & T2 & O2). exists (e1 ++ e2).
  split; [now rewrite T2, T1, app_assoc|now rewrite forallb_app, O1, O2].
Qed.

Lemma unsubmitted_run {A} (m : M A) w :
  emits not_submission m -> unsubmitted_since w (snd (m w)).
Proof. intros He. exact (He w). Qed.

Lemma unsubmitted_then_submitted profile w w1 w2 :
  unsubmitted_since w w1 -> submitted_since cfg profile w1 w2 ->
  submitted_since cfg profile w w2.
Proof.
  intros (e1 & T1 & O1) (e2 & T2 & H2). exists (e1 ++ e2).
  split; [now rewrite T2, T1, app_assoc|].
  now rewrite filter_app, (filter_is_submission_quiet _ O1).
Qed.

Lemma submitted_then_unsubmitted profile w w1 w2 :
  submitted_since cfg profile w w1 -> unsubmitted_since w1 w2 ->
  submitted_since cfg profile w w2.
Proof.
  intros (e1 & T1 & H1) (e2 & T2 & O2). exists (e1 ++ e2).
  split; [now rewrite T2, T1, app_assoc|].
  now rewrite filter_app, (filter_is_submission_quiet _ O2), app_nil_r.
Qed.

Lemma unsubmitted_submitted profile w w' :
  unsubmitted_since w w' -> submitted_since cfg profile w w'.
Proof.
  intros (evs & T & O). exists evs. split; [exact T|].
  left. exact (filter_is_submission_quiet _ O).
Qed.

Lemma unsubmitted_getBearerToken w :
  unsubmitted_since w (snd (getBearerToken h cfg w)).
Proof. apply unsubmitted_run, emits_getBearerToken; reflexivity. Qed.

Lemma unsubmitted_getPersonProfile w :
  unsubmitted_since w (snd (getPersonProfile h cfg USER_ID w)).
Proof. apply unsubmitted_run, emits_getPersonProfile; reflexivity. Qed.

Lemma unsubmitted_createPersonProfile privateKey w :
  unsubmitted_since w (snd (createPersonProfile h cfg USER_ID privateKey w)).
Proof. apply unsubmitted_run, emits_createPersonProfile; reflexivity. Qed.

Lemma unsubmitted_catch_handler e w :
  unsubmitted_since w (snd (catch_handler e w)).
Proof.
  apply unsubmitted_run. unfold catch_handler.
  apply emits_mbind; [apply emits_console_log; reflexivity|].
  intros _. apply emits_callback. reflexivity.
Qed.

Lemma unsubmitted_setExistsInCIS w :
  unsubmitted_since w (snd (setExistsInCIS METADATA_at USER_ID w)).
Proof. apply unsubmitted_run, emits_setExistsInCIS. reflexivity. Qed.

Lemma unsubmitted_drain w : unsubmitted_since w (drain h w).
Proof.
  destruct (drain_trace h w) as (evs & T & O & _).
  exists evs. split; [exact T|].
  apply (forallb_weaken is_settlement); [|exact O].
  intros [] H; try discriminate H; reflexivity.
Qed.

(** [postProfile] sends the change endpoint the profile it was given,
    once, or nothing. *)
Lemma postProfile_submits profile w :
  submitted_since cfg profile w (snd (postProfile h cfg USER_ID profile w)).
Proof.
  unfold postProfile.
  cbv beta iota zeta delta [mbind mlift console_log mdo].
  apply (unsubmitted_then_submitted _ _ (emit (EvLog LogPostingProfile) w));
    [exists [EvLog LogPostingProfile]; split; reflexivity|].
  pose proof (unsubmitted_getBearerToken (emit (EvLog LogPostingProfile) w))
    as Q.
  destruct (getBearerToken h cfg (emit (EvLog LogPostingProfile) w))
    as [[bearer|e] w1]; cbn [fst snd] in *;
    [|exact (unsubmitted_submitted _ _ _ Q)].
  apply (unsubmitted_then_submitted _ _ _ _ Q).
  destruct (encodeURI_USER_ID h USER_ID) as [uid|e];
    [|apply unsubmitted_submitted, unsubmitted_refl].
  match goal with
  | |- submitted_since _ _ _ (snd (fetch_json _ ?r _)) =>
      exists [EvFetch r]
  end.
  split.
  - unfold fetch_json.
    destruct (fetch h (fetch_calls w1) _) as [|st [v|]]; reflexivity.
  - right. exists bearer, uid. reflexivity.
Qed.

Lemma then_handlers_submits privateKey w :
  submitted_what_was_built h cfg USER_ID privateKey w
    (snd (then_handlers h cfg METADATA_at USER_ID privateKey w)).
Proof.
  unfold then_handlers, submitted_what_was_built.
  cbv beta iota zeta delta [mbind mlift mthrow mret].
  pose proof (unsubmitted_getPersonProfile w) as Q1.
  destruct (getPersonProfile h cfg USER_ID w) as [[profile|e1] w1] eqn:E1;
    cbn [fst snd] in *; [|left; exact Q1].
  destruct (Object_keys_length profile) as [[|n]|e2] eqn:EK;
    [| |left; exact Q1].
  - cbn [Nat.eqb negb].
    pose proof (unsubmitted_createPersonProfile privateKey w1) as Q2.
    destruct (createPersonProfile h cfg USER_ID privateKey w1)
      as [[built|e2] w2] eqn:E2; cbn [fst snd] in *;
      [|left; exact (unsubmitted_trans _ _ _ Q1 Q2)].
    right. exists profile, w1, built, w2.
    split; [reflexivity|]. split; [exact EK|]. split; [exact E2|].
    apply (unsubmitted_then_submitted _ _ _ _
             (unsubmitted_trans _ _ _ Q1 Q2)).
    pose proof (postProfile_submits built w2) as Q3.
    destruct (postProfile h cfg USER_ID built w2)
      as [[response|e3] w3]; cbn [fst snd] in *; [|exact Q3].
    destruct (constructor_is_Object response) as [isObj|e4]; [|exact Q3].
    destruct (get_prop response "status_code") as [status_code|e5];
      [|exact Q3].
    destruct (isObj && eq_num status_code 200); [|exact Q3].
    apply (submitted_then_unsubmitted _ _ _ _ Q3).
    unfold console_log, mdo.
    apply (unsubmitted_trans _ (emit (EvLog LogProfileCreated) w3));
      [exists [EvLog LogProfileCreated]; split; reflexivity|].
    pose proof (unsubmitted_setExistsInCIS
                  (emit (EvLog LogProfileCreated) w3)) as Q4.
    destruct (setExistsInCIS METADATA_at USER_ID
                (emit (EvLog LogProfileCreated) w3)) as [[[]|e] w4];
      cbn [fst snd] in *; [|exact Q4].
    apply (unsubmitted_trans _ _ _ Q4).
    apply unsubmitted_run, emits_callback. reflexivity.
  - cbn [Nat.eqb negb]. left.
    apply (unsubmitted_trans _ _ _ Q1).
    pose proof (unsubmitted_setExistsInCIS w1) as Q2.
    destruct (setExistsInCIS METADATA_at USER_ID w1) as [[[]|e] w2];
      exact Q2.
Qed.

Lemma submitted_what_was_built_then privateKey w w1 w2 :
  submitted_what_was_built h cfg USER_ID privateKey w w1 ->
  unsubmitted_since w1 w2 ->
  submitted_what_was_built h cfg USER_ID privateKey w w2.
Proof.
  intros [Q|(profile & wp & built & wb & E1 & EK & E2 & Q)] Q';
    [left; exact (unsubmitted_trans _ _ _ Q Q')|].
  right. exists profile, wp, built, wb. repeat (split; [assumption|]).
  exact (submitted_then_unsubmitted _ _ _ _ Q Q').
Qed.

Lemma promise_chain_submits privateKey w :
  submitted_what_was_built h cfg USER_ID privateKey w
    (snd (promise_chain h cfg METADATA_at USER_ID privateKey w)).
Proof.
  unfold promise_chain, try_catch.
  pose proof (then_handlers_submits privateKey w) as U.
  destruct (then_handlers h cfg METADATA_at USER_ID privateKey w)
    as [[[]|e] w1]; cbn [fst snd] in *; [exact U|].
  exact (submitted_what_was_built_then _ _ _ _ U
           (unsubmitted_catch_handler e w1)).
Qed.
End Submission.

(** X22: whatever the host answers, a run sends the change endpoint
    nothing, or one request; and it sends one only after the store, asked
    at the start of the chain, answered with a body without keys, and
    the builder and the signer completed: what is sent then is the
    profile they made, in a POST to the change endpoint of the
    configuration. *)
Theorem nothing_is_submitted_but_the_built_profile :
  forall h cfg w,
    let w0 := set_METADATA MetadataFresh [] w in
    let USER_ID :=
      js_or (primaryUser (the_context w)) (user_id (the_user w)) in
    exists evs,
      trace (snd (rule h cfg w)) = trace w ++ evs
      /\ (filter is_submission evs = []
          \/ exists privateKey profile w1 built w2 bearer uid,
               changeapi_auth0_private_key cfg = Some privateKey
               /\ getPersonProfile h cfg USER_ID w0 = (Ok profile, w1)
               /\ Object_keys_length profile = Ok 0%nat
               /\ createPersonProfile h cfg USER_ID privateKey w1
                  = (Ok built, w2)
               /\ filter is_submission evs
                  = [EvFetch (change_request cfg bearer uid built)]).
Proof.
  intros h cfg w w0 USER_ID.
  set (METADATA_at := METADATA_ref (the_user w) (the_context w)).
  assert (Hquiet : forall w', unsubmitted_since w0 w' ->
            exists evs,
              trace w' = trace w ++ evs
              /\ (filter is_submission evs = []
                  \/ exists privateKey profile w1 built w2 bearer uid,
                       changeapi_auth0_private_key cfg = Some privateKey
                       /\ getPersonProfile h cfg USER_ID w0
                          = (Ok profile, w1)
                       /\ Object_keys_length profile = Ok 0%nat
                       /\ createPersonProfile h cfg USER_ID privateKey w1
                          = (Ok built, w2)
                       /\ filter is_submission evs
                          = [EvFetch (change_request cfg bearer uid built)])).
  { intros w' (evs & T & O). exists evs. split; [exact T|].
    left. exact (filter_is_submission_quiet _ O). }
  assert (Hcb : emits not_submission callback)
    by (apply emits_callback; reflexivity).
  assert (Hlog : forall l, emits not_submission (console_log l ;;; callback)).
  { intros l. apply emits_mbind; [apply emits_console_log; reflexivity|].
    intros _. exact Hcb. }
  unfold rule. cbv zeta. fold w0.
  change (METADATA_ref (the_user w0) (the_context w0)) with METADATA_at.
  change (js_or (primaryUser (the_context w0)) (user_id (the_user w0)))
    with USER_ID.
  destruct (missing (changeapi_auth0_private_key cfg)
            || missing (changeapi_null_profile cfg)
            || missing (changeapi_url cfg)
            || missing (personapi_client_id cfg)
            || missing (personapi_client_secret cfg)
            || missing (personapi_url cfg));
    [apply Hquiet, (Hlog _ w0)|].
  unfold mbind at 1, mlift at 1.
  destruct (let! a := conf_includes (personapi_audience cfg) "https" in
            if (a : bool) then Ok true
            else conf_includes (personapi_url cfg) "/v")
    as [[|]|e]; [apply Hquiet, (Hlog _ w0)| |apply Hquiet, unsubmitted_refl].
  destruct (negb (whitelisted (connectionStrategy (the_context w0))));
    [apply Hquiet, (Hcb w0)|].
  destruct (truthy (own_or_undefined "existsInCIS"
                      (VObj Plain (METADATA METADATA_at w0))));
    [apply Hquiet, (Hcb w0)|].
  unfold mbind at 1, mlift at 1.
  destruct (changeapi_auth0_private_key cfg) as [privateKey|] eqn:Ekey;
    cbn [Buffer_from]; [|apply Hquiet, unsubmitted_refl].
  unfold mbind.
  pose proof (promise_chain_submits h cfg METADATA_at USER_ID privateKey w0)
    as U.
  assert (U' : submitted_what_was_built h cfg USER_ID privateKey w0
                 (snd (match promise_chain h cfg METADATA_at USER_ID
                               privateKey w0 with
                       | (Ok _, w') => mdo (drain h) w'
                       | (Throw e, w') => (Throw e, w')
                       end))).
  { destruct (promise_chain h cfg METADATA_at USER_ID privateKey w0)
      as [[[]|e] w1]; cbn [fst snd mdo] in *; [|exact U].
    exact (submitted_what_was_built_then _ _ _ _ _ _ _ U
             (unsubmitted_drain h w1)). }
  destruct U' as [Q|(profile & wp & built & wb & E1 & EK & E2
                     & evs & T & [F|(bearer & uid & F)])].
  - exact (Hquiet _ Q).
  - exists evs. split; [exact T|]. left. exact F.
  - exists evs. split; [exact T|]. right.
    exists privateKey, profile, wp, built, wb, bearer, uid.
    repeat (split; [assumption || reflexivity|]). exact F.
Qed.

(** ** The signer on the trees of the data model *)



Section SignerOnTheDataModel.
Variable sign : jsval -> option string.






End SignerOnTheDataModel.

(** ** The design document on which children are signed *)


(** A list is a child without a signature sub-record, and it is not
    entered either: the leaf it holds stays unsigned. *)
Example signAll_passes_over_a_leaf_in_a_list :
  signAll sample_sign tree_with_a_list_of_leaves
  = ([], Ok tree_with_a_list_of_leaves)
  /\ List.length (claimed_signable_nodes tree_with_a_list_of_leaves) = 1%nat.
Proof. split; reflexivity. Qed.


